(** * vietnam-weather-forecast: the merge-and-derive analytics engine

    A shallow embedding of the Django views of the repository and the
    properties its specification states about them:

    - [views_obs]    : [merged_timeseries], the hourly merge of observation
                       and forecast rows;
    - [views_alerts] : the rule-based hazard ladders, their combination and
                       the 1h/3h/6h rain accumulator;
    - [views_flood]  : effective rainfall, the bands and the combined flood
                       risk score;
    - [dem_utils]    : local relief sampled from the elevation raster.

    Numbers.  Python [int] is [Z].  Python [float] is binary64, the
    kernel's primitive floats, wherever a result depends on how a sum or a
    product is rounded: the tiers of the three hazard builders, decided by
    comparing a computed value with a threshold, and [_combined_risk_score],
    which rounds a float to an integer (module [binary64] and
    [views_flood]).  Properties that do not depend on the side of a
    threshold a value falls on (the shape of a hazard, the bundle, the
    texts, the identities between the rain formulas) are stated on exact
    rationals [Q], where every finite binary64 value is a rational and the
    sums and products are taken without rounding error; NaN and the
    infinities have no counterpart there (the raster sampler, where the
    source tests [math.isfinite], has a value type of its own).

    Instants are whole seconds since the epoch in UTC, as [Z] (the hourly
    tables hold no fractions of a second); [timedelta(hours=1)] is 3600.
    Python's [None] is [None] of an option type, or a constructor of its own
    where a value of any type may be passed; a raised exception is the left
    summand of [result]. *)

From Stdlib Require Import ZArith QArith Qminmax Qround Lqa Lia List.
From Stdlib Require Import Floats Uint63 String Ascii.
From stdpp Require Import base option list gmap strings.

Set Warnings "-inexact-float".
Local Open Scope Z_scope.

(** ** Python built-ins used by the views *)

Module Py.

(** Comparisons of floats, as booleans. *)
Definition Qleb (x y : Q) : bool := Qle_bool x y.
Definition Qltb (x y : Q) : bool := negb (Qle_bool y x).
Definition Qgeb (x y : Q) : bool := Qle_bool y x.
Definition Qgtb (x y : Q) : bool := negb (Qle_bool x y).

(** [max(a, b)] and [min(a, b)]: the first argument is kept unless the
    second is strictly greater (smaller). *)
Definition max (a b : Q) : Q := if Qgtb b a then b else a.
Definition min (a b : Q) : Q := if Qltb b a then b else a.

(** [abs(x)] on floats. *)
Definition abs (x : Q) : Q := if Qltb x 0 then (- x)%Q else x.

(** [max(xs)] of a non-empty list of floats, [None] for the empty one
    (the callers test emptiness first). *)
Definition max_list (xs : list Q) : option Q :=
  match xs with
  | [] => None
  | x :: rest => Some (foldl max x rest)
  end.

(** A value handed to [float(...)]: [None], a number, or something
    [float] raises on (a non-numeric string, a list, ...). *)
Inductive arg : Type :=
| ANone
| ANum (q : Q)
| AOther.

(** Exceptions: only whether one was raised matters to the callers, all of
    which catch [Exception]. *)
Inductive exn : Type :=
| RuntimeError (msg : string)
| OtherError (msg : string).

Definition result (A : Type) : Type := exn + A.
#[global] Instance result_ret : MRet result := λ A a, inr a.
#[global] Instance result_bind : MBind result := λ A B k m,
  match m with
  | inl e => inl e
  | inr a => k a
  end.
Definition raise {A} (e : exn) : result A := inl e.

(** [round(x)] of a binary64 float with one argument: the nearest integer
    of the exact value [m * 2^e], ties to the even one.  [None] stands for
    the [ValueError]/[OverflowError] Python raises on NaN and infinities. *)
Definition round_half_even_dyadic (m : positive) (e : Z) : Z :=
  match e with
  | Z0 => Zpos m
  | Zpos _ => Zpos m * 2 ^ e
  | Zneg p =>
      let d := 2 ^ Zpos p in
      let q := Zpos m / d in
      let r := Zpos m mod d in
      match 2 * r ?= d with
      | Lt => q
      | Gt => q + 1
      | Eq => if Z.even q then q else q + 1
      end
  end.

Definition round (x : float) : option Z :=
  match Prim2SF x with
  | S754_zero _ => Some 0
  | S754_finite s m e =>
      let n := round_half_even_dyadic m e in
      Some (if s then - n else n)
  | S754_infinity _ => None
  | S754_nan => None
  end.

(** [float(n)] for a small non-negative [int]. *)
Definition float_of_int (n : Z) : float := PrimFloat.of_uint63 (Uint63.of_Z n).

(** [round(x)] on an exact value: nearest integer, ties to even. *)
Definition round_half_even (x : Q) : Z :=
  let fl := Qfloor x in
  let rem := (x - inject_Z fl)%Q in
  match (rem ?= 1 # 2)%Q with
  | Lt => fl
  | Gt => fl + 1
  | Eq => if Z.even fl then fl else fl + 1
  end.

(** [int(s)] for a string: surrounding ASCII whitespace is stripped, one
    optional sign, then decimal digits in groups separated by single
    underscores.  [None] stands for [ValueError].  The domain is the ASCII
    numerals of at most 4300 digits: Python also reads the decimal digits
    and the whitespace of other scripts, and from 3.11 on raises
    [ValueError] on a longer numeral.  [merged_timeseries], the one caller,
    replaces a text that does not parse by a default and clamps the number
    of one that does, so its two parameters are in range whatever [int]
    made of the text. *)
Definition is_space (c : ascii) : bool :=
  let n := Z.of_nat (nat_of_ascii c) in
  (n =? 32) || ((9 <=? n) && (n <=? 13)).

Definition digit_val (c : ascii) : option Z :=
  let n := Z.of_nat (nat_of_ascii c) in
  if (48 <=? n) && (n <=? 57) then Some (n - 48) else None.

Fixpoint lstrip (s : list ascii) : list ascii :=
  match s with
  | c :: rest => if is_space c then lstrip rest else s
  | [] => []
  end.

Definition strip (s : list ascii) : list ascii :=
  rev (lstrip (rev (lstrip s))).

Fixpoint parse_digits (acc : Z) (after_digit : bool) (s : list ascii) : option Z :=
  match s with
  | [] => if after_digit then Some acc else None
  | c :: rest =>
      match digit_val c with
      | Some d => parse_digits (10 * acc + d) true rest
      | None =>
          if (Ascii.eqb c "_"%char) && after_digit
          then parse_digits acc false rest
          else None
      end
  end.

Definition int (s : string) : option Z :=
  match strip (list_ascii_of_string s) with
  | c :: rest =>
      if Ascii.eqb c "-"%char then Z.opp <$> parse_digits 0 false rest
      else if Ascii.eqb c "+"%char then parse_digits 0 false rest
      else parse_digits 0 false (c :: rest)
  | [] => None
  end.

End Py.

(** ** api/views_obs.py *)

Module views_obs.

Definition FCST_PROVIDER : string := "ML".

(** [timedelta(hours=1)], in seconds. *)
Definition HOUR : Z := 3600.

(** The dict stored per instant in [obs_map] and [fcst_map]: the seven
    nullable columns of a row. *)
Record weather_rec : Type := mk_weather_rec {
  temp_c : option Q;
  wind_ms : option Q;
  precip_mm : option Q;
  rel_humidity_pct : option Q;
  wind_dir_deg : option Q;
  cloudcover_pct : option Q;
  surface_pressure_hpa : option Q
}.

(** A row of either query: [valid_at] and the columns. *)
Definition row : Type := Z * weather_rec.

(** One entry of [steps].  [s_valid_at] is the instant itself where the
    source stores [cursor.isoformat()]. *)
Record step : Type := mk_step {
  s_valid_at : Z;
  s_source : string;
  s_temp_c : option Q;
  s_wind_ms : option Q;
  s_precip_mm : option Q;
  s_rel_humidity_pct : option Q;
  s_wind_dir_deg : option Q;
  s_cloudcover_pct : option Q;
  s_surface_pressure_hpa : option Q
}.

(** [for r in rows: m[r[0]] = {...}]: a later row replaces an earlier one at
    the same instant. *)
Definition rows_to_map (rows : list row) : gmap Z weather_rec :=
  foldl (λ m r, <[ r.1 := r.2 ]> m) ∅ rows.

(** The body of the [while] loop at [cursor]. *)
Definition merge_at (obs_map fcst_map : gmap Z weather_rec) (cursor : Z) : step :=
  let '(rec, source) :=
    match obs_map !! cursor with
    | Some r => (Some r, "obs"%string)
    | None =>
        match fcst_map !! cursor with
        | Some r => (Some r, "fcst"%string)
        | None => (None, "none"%string)
        end
    end in
  {| s_valid_at := cursor;
     s_source := source;
     s_temp_c := rec ≫= temp_c;
     s_wind_ms := rec ≫= wind_ms;
     s_precip_mm := rec ≫= precip_mm;
     s_rel_humidity_pct := rec ≫= rel_humidity_pct;
     s_wind_dir_deg := rec ≫= wind_dir_deg;
     s_cloudcover_pct := rec ≫= cloudcover_pct;
     s_surface_pressure_hpa := rec ≫= surface_pressure_hpa |}.

(** [while cursor <= end_utc: steps.append(...); cursor += timedelta(hours=1)].
    [fuel] bounds the number of iterations; [None] means it ran out. *)
Fixpoint merge_loop (fuel : nat) (obs_map fcst_map : gmap Z weather_rec)
    (cursor end_utc : Z) (steps : list step) : option (list step) :=
  if cursor <=? end_utc then
    match fuel with
    | O => None
    | S fuel' =>
        merge_loop fuel' obs_map fcst_map (cursor + HOUR) end_utc
          (steps ++ [merge_at obs_map fcst_map cursor])
    end
  else Some steps.

Definition merge_steps (fuel : nat) (obs_map fcst_map : gmap Z weather_rec)
    (start_utc end_utc : Z) : option (list step) :=
  merge_loop fuel obs_map fcst_map start_utc end_utc [].

(** [int(request.GET.get(name) or default)] under [try/except]: a missing or
    empty parameter and one [int] rejects give the default. *)
Definition hours_param (raw : option string) (default : Z) : Z :=
  match raw with
  | None => default
  | Some s =>
      if String.eqb s "" then default
      else match Py.int s with
           | Some n => n
           | None => default
           end
  end.

(** The two [if] statements that follow, for either parameter. *)
Definition clamp_hours (h : Z) : Z :=
  let h := if h <? 0 then 0 else h in
  if h >? 168 then 168 else h.

Record location : Type := mk_location {
  loc_id : string;
  loc_name : string;
  loc_lat : Q;
  loc_lon : Q
}.

Record timeseries : Type := mk_timeseries {
  ts_location : location;
  ts_base_time : Z;
  ts_back_hours : Z;
  ts_forward_hours : Z;
  ts_provider : string;
  ts_count : Z;
  ts_steps : list step
}.

(** The three answers: [HttpResponseBadRequest(msg)],
    [JsonResponse({"found": False})] and the [JsonResponse] of the series. *)
Inductive response : Type :=
| BadRequest (msg : string)
| FoundFalse
| Found (body : timeseries).

(** The HTTP status of an answer: 400 for [HttpResponseBadRequest], and 200
    for a [JsonResponse] built without [status]. *)
Definition status_code (r : response) : Z :=
  match r with
  | BadRequest _ => 400
  | FoundFalse => 200
  | Found _ => 200
  end.

(** What the view reads from outside: whether [UUID(str(location_id))]
    succeeds, the row of [locations], the two query parameters, the clock,
    and the two hourly tables as functions from the queried range to the
    rows returned. *)
Record request : Type := mk_request {
  uuid_ok : bool;
  loc_row : option location;
  get_back : option string;
  get_fwd : option string;
  now_utc : Z;
  query_obs : Z → Z → list row;
  query_fcst : Z → Z → list row
}.

Definition merged_timeseries (fuel : nat) (rq : request) : option response :=
  if negb (uuid_ok rq) then Some (BadRequest "invalid location_id")
  else
    match loc_row rq with
    | None => Some FoundFalse
    | Some loc_info =>
        let back_hours := clamp_hours (hours_param (get_back rq) 48) in
        let fwd_hours := clamp_hours (hours_param (get_fwd rq) 96) in
        let base_utc := now_utc rq - now_utc rq `mod` HOUR in
        let start_utc := base_utc - back_hours * HOUR in
        let end_utc := base_utc + fwd_hours * HOUR in
        let obs_map := rows_to_map (query_obs rq start_utc end_utc) in
        let fcst_map := rows_to_map (query_fcst rq start_utc end_utc) in
        steps ← merge_steps fuel obs_map fcst_map start_utc end_utc;
        Some (Found {| ts_location := loc_info;
                       ts_base_time := base_utc;
                       ts_back_hours := back_hours;
                       ts_forward_hours := fwd_hours;
                       ts_provider := FCST_PROVIDER;
                       ts_count := Z.of_nat (length steps);
                       ts_steps := steps |})
    end.

(** *** [rain_frames] *)

(** One cell of a frame: [{"lat": ..., "lon": ..., "precip_mm": p}]. *)
Record cell : Type := mk_cell {
  c_lat : Q;
  c_lon : Q;
  c_precip_mm : Q
}.

(** A row of the merged query: [(valid_at, lat, lon, precip_mm)]; the
    precipitation is what [float(precip)] is tried on. *)
Definition frame_row : Type := Z * Q * Q * Py.arg.

(** The body of the grouping loop:
    [frames_map.setdefault(valid_at, []).append({...})], skipped when
    [float(precip)] raises. *)
Definition frames_add (frames_map : gmap Z (list cell)) (r : frame_row)
    : gmap Z (list cell) :=
  let '(valid_at, lat, lon, precip) := r in
  match precip with
  | Py.ANum p =>
      <[ valid_at := default [] (frames_map !! valid_at) ++ [mk_cell lat lon p] ]>
        frames_map
  | _ => frames_map
  end.

Record frame : Type := mk_frame {
  f_valid_at : Z;
  cells : list cell
}.

(** [while ts <= end_utc: frames.append(...); ts += timedelta(hours=1)];
    [None] means the fuel ran out. *)
Fixpoint frames_loop (fuel : nat) (frames_map : gmap Z (list cell))
    (ts end_utc : Z) (frames : list frame) : option (list frame) :=
  if ts <=? end_utc then
    match fuel with
    | O => None
    | S fuel' =>
        frames_loop fuel' frames_map (ts + HOUR) end_utc
          (frames ++ [mk_frame ts (default [] (frames_map !! ts))])
    end
  else Some frames.

Definition PAST_FRAMES_INCL_BASE : Z := 6.
Definition FUTURE_FRAMES : Z := 6.
Definition TOTAL_FRAMES : Z := PAST_FRAMES_INCL_BASE + FUTURE_FRAMES.

Record frames_response : Type := mk_frames_response {
  fr_base_utc : Z;
  fr_frame_count : Z;
  fr_frames : list frame
}.

(** The view, given the clock and the query as a function from the range
    and the provider to the rows returned. *)
Definition rain_frames (fuel : nat) (now_utc : Z)
    (query : Z → Z → string → list frame_row) : option frames_response :=
  let base_utc := now_utc - now_utc `mod` HOUR in
  let start_utc := base_utc - (PAST_FRAMES_INCL_BASE - 1) * HOUR in
  let end_utc := base_utc + FUTURE_FRAMES * HOUR in
  let rows := query start_utc end_utc FCST_PROVIDER in
  let frames_map := foldl frames_add ∅ rows in
  frames ← frames_loop fuel frames_map start_utc end_utc [];
  let frames :=
    if negb (Z.of_nat (length frames) =? TOTAL_FRAMES)
    then take (Z.to_nat TOTAL_FRAMES) frames else frames in
  Some {| fr_base_utc := base_utc;
          fr_frame_count := Z.of_nat (length frames);
          fr_frames := frames |}.

End views_obs.

(** ** api/views_alerts.py *)

Module views_alerts.

Local Open Scope string_scope.

Definition _LEVEL_ORDER : list string :=
  ["none"; "info"; "watch"; "warning"; "danger"].

(** [{lv: i for i, lv in enumerate(_LEVEL_ORDER)}] *)
Definition _LEVEL_RANK : gmap string Z :=
  list_to_map (imap (λ i lv, (lv, Z.of_nat i)) _LEVEL_ORDER).

(** The dict a hazard is, with its six keys.  [_make_hazard] is the only
    constructor, so every key is present and the defaults of the [.get]
    calls below are never used. *)
Record hazard : Type := mk_hazard {
  h_type : string;
  level : string;
  score : Z;
  headline : string;
  description : string;
  advices : list string
}.

Definition _make_hazard (h_type level : string) (score : Z)
    (headline description : string) (advices : list string) : hazard :=
  let level := if bool_decide (is_Some (_LEVEL_RANK !! level)) then level else "info" in
  {| h_type := h_type; level := level; score := score; headline := headline;
     description := description; advices := advices |}.

Definition _compute_heat_index (temp_c rel_humidity : option Q) : option Q :=
  match temp_c with
  | None => None
  | Some T =>
      match rel_humidity with
      | None => Some T
      | Some rh =>
          let RH := Py.max 0 (Py.min 100 rh) in
          if Py.Qltb T 27 || Py.Qltb RH 40 then Some T
          else Some (- 8.784695
                     + 1.61139411 * T
                     + 2.338549 * RH
                     - 0.14611605 * T * RH
                     - 0.012308094 * (T * T)
                     - 0.016424828 * (RH * RH)
                     + 0.002211732 * (T * T) * RH
                     + 0.00072546 * T * (RH * RH)
                     - 0.000003582 * (T * T) * (RH * RH))%Q
      end
  end.

(** The builders below take exact values: they give the shape of a hazard
    and of the bundle.  Which tier a computed value falls in is decided on
    binary64, by the builders of the same names in module [binary64]. *)

Section formatting.

(** [x ** 0.16], [format(x, ".1f")] and [format(x, ".0f")]: Python's own,
    kept abstract. *)
Variable pow016 : Q → Q.
Variable fmt1 : Q → string.
Variable fmt0 : Q → string.

Definition _compute_windchill (temp_c wind_ms : option Q) : option Q :=
  match temp_c, wind_ms with
  | Some T, Some w =>
      let V_kmh := (w * 3.6)%Q in
      if Py.Qgtb T 10 || Py.Qltb V_kmh 5 then None
      else Some (13.12 + 0.6215 * T - 11.37 * pow016 V_kmh
                 + 0.3965 * T * pow016 V_kmh)%Q
  | _, _ => None
  end.

Definition _build_heat_cold_hazard
    (temp_c wind_ms cloudcover rel_humidity : option Q) : option hazard :=
  match temp_c with
  | None => None
  | Some T =>
      let windchill := _compute_windchill (Some T) wind_ms in
      let effective_cold := default T windchill in
      if Py.Qleb effective_cold 15 then
        let '(level, score, headline, desc) :=
          if Py.Qleb effective_cold 5 then
            ("warning", 3, "Trời rét, có gió",
             "Nhiệt độ cảm nhận xuống khoảng " ++ fmt1 effective_cold ++ "°C "
             ++ "(tính theo nhiệt độ và gió), dễ gây rét buốt, "
             ++ "đặc biệt vào đêm và sáng sớm.")
          else if Py.Qleb effective_cold 10 then
            ("watch", 2, "Trời lạnh",
             "Nhiệt độ cảm nhận khoảng " ++ fmt1 effective_cold ++ "°C, "
             ++ "trời lạnh, cần chú ý giữ ấm cho trẻ nhỏ và người già.")
          else
            ("info", 1, "Thời tiết se lạnh",
             "Nhiệt độ khoảng " ++ fmt1 T
             ++ "°C, khá mát hoặc hơi lạnh về đêm và sáng sớm.") in
        let adv :=
          ["Chuẩn bị áo ấm khi ra ngoài, đặc biệt vào tối và sáng sớm.";
           "Giữ ấm cho trẻ nhỏ, người cao tuổi."] in
        Some (_make_hazard "cold" level score headline desc adv)
      else if Py.Qltb T 32 then None
      else
        let HI := _compute_heat_index (Some T) rel_humidity in
        let effective_heat := default T HI in
        if Py.Qltb effective_heat 32 then None
        else
          let cloudy :=
            match cloudcover with
            | Some c => Py.Qgeb c 60
            | None => false
            end in
          let '(level, score, headline, desc) :=
            if Py.Qltb effective_heat 41 then
              ("info", 1, "Thời tiết oi nóng",
               "Nhiệt độ cảm nhận khoảng " ++ fmt1 effective_heat ++ "°C, "
               ++ "trời oi, dễ mệt nếu hoạt động ngoài trời lâu.")
            else if Py.Qltb effective_heat 54 then
              ("watch", 2, "Nắng nóng, cần thận trọng",
               "Nhiệt độ cảm nhận khoảng " ++ fmt1 effective_heat ++ "°C. "
               ++ "Nếu làm việc ngoài trời lâu, nguy cơ mất nước và kiệt sức tăng.")
            else
              ("warning", 3, "Nắng nóng gay gắt, nguy cơ cao",
               "Nhiệt độ cảm nhận trên " ++ fmt1 effective_heat ++ "°C, "
               ++ "nguy cơ say nắng, sốc nhiệt nếu ở ngoài trời trong thời gian dài.") in
          let desc :=
            if cloudy
            then desc ++ " Lượng mây nhiều có thể giảm bớt nắng trực tiếp, nhưng không giảm nhiều mức oi nóng."
            else desc in
          let adv :=
            ["Hạn chế ở ngoài trời nắng lâu trong khung giờ trưa - đầu giờ chiều.";
             "Uống đủ nước, mặc quần áo thoáng mát.";
             "Ưu tiên nghỉ ngơi trong bóng râm hoặc nơi có mái che."] in
          Some (_make_hazard "heat" level score headline desc adv)
  end.

Definition _build_wind_hazard (wind_ms : option Q) : option hazard :=
  match wind_ms with
  | None => None
  | Some w =>
      let wind_kmh := (w * 3.6)%Q in
      if Py.Qltb wind_kmh 20 then None
      else
        let '(level, score, headline, desc) :=
          if Py.Qltb wind_kmh 30 then
            ("info", 1, "Gió vừa",
             "Tốc độ gió khoảng " ++ fmt0 wind_kmh ++ " km/h (xấp xỉ cấp 4 Beaufort), "
             ++ "có thể gây khó chịu khi di chuyển bằng xe máy hoặc đi bộ.")
          else if Py.Qltb wind_kmh 50 then
            ("watch", 2, "Gió mạnh",
             "Gió mạnh khoảng " ++ fmt0 wind_kmh ++ " km/h (xấp xỉ cấp 5–6 Beaufort), "
             ++ "cần chú ý khi đi lại ngoài trời, đặc biệt ở nơi trống trải.")
          else
            ("warning", 3, "Gió rất mạnh",
             "Gió rất mạnh khoảng " ++ fmt0 wind_kmh ++ " km/h (từ cấp 7 Beaufort trở lên), "
             ++ "có thể gây đổ cây, biển quảng cáo, nguy hiểm khi tham gia giao thông.") in
        let adv :=
          ["Hạn chế đứng gần cây lớn, biển quảng cáo, vật dễ đổ.";
           "Giữ chắc tay lái nếu di chuyển bằng xe máy."] in
        Some (_make_hazard "strong_wind" level score headline desc adv)
  end.

(** [float(x or 0.0)] for a nullable number. *)
Definition float_or_zero (x : option Q) : Q := default 0%Q x.

(** The combined effective value of [_build_rain_hazard]. *)
Definition rain_eff (rain_1h rain_3h rain_6h : option Q) : Q :=
  let r1 := float_or_zero rain_1h in
  let r3 := float_or_zero rain_3h in
  let r6 := float_or_zero rain_6h in
  let extra_3h := Py.max 0 (r3 - r1) in
  let extra_6h := Py.max 0 (r6 - r3) in
  (r1 + 0.6 * extra_3h + 0.4 * extra_6h)%Q.

Definition _build_rain_hazard (rain_1h rain_3h rain_6h : option Q)
    (precip_now : Py.arg) : option hazard :=
  let eff := rain_eff rain_1h rain_3h rain_6h in
  let light :=
    match precip_now with
    | Py.ANum p => Py.Qgeb p 0.1 && Py.Qltb eff 0.5
    | Py.ANone => false
    | Py.AOther => false
    end in
  if light then
    Some (_make_hazard "rain" "info" 1 "Mưa nhẹ"
            "Có mưa nhẹ trong giờ gần nhất, đường có thể trơn trượt."
            ["Di chuyển cẩn thận, chuẩn bị áo mưa nếu cần."])
  else if Py.Qltb eff 0.5 then None
  else if Py.Qltb eff 5 then
    Some (_make_hazard "rain" "info" 1 "Mưa nhỏ, rải rác"
            ("Mưa tích lũy khoảng " ++ fmt1 eff ++ "mm trong 1–6 giờ gần nhất. "
             ++ "Ảnh hưởng chủ yếu là trơn trượt, bất tiện khi di chuyển.")
            ["Chuẩn bị áo mưa nếu phải di chuyển ngoài trời."])
  else if Py.Qltb eff 15 then
    Some (_make_hazard "rain" "watch" 2 "Mưa vừa, có nguy cơ ngập nhẹ"
            ("Mưa tích lũy khoảng " ++ fmt1 eff ++ "mm trong vài giờ gần đây, "
             ++ "có thể gây ngập nhẹ tại các khu vực trũng, thoát nước kém.")
            ["Hạn chế di chuyển nhanh trên đường trơn.";
             "Theo dõi các điểm trũng, khu dân cư thấp."])
  else if Py.Qltb eff 30 then
    Some (_make_hazard "rain" "warning" 3 "Mưa to, nguy cơ ngập cục bộ"
            ("Mưa tích lũy khoảng " ++ fmt1 eff
             ++ "mm, nguy cơ ngập cục bộ tại khu dân cư, đô thị và các điểm trũng.")
            ["Hạn chế đi qua vùng ngập nước hoặc khu vực thoát nước kém.";
             "Chủ động kê cao đồ đạc ở tầng thấp."])
  else
    Some (_make_hazard "rain" "danger" 4 "Mưa rất to, nguy cơ lũ cục bộ"
            ("Mưa tích lũy trên " ++ fmt1 eff
             ++ "mm trong 6 giờ, nguy cơ ngập sâu, lũ quét hoặc sạt lở đất "
             ++ "(đặc biệt vùng đồi núi).")
            ["Tránh di chuyển qua khu vực ngập sâu, sông suối, khe suối.";
             "Theo dõi chặt chẽ cảnh báo của cơ quan khí tượng thủy văn."]).

End formatting.

(** [_rank]: [_LEVEL_RANK.get(h.get("level", "none"), 0)] *)
Definition _rank (h : hazard) : Z := default 0 (_LEVEL_RANK !! level h).

(** [max(hazards, key=_rank)] with the position of the element it returns:
    the first one of greatest rank.  [i] is the position of [y]. *)
Fixpoint max_from (best : hazard) (best_i : nat) (i : nat) (rest : list hazard)
    : hazard * nat :=
  match rest with
  | [] => (best, best_i)
  | y :: rest' =>
      if (_rank best <? _rank y)%Z
      then max_from y i (S i) rest'
      else max_from best best_i (S i) rest'
  end.

(** [sorted({...})] of strings: strict insertion, in code-point order. *)
Fixpoint insert_sorted (s : string) (l : list string) : list string :=
  match l with
  | [] => [s]
  | x :: rest =>
      if String.eqb s x then l
      else if String.ltb s x then s :: l
      else x :: insert_sorted s rest
  end.

Definition sorted_set (l : list string) : list string :=
  foldr insert_sorted [] l.

(** [", ".join(l)] *)
Fixpoint join_comma (l : list string) : string :=
  match l with
  | [] => ""
  | [x] => x
  | x :: rest => x ++ ", " ++ join_comma rest
  end.

(** [None] stands for the [IndexError] of [_LEVEL_ORDER[overall_rank]].
    The hazards of the list are distinct objects, so [h is not main] is a
    test on positions. *)
Definition _calc_overall_level_and_comment (hazards : list hazard)
    : option (string * string) :=
  match hazards with
  | [] =>
      Some ("none",
            "Thời tiết nhìn chung ổn định, không có nguy cơ đáng kể trong giờ gần nhất.")
  | h0 :: rest =>
      let '(main, main_i) := max_from h0 0%nat 1%nat rest in
      let main_rank := _rank main in
      let watch_rank := default 0 (_LEVEL_RANK !! "watch") in
      let num_watch_or_more :=
        Z.of_nat (length (filter (λ h, (watch_rank ≤ _rank h)%Z) hazards)) in
      let overall_rank :=
        if ((2 <=? num_watch_or_more)
            && (main_rank <? Z.of_nat (length _LEVEL_ORDER) - 1))%Z
        then (main_rank + 1)%Z else main_rank in
      overall_level ← _LEVEL_ORDER !! Z.to_nat overall_rank;
      let others :=
        (filter (λ ih, ih.1 ≠ main_i ∧ (watch_rank ≤ _rank ih.2)%Z)
           (imap (λ i h, (i, h)) hazards)).*2 in
      let overall_comment :=
        match others with
        | [] => headline main
        | _ =>
            let other_types :=
              join_comma (sorted_set
                (filter (λ t, t ≠ "") (h_type <$> others))) in
            headline main ++ ". Đồng thời có thêm các yếu tố bất lợi: "
            ++ other_types ++ ", " ++ "làm mức cảnh báo tổng thể tăng lên."
        end in
      Some (overall_level, overall_comment)
  end.



(** State of the loop of [_sum_rain_in_window]. *)
Record rain_acc : Type := mk_rain_acc {
  have_hours : gset Z;
  rain_1h : Q;
  rain_3h : Q;
  rain_6h : Q
}.

(** [hours = (anchor_ts - valid_at).total_seconds() / 3600.0] *)
Definition hours_back (anchor_ts valid_at : Z) : Q :=
  (inject_Z (anchor_ts - valid_at) / 3600)%Q.

(** One iteration.  A row is [(valid_at, precip_mm)]; a [valid_at] of [None]
    stands for a value the subtraction raises on, which the [try] skips. *)
Definition rain_step (anchor_ts : Z) (acc : rain_acc) (r : option Z * option Q)
    : rain_acc :=
  match r.1 with
  | None => acc
  | Some valid_at =>
      let hours := hours_back anchor_ts valid_at in
      if Py.Qltb hours 0 || Py.Qgtb hours 6 then acc
      else
        let hour_bucket := Py.round_half_even hours in
        let have := {[ hour_bucket ]} ∪ have_hours acc in
        let p := float_or_zero r.2 in
        if Py.Qleb hours 1 then
          {| have_hours := have; rain_1h := (rain_1h acc + p)%Q;
             rain_3h := (rain_3h acc + p)%Q; rain_6h := (rain_6h acc + p)%Q |}
        else if Py.Qleb hours 3 then
          {| have_hours := have; rain_1h := rain_1h acc;
             rain_3h := (rain_3h acc + p)%Q; rain_6h := (rain_6h acc + p)%Q |}
        else
          {| have_hours := have; rain_1h := rain_1h acc;
             rain_3h := rain_3h acc; rain_6h := (rain_6h acc + p)%Q |}
  end.

Definition rain_acc0 : rain_acc :=
  {| have_hours := ∅; rain_1h := 0; rain_3h := 0; rain_6h := 0 |}.

(** Returns [(rain_1h, rain_3h, rain_6h, coverage_ratio)]. *)
Definition _sum_rain_in_window (rows : list (option Z * option Q)) (anchor_ts : Z)
    : Q * Q * Q * Q :=
  let acc := foldl (rain_step anchor_ts) rain_acc0 rows in
  let coverage_ratio := (inject_Z (Z.of_nat (size (have_hours acc))) / 7)%Q in
  (rain_1h acc, rain_3h acc, rain_6h acc, coverage_ratio).

(** [_fetch_rain_accums], the two queries given by the rows they return. *)
Definition _fetch_rain_accums (obs_rows fcst_rows : list (option Z * option Q))
    (latest_valid_at : option Z) (coverage_threshold : Q) : Q * Q * Q :=
  match latest_valid_at with
  | None => (0, 0, 0)%Q
  | Some anchor =>
      let from_fcst :=
        match fcst_rows with
        | [] => (0, 0, 0)%Q
        | _ => let '(r1, r3, r6, _) := _sum_rain_in_window fcst_rows anchor in (r1, r3, r6)
        end in
      match obs_rows with
      | [] => from_fcst
      | _ =>
          let '(r1, r3, r6, cov) := _sum_rain_in_window obs_rows anchor in
          if Py.Qgeb cov coverage_threshold then (r1, r3, r6) else from_fcst
      end
  end.

(** *** [_build_current_comment] *)

(** The list [pieces] before it is joined.  The temperature and the wind
    are the nullable columns of the snapshot, the precipitation is what
    [float(precip_mm)] is tried on. *)
Definition current_pieces (fmt1 : Q → string) (temp_c wind_ms : option Q)
    (precip_mm : Py.arg) : list string :=
  let temp_piece :=
    match temp_c with
    | Some t => ["Nhiệt độ hiện tại khoảng " ++ fmt1 t ++ "°C"]
    | None => []
    end in
  let wind_piece :=
    match wind_ms with
    | Some w =>
        let wind_kmh := (w * 3.6)%Q in
        [if Py.Qltb wind_kmh 5 then "gió yếu"
         else if Py.Qltb wind_kmh 20 then "gió nhẹ đến vừa"
         else "gió khá mạnh"]
    | None => []
    end in
  let rain_piece :=
    match precip_mm with
    | Py.ANum p => [if Py.Qgeb p 0.1 then "có mưa" else "không mưa"]
    | _ => []
    end in
  (temp_piece ++ wind_piece ++ rain_piece)%list.

Definition _build_current_comment (fmt1 : Q → string) (temp_c wind_ms : option Q)
    (precip_mm : Py.arg) : string :=
  match current_pieces fmt1 temp_c wind_ms precip_mm with
  | [] => "Chưa đủ dữ liệu để mô tả thời tiết hiện tại."
  | pieces => join_comma pieces
  end.

(** *** [_build_today_summary_text] *)

(** The four columns kept per local hour. *)
Record hour_rec : Type := mk_hour_rec {
  hr_temp_c : option Q;
  hr_wind_ms : option Q;
  hr_precip_mm : option Q;
  hr_cloudcover_pct : option Q
}.

(** The default time zone, Asia/Bangkok, is UTC+7 all year. *)
Definition TZ_OFFSET : Z := 7 * 3600.
Definition DAY : Z := 24 * 3600.

(** [valid_at_utc.astimezone(default_tz).hour] *)
Definition local_hour (valid_at_utc : Z) : Z :=
  ((valid_at_utc + TZ_OFFSET) `mod` DAY) `div` 3600.

(** [start_utc]: local midnight of the local day of [base_utc]. *)
Definition today_start_utc (base_utc : Z) : Z :=
  base_utc - (base_utc + TZ_OFFSET) `mod` DAY.

(** [end_utc]: 23:00 local of the same day. *)
Definition today_end_utc (base_utc : Z) : Z :=
  today_start_utc base_utc + 23 * 3600.


(** The variables of the merge loop over the 24 hours. *)
Record day_stats : Type := mk_day_stats {
  temp_vals : list Q;
  wind_vals : list Q;
  cloud_vals : list Q;
  precip_sum : Q;
  raining_hours : Z;
  heavy_rain_hours : Z;
  used_hours : Z;
  obs_hours : Z;
  fcst_hours : Z
}.

Definition day_stats0 : day_stats :=
  {| temp_vals := []; wind_vals := []; cloud_vals := []; precip_sum := 0;
     raining_hours := 0; heavy_rain_hours := 0;
     used_hours := 0; obs_hours := 0; fcst_hours := 0 |}.

(** The record of hour [h] and whether it is an observation. *)
Definition hour_pick (obs_map fcst_map : gmap Z hour_rec) (h : Z)
    : option (hour_rec * bool) :=
  match obs_map !! h with
  | Some rec => Some (rec, true)
  | None =>
      match fcst_map !! h with
      | Some rec => Some (rec, false)
      | None => None
      end
  end.

(** One iteration of [for h in range(24)]. *)
Definition day_step (obs_map fcst_map : gmap Z hour_rec) (st : day_stats) (h : Z)
    : day_stats :=
  match hour_pick obs_map fcst_map h with
  | None => st
  | Some (rec, is_obs) =>
      {| temp_vals := (temp_vals st ++ option_list (hr_temp_c rec))%list;
         wind_vals := (wind_vals st ++ option_list (hr_wind_ms rec))%list;
         cloud_vals := (cloud_vals st ++ option_list (hr_cloudcover_pct rec))%list;
         precip_sum :=
           match hr_precip_mm rec with
           | Some pv => (precip_sum st + Py.max 0 pv)%Q
           | None => precip_sum st
           end;
         raining_hours :=
           match hr_precip_mm rec with
           | Some pv => if Py.Qgtb pv 0 then (raining_hours st + 1)%Z else raining_hours st
           | None => raining_hours st
           end;
         heavy_rain_hours :=
           match hr_precip_mm rec with
           | Some pv =>
               if Py.Qgeb pv 5 then (heavy_rain_hours st + 1)%Z else heavy_rain_hours st
           | None => heavy_rain_hours st
           end;
         used_hours := (used_hours st + 1)%Z;
         obs_hours := if is_obs then (obs_hours st + 1)%Z else obs_hours st;
         fcst_hours := if is_obs then fcst_hours st else (fcst_hours st + 1)%Z |}
  end.

Definition day_stats_of (obs_map fcst_map : gmap Z hour_rec) : day_stats :=
  foldl (day_step obs_map fcst_map) day_stats0 (seqZ 0 24).

(** [min(xs)] of a non-empty list, and [sum(xs) / len(xs)]; [None] for the
    empty list, which the source tests first. *)
Definition min_list (xs : list Q) : option Q :=
  match xs with
  | [] => None
  | x :: rest => Some (foldl Py.min x rest)
  end.

Definition mean (xs : list Q) : option Q :=
  match xs with
  | [] => None
  | _ => Some (foldl Qplus 0%Q xs / inject_Z (Z.of_nat (length xs)))%Q
  end.


(** The list [parts], from the statistics of the day, paragraph by
    paragraph.  [fmt1] is the format [.1f], [str] the decimal form of an
    [int]. *)

(** How much of the day is observed. *)
Definition today_data_part (str : Z → string) (st : day_stats) : list string :=
  [if ((0 <? fcst_hours st) && (0 <? obs_hours st))%Z then
     "Tổng hợp hôm nay dựa trên " ++ str (obs_hours st) ++ " giờ quan trắc và "
     ++ str (fcst_hours st) ++ " giờ dự báo."
   else if (0 <? obs_hours st)%Z then
     "Tổng hợp hôm nay chủ yếu từ quan trắc (" ++ str (obs_hours st) ++ " giờ)."
   else
     "Tổng hợp hôm nay chủ yếu từ dự báo (" ++ str (fcst_hours st)
     ++ " giờ) do thiếu quan trắc theo giờ."].

(** Temperature of the day. *)
Definition today_temp_part (fmt1 : Q → string) (st : day_stats) : list string :=
  let t_min := min_list (temp_vals st) in
  let t_max := Py.max_list (temp_vals st) in
  let t_mean := mean (temp_vals st) in
  match t_min, t_max with
  | Some lo, Some hi =>
      match t_mean with
      | Some m =>
          ["Nhiệt độ dao động khoảng " ++ fmt1 lo ++ "–" ++ fmt1 hi
           ++ "°C (trung bình " ++ fmt1 m ++ "°C)."]
      | None =>
          ["Nhiệt độ dao động khoảng " ++ fmt1 lo ++ "–" ++ fmt1 hi ++ "°C."]
      end
  | _, _ =>
      match t_mean with
      | Some m => ["Nhiệt độ trung bình khoảng " ++ fmt1 m ++ "°C."]
      | None => []
      end
  end.

(** Rain of the day. *)
Definition today_rain_part (fmt1 : Q → string) (str : Z → string) (st : day_stats)
    : list string :=
  if Py.Qleb (precip_sum st) 0.05 && (raining_hours st =? 0)%Z then
    ["Hôm nay nhìn chung ít mưa hoặc không mưa đáng kể."]
  else
    ("Tổng lượng mưa trong ngày khoảng " ++ fmt1 (precip_sum st) ++ " mm.")
    :: (if (0 <? heavy_rain_hours st)%Z then
          ["Có " ++ str (heavy_rain_hours st)
           ++ " giờ mưa to (≥ 5 mm/h), cần lưu ý ngập cục bộ."]
        else if (0 <? raining_hours st)%Z then
          ["Có mưa trong khoảng " ++ str (raining_hours st)
           ++ " giờ, có thể gây trơn trượt khi di chuyển."]
        else []).

(** Cloud cover. *)
Definition today_cloud_part (st : day_stats) : list string :=
  match mean (cloud_vals st) with
  | Some cloud_mean =>
      [if Py.Qltb cloud_mean 20 then "Trời chủ yếu quang mây."
       else if Py.Qltb cloud_mean 60 then "Mây vừa, có nắng gián đoạn."
       else if Py.Qltb cloud_mean 85 then "Nhiều mây, ít nắng."
       else "Trời u ám, mây dày."]
  | None => []
  end.

(** Wind. *)
Definition today_wind_part (st : day_stats) : list string :=
  match mean (wind_vals st) with
  | Some wind_mean =>
      let wind_kmh := (wind_mean * 3.6)%Q in
      [if Py.Qltb wind_kmh 10 then "Gió nhìn chung yếu."
       else if Py.Qltb wind_kmh 25 then "Gió trung bình mức nhẹ đến vừa."
       else "Gió trung bình khá mạnh, cần chú ý khi di chuyển ngoài trời."]
  | None => []
  end.

Definition today_parts (fmt1 : Q → string) (str : Z → string) (st : day_stats)
    : list string :=
  (today_data_part str st ++ today_temp_part fmt1 st ++ today_rain_part fmt1 str st
   ++ today_cloud_part st ++ today_wind_part st)%list.


(** *** [_fetch_snapshot_at_hour] and [obs_summary] *)









End views_alerts.

(** ** api/dem_utils.py *)

Module dem_utils.

(** A raster value after [float(...)]: finite, infinite or NaN. *)
Inductive fval : Type :=
| Fin (q : Q)
| Inf (negative : bool)
| NaN.

Definition isfinite (v : fval) : bool :=
  match v with
  | Fin _ => true
  | _ => false
  end.

(** [v == w] on floats: NaN equals nothing. *)
Definition feq (v w : fval) : bool :=
  match v, w with
  | Fin a, Fin b => Qeq_bool a b
  | Inf s, Inf t => Bool.eqb s t
  | _, _ => false
  end.

(** [nodata is not None and v == nodata] *)
Definition is_nodata (nodata : option fval) (v : fval) : bool :=
  match nodata with
  | None => false
  | Some nd => feq v nd
  end.

(** What the code reads of an open rasterio dataset: its shape, its nodata
    value, band 1 by (row, col), [ds.index(x, y)], and the first-band values
    [ds.sample([(x, y)])] yields ([None] where [float(vals[0])] raises). *)
Record dataset : Type := mk_dataset {
  height : Z;
  width : Z;
  nodata : option fval;
  band1 : Z → Z → fval;
  index : Q → Q → Z * Z;
  sample : Q → Q → list (option fval)
}.

(** The two module globals, [None] until a call has set them; a
    transformer maps [(lon, lat)] to [(x, y)]. *)
Record globals : Type := mk_globals {
  _dem_dataset : option dataset;
  _dem_transformer : option (Q → Q → Q * Q)
}.

(** The pair [_get_dem] returns. *)
Record handle : Type := mk_handle {
  ds : dataset;
  transform : Q → Q → Q * Q
}.

(** What a call of [_get_dem] meets outside the module: whether rasterio
    and pyproj were imported, [DEM_PATH] and whether it exists, what
    [rasterio.open(DEM_PATH)] gives (a dataset, or the exception it raises),
    whether that dataset has a CRS, and what [Transformer.from_crs] gives
    for it (a transformer, or the exception it raises). *)
Record install : Type := mk_install {
  libs_present : bool;
  DEM_PATH : string;
  dem_exists : bool;
  dem_open : Py.result dataset;
  dem_has_crs : bool;
  dem_from_crs : Py.result (Q → Q → Q * Q)
}.

(** A computation over the module globals: they go in and come out, with a
    value or an exception. *)
Definition cached (A : Type) : Type := globals → Py.result A * globals.

Definition _get_dem (env : install) : cached handle := λ cache,
  if negb (libs_present env) then
    (Py.raise (Py.RuntimeError
       ("Thiếu thư viện rasterio hoặc pyproj, không thể đọc DEM. "
        ++ "Cài thêm package 'rasterio' và 'pyproj' trong venv để dùng tính năng lũ lụt.")%string),
     cache)
  else
    match _dem_dataset cache, _dem_transformer cache with
    | Some d, Some t => (mret {| ds := d; transform := t |}, cache)
    | _, _ =>
        if negb (dem_exists env) then
          (Py.raise (Py.RuntimeError ("DEM file không tồn tại: " ++ DEM_PATH env)%string),
           cache)
        else
          match dem_open env with
          | inl e => (inl e, cache)
          | inr d =>
              if negb (dem_has_crs env) then
                (Py.raise (Py.RuntimeError
                   "DEM không có CRS, kiểm tra lại file DEM / metadata."),
                 cache)
              else
                (* _dem_dataset = ds, then Transformer.from_crs(...) *)
                match dem_from_crs env with
                | inl e =>
                    (inl e, {| _dem_dataset := Some d;
                               _dem_transformer := _dem_transformer cache |})
                | inr t =>
                    (mret {| ds := d; transform := t |},
                     {| _dem_dataset := Some d; _dem_transformer := Some t |})
                end
          end
    end.

Definition _sample_single (d : dataset) (x y : Q) : option Q :=
  match sample d x y with
  | [] => None
  | None :: _ => None
  | Some val :: _ =>
      match val with
      | Fin q => if is_nodata (nodata d) val then None else Some q
      | _ => None
      end
  end.

Definition sample_elevation (env : install) (lat lon : Q) : cached (option Q) := λ cache,
  match _get_dem env cache with
  | (inl e, cache') => (inl e, cache')
  | (inr h, cache') =>
      let '(x, y) := transform h lon lat in
      (mret (_sample_single (ds h) x y), cache')
  end.

(** The body of the two nested [for] loops at one pixel value. *)
Definition scan_pixel (nodata : option fval) (local_min : option Q) (v : fval)
    : option Q :=
  match v with
  | Fin q =>
      if is_nodata nodata v then local_min
      else match local_min with
           | None => Some q
           | Some m => if Py.Qltb q m then Some q else local_min
           end
  | _ => local_min
  end.

(** The pixels [arr[r, c]] in the order the loops visit them; [arr] is the
    window of band 1 with corner [(row_start, col_start)] and shape [(h, w)],
    empty when a side is not positive. *)
Definition window_values (d : dataset) (row_start col_start h w : Z) : list fval :=
  r ← seqZ 0 h; c ← seqZ 0 w; [band1 d (row_start + r) (col_start + c)].

(** The part of [sample_relief_local] after the dataset is at hand. *)
Definition relief_at (d : dataset) (row col half_size_px : Z) : option Q :=
  if (row <? 0) || (height d <=? row) || (col <? 0) || (width d <=? col) then None
  else
    let row_start := Z.max 0 (row - half_size_px) in
    let row_stop := Z.min (height d) (row + half_size_px + 1) in
    let col_start := Z.max 0 (col - half_size_px) in
    let col_stop := Z.min (width d) (col + half_size_px + 1) in
    let h := Z.max 0 (row_stop - row_start) in
    let w := Z.max 0 (col_stop - col_start) in
    let local_min :=
      foldl (scan_pixel (nodata d)) None (window_values d row_start col_start h w) in
    match local_min with
    | None => None
    | Some local_min =>
        let center_r := row - row_start in
        let center_c := col - col_start in
        if negb ((0 <=? center_r) && (center_r <? h) && (0 <=? center_c) && (center_c <? w))
        then None
        else
          match band1 d (row_start + center_r) (col_start + center_c) with
          | Fin elev_center =>
              if is_nodata (nodata d) (Fin elev_center) then None
              else
                let relief := (elev_center - local_min)%Q in
                Some (if Py.Qltb relief 0 then 0%Q else relief)
          | _ => None
          end
    end.

Definition sample_relief_local (env : install) (lat lon : Q) (half_size_px : Z)
    : cached (option Q) := λ cache,
  match _get_dem env cache with
  | (inl e, cache') => (inl e, cache')
  | (inr h, cache') =>
      let '(x, y) := transform h lon lat in
      let '(row, col) := index (ds h) x y in
      (mret (relief_at (ds h) row col half_size_px), cache')
  end.

End dem_utils.

(** ** api/views_flood.py *)

Module views_flood.

Definition RISK_LEVELS : list string :=
  ["NONE"; "LOW"; "MEDIUM"; "HIGH"; "EXTREME"]%string.

Definition _safe_float (x : Py.arg) (default : Q) : Q :=
  match x with
  | Py.ANone => default
  | Py.ANum q => q
  | Py.AOther => default
  end.

(** [_clamp] at the integers it is called with. *)
Definition _clamp (x lo hi : Z) : Z := Z.max lo (Z.min hi x).

Definition _effective_rain_1h (rain_1h : Py.arg) : Q :=
  Py.max 0 (_safe_float rain_1h 0).

Definition _effective_rain_3h (rain_1h rain_3h : Py.arg) : Q :=
  let r1 := Py.max 0 (_safe_float rain_1h 0) in
  let r3 := Py.max 0 (_safe_float rain_3h 0) in
  let extra_3h := Py.max 0 (r3 - r1) in
  Py.max 0 (r1 + 0.6 * extra_3h).

Definition _effective_rain_6h (rain_1h rain_3h rain_6h : Py.arg) : Q :=
  let r1 := Py.max 0 (_safe_float rain_1h 0) in
  let r3 := Py.max 0 (_safe_float rain_3h 0) in
  let r6 := Py.max 0 (_safe_float rain_6h 0) in
  let extra_3h := Py.max 0 (r3 - r1) in
  let extra_6h := Py.max 0 (r6 - r3) in
  Py.max 0 (r1 + 0.6 * extra_3h + 0.4 * extra_6h).

Definition _rain_band_from_eff6 (eff_6h : Py.arg) : Z :=
  let e := Py.max 0 (_safe_float eff_6h 0) in
  if Py.Qltb e 0.5 then 0
  else if Py.Qltb e 5 then 1
  else if Py.Qltb e 15 then 2
  else if Py.Qltb e 30 then 3
  else 4.

Definition _terrain_band_from_relief_local (relief_local_m : Py.arg) : Z :=
  let r := Py.max 0 (_safe_float relief_local_m 1000000000) in
  if Py.Qgeb r 30 then 0
  else if Py.Qgeb r 10 then 1
  else if Py.Qgeb r 3 then 2
  else if Py.Qgeb r 1 then 3
  else 4.

Definition _elevation_band (elev_m : Py.arg) : Z :=
  let e := _safe_float elev_m 99999 in
  if Py.Qltb e 5 then 4
  else if Py.Qltb e 20 then 3
  else if Py.Qltb e 80 then 2
  else if Py.Qltb e 200 then 1
  else 0.

Definition _slope_like_penalty (slope_like_m : Py.arg) : Z :=
  let s := Py.max 0 (_safe_float slope_like_m 0) in
  if Py.Qgeb s 80 then 2
  else if Py.Qgeb s 30 then 1
  else 0.

(** [raw], on binary64 as the source computes it. *)
Definition risk_raw (rain_band relief_band elev_band : Z) : float :=
  (0.70 * Py.float_of_int rain_band + 0.20 * Py.float_of_int relief_band
   + 0.10 * Py.float_of_int elev_band)%float.

(** [None] stands for the exception [round] raises on a float that is not
    finite. *)
Definition _combined_risk_score (rain_band relief_band elev_band slope_pen : Z)
    : option Z :=
  let rain_band := _clamp rain_band 0 4 in
  let relief_band := _clamp relief_band 0 4 in
  let elev_band := _clamp elev_band 0 4 in
  let slope_pen := _clamp slope_pen 0 2 in
  let raw := risk_raw rain_band relief_band elev_band in
  score ← Py.round raw;
  let score := score - slope_pen in
  Some (_clamp score 0 4).

Section terrain.

(** The two samplers of [dem_utils] as [_try_sample_dem] sees them: calls
    that read and write some state [S] and may raise anything. *)
Variable S : Type.
Variable sample_elevation : Q → Q → S → Py.result (option Q) * S.
Variable sample_relief_local : Q → Q → Z → S → Py.result (option Q) * S.

Definition terrain : Type := option Q * option Q * option Q.

(** Sequencing inside the [try] block. *)
Definition and_then {A B} (m : S → Py.result A * S) (k : A → S → Py.result B * S)
    : S → Py.result B * S := λ st,
  match m st with
  | (inl e, st') => (inl e, st')
  | (inr a, st') => k a st'
  end.

Definition diffs_of (elev : Q) (around : list (option Q)) : list Q :=
  omap (λ ex, (λ v, Py.abs (v - elev)) <$> ex) around.

Definition try_body (lat lon : Q) : S → Py.result terrain * S :=
  and_then (sample_elevation lat lon) (λ elev,
  and_then (sample_relief_local lat lon 15) (λ relief,
    match elev with
    | None => λ st, (inr (None, relief, None), st)
    | Some elev_v =>
        let d := 0.01%Q in
        and_then (sample_elevation (lat + d) lon) (λ e_n,
        and_then (sample_elevation (lat - d) lon) (λ e_s,
        and_then (sample_elevation lat (lon + d)) (λ e_e,
        and_then (sample_elevation lat (lon - d)) (λ e_w,
          let diffs := diffs_of elev_v [e_n; e_s; e_e; e_w] in
          let slope_like := Py.max_list diffs in
          λ st, (inr (Some elev_v, relief, slope_like), st)))))
    end)).

(** [try: ... except Exception: return None, None, None] *)
Definition _try_sample_dem (lat lon : Q) (st : S) : terrain * S :=
  match try_body lat lon st with
  | (inr t, st') => (t, st')
  | (inl _, st') => ((None, None, None), st')
  end.

(** A row of the aggregate query and the dict appended to [out] for it. *)
Record agg_row : Type := mk_agg_row {
  location_id : string;
  lat : Q;
  lon : Q;
  valid_at : Z;
  rain_1h_mm : Py.arg;
  rain_3h_mm : Py.arg;
  rain_6h_mm : Py.arg
}.

Record risk : Type := mk_risk {
  out_location_id : string;
  out_lat : Q;
  out_lon : Q;
  out_valid_at : Z;
  relief_m : option Q;
  out_rain_1h_mm : Q;
  out_rain_3h_mm : Q;
  eff_rain_1h_mm : Q;
  eff_rain_3h_mm : Q;
  risk_score : Z;
  risk_level : string
}.

Definition relief_band_of (relief_local_m : option Q) : Z :=
  match relief_local_m with
  | None => 0
  | Some r => _terrain_band_from_relief_local (Py.ANum r)
  end.

Definition elev_band_of (elev_m : option Q) : Z :=
  match elev_m with
  | None => 0
  | Some e => _elevation_band (Py.ANum e)
  end.

Definition slope_pen_of (slope_like_m : option Q) : Z :=
  match slope_like_m with
  | None => 0
  | Some s => _slope_like_penalty (Py.ANum s)
  end.

(** The body of the [for] loop of [flood_risk_latest]; [None] stands for an
    exception escaping it. *)
Definition risk_of_row (r : agg_row) (st : S) : option risk * S :=
  let r1 := _safe_float (rain_1h_mm r) 0 in
  let r3 := _safe_float (rain_3h_mm r) 0 in
  let r6 := _safe_float (rain_6h_mm r) 0 in
  let eff1 := _effective_rain_1h (Py.ANum r1) in
  let eff3 := _effective_rain_3h (Py.ANum r1) (Py.ANum r3) in
  let eff6 := _effective_rain_6h (Py.ANum r1) (Py.ANum r3) (Py.ANum r6) in
  let rain_band := _rain_band_from_eff6 (Py.ANum eff6) in
  let '((elev_m, relief_local_m, slope_like_m), st') :=
    _try_sample_dem (lat r) (lon r) st in
  let relief_band := relief_band_of relief_local_m in
  let elev_band := elev_band_of elev_m in
  let slope_pen := slope_pen_of slope_like_m in
  (score ← _combined_risk_score rain_band relief_band elev_band slope_pen;
   level ← RISK_LEVELS !! Z.to_nat score;
   Some {| out_location_id := location_id r;
           out_lat := lat r;
           out_lon := lon r;
           out_valid_at := valid_at r;
           relief_m := relief_local_m;
           out_rain_1h_mm := r1;
           out_rain_3h_mm := r3;
           eff_rain_1h_mm := eff1;
           eff_rain_3h_mm := eff3;
           risk_score := score;
           risk_level := level |},
   st').

(** [flood_risk_latest] over the rows the query returned. *)
Fixpoint flood_risk_rows (rows : list agg_row) (st : S) : option (list risk) * S :=
  match rows with
  | [] => (Some [], st)
  | r :: rest =>
      match risk_of_row r st with
      | (None, st') => (None, st')
      | (Some x, st') =>
          let '(os, st'') := flood_risk_rows rest st' in
          (cons x <$> os, st'')
      end
  end.

End terrain.

End views_flood.

(** ** The formulas on binary64

    [_effective_rain_6h] and [_rain_band_from_eff6] of [views_flood] once
    more, on the floats Python computes with, for the concrete scenarios;
    and the hazard builders of [views_alerts], whose tiers are decided by
    comparing a rounded sum or product with a threshold. *)

Module binary64.

(** [max(a, b)] *)
Definition max (a b : float) : float := if PrimFloat.ltb a b then b else a.

Definition _effective_rain_6h (rain_1h rain_3h rain_6h : float) : float :=
  let r1 := max 0 rain_1h in
  let r3 := max 0 rain_3h in
  let r6 := max 0 rain_6h in
  let extra_3h := max 0 (r3 - r1) in
  let extra_6h := max 0 (r6 - r3) in
  max 0 (r1 + 0.6 * extra_3h + 0.4 * extra_6h).

Definition _rain_band_from_eff6 (eff_6h : float) : Z :=
  let e := max 0 eff_6h in
  if PrimFloat.ltb e 0.5 then 0
  else if PrimFloat.ltb e 5 then 1
  else if PrimFloat.ltb e 15 then 2
  else if PrimFloat.ltb e 30 then 3
  else 4.

(** *** The hazard builders of [views_alerts]

    [_build_rain_hazard], [_build_heat_cold_hazard] and [_build_wind_hazard]
    of [views_alerts] with their helpers once more, on the floats Python
    computes with: every sum and product is rounded as the interpreter
    rounds it and every comparison is the interpreter's, NaN included.  The
    tiers are stated on these. *)

Local Open Scope string_scope.

(** [min(a, b)] *)
Definition min (a b : float) : float := if PrimFloat.ltb b a then b else a.

(** A value handed to [float(...)]: [None], a number, or something [float]
    raises on. *)
Inductive arg : Type :=
| ANone
| ANum (x : float)
| AOther.

Section formatting.

(** [x ** 0.16], [x ** 2], [format(x, ".1f")] and [format(x, ".0f")]:
    Python's own, kept abstract.  [x ** 0.16] is only taken of a wind speed
    that is not below 5, where it returns a float; [x ** 2] raises
    [OverflowError] where the square of a finite [x] leaves the range of
    binary64. *)
Variable pow016 : float → float.
Variable pow2 : float → Py.result float.
Variable fmt1 : float → string.
Variable fmt0 : float → string.

Definition _compute_heat_index (temp_c rel_humidity : option float)
    : Py.result (option float) :=
  match temp_c with
  | None => mret None
  | Some T =>
      match rel_humidity with
      | None => mret (Some T)
      | Some rh =>
          let RH := max 0 (min 100 rh) in
          if PrimFloat.ltb T 27 || PrimFloat.ltb RH 40 then mret (Some T)
          else
            T2 ← pow2 T;
            RH2 ← pow2 RH;
            mret (Some (- 8.784695
                        + 1.61139411 * T
                        + 2.338549 * RH
                        - 0.14611605 * T * RH
                        - 0.012308094 * T2
                        - 0.016424828 * RH2
                        + 0.002211732 * T2 * RH
                        + 0.00072546 * T * RH2
                        - 0.000003582 * T2 * RH2)%float)
      end
  end.

Definition _compute_windchill (temp_c wind_ms : option float) : option float :=
  match temp_c, wind_ms with
  | Some T, Some w =>
      let V_kmh := (w * 3.6)%float in
      if PrimFloat.ltb 10 T || PrimFloat.ltb V_kmh 5 then None
      else Some (13.12 + 0.6215 * T - 11.37 * pow016 V_kmh
                 + 0.3965 * T * pow016 V_kmh)%float
  | _, _ => None
  end.

Definition _build_heat_cold_hazard
    (temp_c wind_ms cloudcover rel_humidity : option float)
    : Py.result (option views_alerts.hazard) :=
  match temp_c with
  | None => mret None
  | Some T =>
      let windchill := _compute_windchill (Some T) wind_ms in
      let effective_cold := default T windchill in
      if PrimFloat.leb effective_cold 15 then
        let '(level, score, headline, desc) :=
          if PrimFloat.leb effective_cold 5 then
            ("warning", 3, "Trời rét, có gió",
             "Nhiệt độ cảm nhận xuống khoảng " ++ fmt1 effective_cold ++ "°C "
             ++ "(tính theo nhiệt độ và gió), dễ gây rét buốt, "
             ++ "đặc biệt vào đêm và sáng sớm.")
          else if PrimFloat.leb effective_cold 10 then
            ("watch", 2, "Trời lạnh",
             "Nhiệt độ cảm nhận khoảng " ++ fmt1 effective_cold ++ "°C, "
             ++ "trời lạnh, cần chú ý giữ ấm cho trẻ nhỏ và người già.")
          else
            ("info", 1, "Thời tiết se lạnh",
             "Nhiệt độ khoảng " ++ fmt1 T
             ++ "°C, khá mát hoặc hơi lạnh về đêm và sáng sớm.") in
        let adv :=
          ["Chuẩn bị áo ấm khi ra ngoài, đặc biệt vào tối và sáng sớm.";
           "Giữ ấm cho trẻ nhỏ, người cao tuổi."] in
        mret (Some (views_alerts._make_hazard "cold" level score headline desc adv))
      else if PrimFloat.ltb T 32 then mret None
      else
        HI ← _compute_heat_index (Some T) rel_humidity;
        let effective_heat := default T HI in
        if PrimFloat.ltb effective_heat 32 then mret None
        else
          let cloudy :=
            match cloudcover with
            | Some c => PrimFloat.leb 60 c
            | None => false
            end in
          let '(level, score, headline, desc) :=
            if PrimFloat.ltb effective_heat 41 then
              ("info", 1, "Thời tiết oi nóng",
               "Nhiệt độ cảm nhận khoảng " ++ fmt1 effective_heat ++ "°C, "
               ++ "trời oi, dễ mệt nếu hoạt động ngoài trời lâu.")
            else if PrimFloat.ltb effective_heat 54 then
              ("watch", 2, "Nắng nóng, cần thận trọng",
               "Nhiệt độ cảm nhận khoảng " ++ fmt1 effective_heat ++ "°C. "
               ++ "Nếu làm việc ngoài trời lâu, nguy cơ mất nước và kiệt sức tăng.")
            else
              ("warning", 3, "Nắng nóng gay gắt, nguy cơ cao",
               "Nhiệt độ cảm nhận trên " ++ fmt1 effective_heat ++ "°C, "
               ++ "nguy cơ say nắng, sốc nhiệt nếu ở ngoài trời trong thời gian dài.") in
          let desc :=
            if cloudy
            then desc ++ " Lượng mây nhiều có thể giảm bớt nắng trực tiếp, nhưng không giảm nhiều mức oi nóng."
            else desc in
          let adv :=
            ["Hạn chế ở ngoài trời nắng lâu trong khung giờ trưa - đầu giờ chiều.";
             "Uống đủ nước, mặc quần áo thoáng mát.";
             "Ưu tiên nghỉ ngơi trong bóng râm hoặc nơi có mái che."] in
          mret (Some (views_alerts._make_hazard "heat" level score headline desc adv))
  end.

Definition _build_wind_hazard (wind_ms : option float) : option views_alerts.hazard :=
  match wind_ms with
  | None => None
  | Some w =>
      let wind_kmh := (w * 3.6)%float in
      if PrimFloat.ltb wind_kmh 20 then None
      else
        let '(level, score, headline, desc) :=
          if PrimFloat.ltb wind_kmh 30 then
            ("info", 1, "Gió vừa",
             "Tốc độ gió khoảng " ++ fmt0 wind_kmh ++ " km/h (xấp xỉ cấp 4 Beaufort), "
             ++ "có thể gây khó chịu khi di chuyển bằng xe máy hoặc đi bộ.")
          else if PrimFloat.ltb wind_kmh 50 then
            ("watch", 2, "Gió mạnh",
             "Gió mạnh khoảng " ++ fmt0 wind_kmh ++ " km/h (xấp xỉ cấp 5–6 Beaufort), "
             ++ "cần chú ý khi đi lại ngoài trời, đặc biệt ở nơi trống trải.")
          else
            ("warning", 3, "Gió rất mạnh",
             "Gió rất mạnh khoảng " ++ fmt0 wind_kmh ++ " km/h (từ cấp 7 Beaufort trở lên), "
             ++ "có thể gây đổ cây, biển quảng cáo, nguy hiểm khi tham gia giao thông.") in
        let adv :=
          ["Hạn chế đứng gần cây lớn, biển quảng cáo, vật dễ đổ.";
           "Giữ chắc tay lái nếu di chuyển bằng xe máy."] in
        Some (views_alerts._make_hazard "strong_wind" level score headline desc adv)
  end.

(** [float(x or 0.0)]: [None] and both zeros give [0.0]. *)
Definition float_or_zero (x : option float) : float :=
  match x with
  | Some v => if PrimFloat.eqb v 0 then 0 else v
  | None => 0
  end.

(** The combined effective value of [_build_rain_hazard]. *)
Definition rain_eff (rain_1h rain_3h rain_6h : option float) : float :=
  let r1 := float_or_zero rain_1h in
  let r3 := float_or_zero rain_3h in
  let r6 := float_or_zero rain_6h in
  let extra_3h := max 0 (r3 - r1) in
  let extra_6h := max 0 (r6 - r3) in
  (r1 + 0.6 * extra_3h + 0.4 * extra_6h)%float.

Definition _build_rain_hazard (rain_1h rain_3h rain_6h : option float)
    (precip_now : arg) : option views_alerts.hazard :=
  let eff := rain_eff rain_1h rain_3h rain_6h in
  let light :=
    match precip_now with
    | ANum p => PrimFloat.leb 0.1 p && PrimFloat.ltb eff 0.5
    | ANone => false
    | AOther => false
    end in
  if light then
    Some (views_alerts._make_hazard "rain" "info" 1 "Mưa nhẹ"
            "Có mưa nhẹ trong giờ gần nhất, đường có thể trơn trượt."
            ["Di chuyển cẩn thận, chuẩn bị áo mưa nếu cần."])
  else if PrimFloat.ltb eff 0.5 then None
  else if PrimFloat.ltb eff 5 then
    Some (views_alerts._make_hazard "rain" "info" 1 "Mưa nhỏ, rải rác"
            ("Mưa tích lũy khoảng " ++ fmt1 eff ++ "mm trong 1–6 giờ gần nhất. "
             ++ "Ảnh hưởng chủ yếu là trơn trượt, bất tiện khi di chuyển.")
            ["Chuẩn bị áo mưa nếu phải di chuyển ngoài trời."])
  else if PrimFloat.ltb eff 15 then
    Some (views_alerts._make_hazard "rain" "watch" 2 "Mưa vừa, có nguy cơ ngập nhẹ"
            ("Mưa tích lũy khoảng " ++ fmt1 eff ++ "mm trong vài giờ gần đây, "
             ++ "có thể gây ngập nhẹ tại các khu vực trũng, thoát nước kém.")
            ["Hạn chế di chuyển nhanh trên đường trơn.";
             "Theo dõi các điểm trũng, khu dân cư thấp."])
  else if PrimFloat.ltb eff 30 then
    Some (views_alerts._make_hazard "rain" "warning" 3 "Mưa to, nguy cơ ngập cục bộ"
            ("Mưa tích lũy khoảng " ++ fmt1 eff
             ++ "mm, nguy cơ ngập cục bộ tại khu dân cư, đô thị và các điểm trũng.")
            ["Hạn chế đi qua vùng ngập nước hoặc khu vực thoát nước kém.";
             "Chủ động kê cao đồ đạc ở tầng thấp."])
  else
    Some (views_alerts._make_hazard "rain" "danger" 4 "Mưa rất to, nguy cơ lũ cục bộ"
            ("Mưa tích lũy trên " ++ fmt1 eff
             ++ "mm trong 6 giờ, nguy cơ ngập sâu, lũ quét hoặc sạt lở đất "
             ++ "(đặc biệt vùng đồi núi).")
            ["Tránh di chuyển qua khu vực ngập sâu, sông suối, khe suối.";
             "Theo dõi chặt chẽ cảnh báo của cơ quan khí tượng thủy văn."]).

End formatting.

End binary64.

(** ** api/management/commands/fetch_openmeteo_hourly_obs.py *)

Module fetch_openmeteo_hourly_obs.

Definition DB_CHUNK_SIZE : Z := 200.

(** [range(start, stop, step)] as the list of the values it runs through;
    a zero step raises [ValueError]. *)
Definition range (start stop step : Z) : Py.result (list Z) :=
  if step =? 0 then Py.raise (Py.OtherError "range() arg 3 must not be zero")
  else
    let count :=
      if 0 <? step then (stop - start + step - 1) `div` step
      else (start - stop - step - 1) `div` (- step) in
    mret ((λ k, start + k * step) <$> seqZ 0 count).

(** [lst[i:j]] for [0 <= i <= j], the only slices [chunks] takes. *)
Definition slice {A : Type} (lst : list A) (i j : Z) : list A :=
  take (Z.to_nat (j - i)) (drop (Z.to_nat i) lst).

(** The values the generator [chunks(lst, n)] yields, in order. *)
Definition chunks {A : Type} (lst : list A) (n : Z) : Py.result (list (list A)) :=
  idx ← range 0 (Z.of_nat (length lst)) n;
  mret ((λ i, slice lst i (i + n)) <$> idx).

(** [lst[::k]] for [k >= 1]: the elements at the indices [0, k, 2k, ...]. *)
Definition slice_step {A : Type} (lst : list A) (k : Z) : list A :=
  omap (λ i : nat, lst !! (i * Z.to_nat k)%nat)
    (seq 0 (Z.to_nat ((Z.of_nat (length lst) + k - 1) `div` k))).

(** [x or d] on an [int]. *)
Definition int_or (x d : Z) : Z := if x =? 0 then d else x.

(** The locations that [handle] keeps of the rows of the query, from the
    options [--stride], [--offset], [--limit] and [--max]. *)
Definition select_locations {A : Type} (locs : list A) (o_stride o_offset o_limit o_max : Z)
    : list A :=
  let stride := Z.max 1 (int_or o_stride 1) in
  let locs := if 1 <? stride then slice_step locs stride else locs in
  let off := Z.max 0 (int_or o_offset 0) in
  let lim := int_or o_limit 0 in
  let locs :=
    if negb (off =? 0) || negb (lim =? 0) then
      if 0 <? lim then take (Z.to_nat lim) (drop (Z.to_nat off) locs)
      else drop (Z.to_nat off) locs
    else locs in
  if 0 <? o_max then take (Z.to_nat o_max) locs else locs.

End fetch_openmeteo_hourly_obs.

(** ** Vocabulary of the specification *)

Module Spec.

Import views_obs.

(** The seven numeric fields of a step and of a stored record, in one
    order. *)
Definition step_fields (s : step) : list (option Q) :=
  [s_temp_c s; s_wind_ms s; s_precip_mm s; s_rel_humidity_pct s;
   s_wind_dir_deg s; s_cloudcover_pct s; s_surface_pressure_hpa s].

Definition rec_fields (r : weather_rec) : list (option Q) :=
  [temp_c r; wind_ms r; precip_mm r; rel_humidity_pct r;
   wind_dir_deg r; cloudcover_pct r; surface_pressure_hpa r].

Definition all_absent (s : step) : Prop := step_fields s = replicate 7 None.

(** The merge rule of the specification at one hour: the observation if
    there is one, else the forecast if there is one, else nothing. *)
Definition merged_as_specified (obs_map fcst_map : gmap Z weather_rec) (s : step)
    : Prop :=
  match obs_map !! s_valid_at s, fcst_map !! s_valid_at s with
  | Some r, _ => s_source s = "obs"%string ∧ step_fields s = rec_fields r
  | None, Some r => s_source s = "fcst"%string ∧ step_fields s = rec_fields r
  | None, None => s_source s = "none"%string ∧ all_absent s
  end.

(** Number of hourly instants [start, start + 1h, ...] that are [<= stop]. *)
Definition hours_between (start stop : Z) : Z := (stop - start) `div` HOUR + 1.

(** Combined score as the specification writes it, in exact arithmetic. *)
Definition risk_score_formula (rain_band relief_band elev_band slope_penalty : Z) : Z :=
  views_flood._clamp
    (Py.round_half_even
       (0.70 * inject_Z rain_band + 0.20 * inject_Z relief_band
        + 0.10 * inject_Z elev_band)%Q
     - slope_penalty) 0 4.

(** Greatest rank in a list of hazards, and the number of hazards at
    "watch" (rank 2) or above. *)
Definition max_rank (hs : list views_alerts.hazard) : Z :=
  foldr (λ h acc, Z.max (views_alerts._rank h) acc) 0 hs.

Definition watch_or_more (hs : list views_alerts.hazard) : Z :=
  Z.of_nat (length (filter (λ h, 2 ≤ views_alerts._rank h) hs)).

(** One step up when at least two hazards are at "watch" or above. *)
Definition bump (hs : list views_alerts.hazard) : Z :=
  if 2 <=? watch_or_more hs then 1 else 0.

(** A rain amount as the scorer reads it: absent (or unreadable) is 0 and a
    negative amount is 0. *)
Definition given (x : Py.arg) : Q :=
  Qmax 0 (match x with Py.ANum q => q | _ => 0 end).

(** The combined effective value as the specification writes it. *)
Definition rain_eff_formula (rain_1h rain_3h rain_6h : option Q) : Q :=
  let r1 := default 0%Q rain_1h in
  let r3 := default 0%Q rain_3h in
  let r6 := default 0%Q rain_6h in
  (r1 + 0.6 * Qmax 0 (r3 - r1) + 0.4 * Qmax 0 (r6 - r3))%Q.

(** A hazard of the given type, level and score. *)
Definition is_hazard (o : option views_alerts.hazard) (type lvl : string) (score : Z)
    : Prop :=
  ∃ h, o = Some h ∧ views_alerts.h_type h = type ∧ views_alerts.level h = lvl
       ∧ views_alerts.score h = score.

(** The call returns a hazard of the given type, level and score. *)
Definition returns_hazard (r : Py.result (option views_alerts.hazard))
    (type lvl : string) (score : Z) : Prop :=
  ∃ o, r = inr o ∧ is_hazard o type lvl score.

(** The order of binary64 values as Python's [<] and [<=] decide it:
    nothing is below, above or equal to a NaN. *)
Definition flt (x y : float) : Prop := PrimFloat.ltb x y = true.
Definition fle (x y : float) : Prop := PrimFloat.leb x y = true.

(** The rational a finite binary64 value is. *)
Definition exact (x : float) : option Q :=
  match Prim2SF x with
  | S754_zero _ => Some 0%Q
  | S754_finite s m e =>
      Some ((if s then - inject_Z (Zpos m) else inject_Z (Zpos m)) * 2 ^ e)%Q
  | _ => None
  end.

(** [x] is finite and is the rational [q]. *)
Definition exactly (x : float) (q : Q) : Prop :=
  ∃ r, exact x = Some r ∧ (r == q)%Q.

(** The polynomial of the heat index on exact values. *)
Definition heat_index_poly (T RH : Q) : Q :=
  (- 8.784695 + 1.61139411 * T + 2.338549 * RH - 0.14611605 * T * RH
   - 0.012308094 * (T * T) - 0.016424828 * (RH * RH)
   + 0.002211732 * (T * T) * RH + 0.00072546 * T * (RH * RH)
   - 0.000003582 * (T * T) * (RH * RH))%Q.

(** Total precipitation of the rows whose age in hours satisfies [P]; rows
    without a usable instant count for nothing, a missing amount is 0. *)
Definition precip_where (P : Q → bool) (anchor_ts : Z)
    (rows : list (option Z * option Q)) : Q :=
  foldr (λ r acc,
           match r.1 with
           | Some valid_at =>
               if P (views_alerts.hours_back anchor_ts valid_at)
               then (default 0 r.2 + acc)%Q
               else acc
           | None => acc
           end) 0%Q rows.

(** [lo < h <= hi], and [0 <= h <= hi]. *)
Definition aged (lo hi : Q) (h : Q) : bool := negb (Qle_bool h lo) && Qle_bool h hi.
Definition within (hi : Q) (h : Q) : bool := Qle_bool 0 h && Qle_bool h hi.

(** No reading of the rows is negative. *)
Definition readings_nonneg (rows : list (option Z * option Q)) : Prop :=
  Forall (λ r, (0 <= default 0 r.2)%Q) rows.

(** A raster value that counts: finite and not the nodata value. *)
Definition valid_value (nodata : option dem_utils.fval) (v : dem_utils.fval) (q : Q)
    : Prop :=
  v = dem_utils.Fin q ∧ dem_utils.is_nodata nodata v = false.

Definition valid_pixel (d : dem_utils.dataset) (r c : Z) (q : Q) : Prop :=
  valid_value (dem_utils.nodata d) (dem_utils.band1 d r c) q.

(** The pixels of the square of side [2 * half_size_px + 1] centred at
    [(row, col)] that lie inside the raster. *)
Definition in_window (d : dem_utils.dataset) (row col half_size_px r c : Z) : Prop :=
  0 ≤ r < dem_utils.height d ∧ 0 ≤ c < dem_utils.width d
  ∧ row - half_size_px ≤ r ≤ row + half_size_px
  ∧ col - half_size_px ≤ c ≤ col + half_size_px.

Definition inside (d : dem_utils.dataset) (row col : Z) : Prop :=
  0 ≤ row < dem_utils.height d ∧ 0 ≤ col < dem_utils.width d.

(** The record of a row of the flood view echoes the row and is consistent
    in itself. *)
Definition row_echoed (r : views_flood.agg_row) (out : views_flood.risk) : Prop :=
  views_flood.out_location_id out = views_flood.location_id r
  ∧ views_flood.out_lat out = views_flood.lat r
  ∧ views_flood.out_lon out = views_flood.lon r
  ∧ views_flood.out_valid_at out = views_flood.valid_at r
  ∧ views_flood.out_rain_1h_mm out = views_flood._safe_float (views_flood.rain_1h_mm r) 0
  ∧ views_flood.out_rain_3h_mm out = views_flood._safe_float (views_flood.rain_3h_mm r) 0
  ∧ (0 <= views_flood.eff_rain_1h_mm out)%Q
  ∧ (views_flood.eff_rain_1h_mm out <= views_flood.eff_rain_3h_mm out)%Q
  ∧ 0 ≤ views_flood.risk_score out ≤ 4
  ∧ views_flood.RISK_LEVELS !! Z.to_nat (views_flood.risk_score out)
    = Some (views_flood.risk_level out).

(** A hazard on the scale: its level is one of the four above "none" and
    its score is the rank of the level. *)
Definition hazard_graded (h : views_alerts.hazard) : Prop :=
  1 ≤ views_alerts._rank h ≤ 4
  ∧ views_alerts.score h = views_alerts._rank h
  ∧ views_alerts.level h ≠ "none"%string.

(** The cells of the rows at instant [t] whose precipitation is a number,
    in the order of the rows. *)
Definition cells_at (rows : list views_obs.frame_row) (t : Z) : list views_obs.cell :=
  omap (λ r : views_obs.frame_row,
          match r with
          | (valid_at, lat, lon, Py.ANum p) =>
              if decide (valid_at = t) then Some (views_obs.mk_cell lat lon p) else None
          | _ => None
          end) rows.

(** What holds of the counters of the day after [n] hours of the merge
    loop of [_build_today_summary_text]. *)
Definition day_consistent (st : views_alerts.day_stats) (n : Z) : Prop :=
  views_alerts.used_hours st = views_alerts.obs_hours st + views_alerts.fcst_hours st
  ∧ 0 ≤ views_alerts.obs_hours st
  ∧ 0 ≤ views_alerts.fcst_hours st
  ∧ views_alerts.used_hours st ≤ n
  ∧ 0 ≤ views_alerts.heavy_rain_hours st
  ∧ views_alerts.heavy_rain_hours st ≤ views_alerts.raining_hours st
  ∧ views_alerts.raining_hours st ≤ views_alerts.used_hours st
  ∧ (0 <= views_alerts.precip_sum st)%Q
  ∧ ((0 < views_alerts.precip_sum st)%Q ↔ 0 < views_alerts.raining_hours st)
  ∧ (5 * inject_Z (views_alerts.heavy_rain_hours st) <= views_alerts.precip_sum st)%Q
  ∧ Z.of_nat (length (views_alerts.temp_vals st)) ≤ views_alerts.used_hours st
  ∧ Z.of_nat (length (views_alerts.wind_vals st)) ≤ views_alerts.used_hours st
  ∧ Z.of_nat (length (views_alerts.cloud_vals st)) ≤ views_alerts.used_hours st.

End Spec.

(** * Properties *)

(** ** Facts about the Python built-ins *)

Section builtins.

Local Open Scope Q_scope.

Lemma Qltb_spec (a b : Q) : BoolSpec (a < b) (b <= a) (Py.Qltb a b).
Proof.
  unfold Py.Qltb. destruct (Qle_bool b a) eqn:E; constructor.
  - apply Qle_bool_iff. exact E.
  - apply Qnot_le_lt. intros H. apply Qle_bool_iff in H. congruence.
Qed.

Lemma Qleb_spec (a b : Q) : BoolSpec (a <= b) (b < a) (Py.Qleb a b).
Proof.
  unfold Py.Qleb. destruct (Qle_bool a b) eqn:E; constructor.
  - apply Qle_bool_iff. exact E.
  - apply Qnot_le_lt. intros H. apply Qle_bool_iff in H. congruence.
Qed.

Lemma Qle_bool_spec (a b : Q) : BoolSpec (a <= b) (b < a) (Qle_bool a b).
Proof. exact (Qleb_spec a b). Qed.

Lemma Qgtb_spec (a b : Q) : BoolSpec (b < a) (a <= b) (Py.Qgtb a b).
Proof.
  unfold Py.Qgtb. destruct (Qle_bool a b) eqn:E; constructor.
  - apply Qle_bool_iff. exact E.
  - apply Qnot_le_lt. intros H. apply Qle_bool_iff in H. congruence.
Qed.

Lemma Qgeb_spec (a b : Q) : BoolSpec (b <= a) (a < b) (Py.Qgeb a b).
Proof.
  unfold Py.Qgeb. destruct (Qle_bool b a) eqn:E; constructor.
  - apply Qle_bool_iff. exact E.
  - apply Qnot_le_lt. intros H. apply Qle_bool_iff in H. congruence.
Qed.

Lemma py_max_spec (a b : Q) :
  (a < b ∧ Py.max a b = b) ∨ (b <= a ∧ Py.max a b = a).
Proof. unfold Py.max. destruct (Qgtb_spec b a); [left|right]; split; auto. Qed.

Lemma py_min_spec (a b : Q) :
  (b < a ∧ Py.min a b = b) ∨ (a <= b ∧ Py.min a b = a).
Proof. unfold Py.min. destruct (Qltb_spec b a); [left|right]; split; auto. Qed.

Lemma py_max_Qmax (a b : Q) : Py.max a b == Qmax a b.
Proof.
  destruct (py_max_spec a b) as [[H ->]|[H ->]];
    destruct (Q.max_spec a b) as [[H' ->]|[H' ->]]; lra.
Qed.

End builtins.

(** Case analysis on every comparison and [max]/[min] of the goal. *)
Ltac py_cases :=
  repeat match goal with
    | |- context [Py.Qltb ?a ?b] => destruct (Qltb_spec a b)
    | |- context [Py.Qleb ?a ?b] => destruct (Qleb_spec a b)
    | |- context [Py.Qgtb ?a ?b] => destruct (Qgtb_spec a b)
    | |- context [Py.Qgeb ?a ?b] => destruct (Qgeb_spec a b)
    end.

Ltac py_max_case a b lem :=
  let H := fresh "Hm" in
  let E := fresh "Em" in
  destruct (lem a b) as [[H E]|[H E]]; rewrite E in *; clear E.

Ltac py_max_cases :=
  repeat match goal with
    | |- context [Py.max ?a ?b] => py_max_case a b py_max_spec
    | _ : context [Py.max ?a ?b] |- _ => py_max_case a b py_max_spec
    | |- context [Py.min ?a ?b] => py_max_case a b py_min_spec
    | _ : context [Py.min ?a ?b] |- _ => py_max_case a b py_min_spec
    end.

(** ** Time-series merger *)

Section merge.

Import views_obs Spec.

Variables obs_map fcst_map : gmap Z weather_rec.

Lemma merge_at_valid_at (t : Z) : s_valid_at (merge_at obs_map fcst_map t) = t.
Proof. unfold merge_at. destruct (obs_map !! t), (fcst_map !! t); reflexivity. Qed.

Lemma merge_at_as_specified (t : Z) :
  merged_as_specified obs_map fcst_map (merge_at obs_map fcst_map t).
Proof.
  unfold merged_as_specified. rewrite merge_at_valid_at.
  unfold merge_at, all_absent.
  destruct (obs_map !! t) as [r|] eqn:Ho; [|destruct (fcst_map !! t) as [r|] eqn:Hf];
    simpl; split; reflexivity.
Qed.

Lemma merge_at_none_absent (t : Z) :
  s_source (merge_at obs_map fcst_map t) = "none"%string →
  all_absent (merge_at obs_map fcst_map t).
Proof.
  unfold merge_at, all_absent.
  destruct (obs_map !! t); [discriminate|].
  destruct (fcst_map !! t); [discriminate|]. reflexivity.
Qed.

(** The loop, run with enough fuel from [cursor], appends the merged record
    of every instant [cursor + k * 1h] up to [end_utc]. *)
Lemma merge_loop_unfold (fuel : nat) (cursor end_utc : Z) (steps : list step) :
  (Z.to_nat (hours_between cursor end_utc) ≤ fuel)%nat →
  merge_loop fuel obs_map fcst_map cursor end_utc steps
  = Some (steps ++ ((λ k, merge_at obs_map fcst_map (cursor + HOUR * k))
                      <$> seqZ 0 (hours_between cursor end_utc))).
Proof.
  revert cursor steps. unfold hours_between, HOUR.
  induction fuel as [|fuel IH]; intros cursor steps Hfuel.
  - assert (Hn : (end_utc - cursor) `div` 3600 + 1 ≤ 0) by lia.
    assert (Hlt : end_utc < cursor).
    { destruct (Z_lt_le_dec end_utc cursor) as [|Hle]; [lia|].
      pose proof (Z.div_pos (end_utc - cursor) 3600). lia. }
    simpl. replace (cursor <=? end_utc) with false by lia.
    unfold seqZ. replace (Z.to_nat _) with 0%nat by lia.
    simpl. rewrite app_nil_r. reflexivity.
  - simpl. destruct (Z.leb_spec cursor end_utc) as [Hle|Hlt].
    + assert (Hdiv : (end_utc - (cursor + 3600)) `div` 3600 = (end_utc - cursor) `div` 3600 - 1).
      { replace (end_utc - (cursor + 3600)) with ((end_utc - cursor) + (-1) * 3600) by lia.
        rewrite Z.div_add by lia. lia. }
      pose proof (Z.div_pos (end_utc - cursor) 3600 ltac:(lia) ltac:(lia)) as Hpos.
      unfold HOUR in *. rewrite IH; [|rewrite Hdiv; lia].
      rewrite Hdiv. set (n := (end_utc - cursor) `div` 3600) in *.
      f_equal. rewrite <- app_assoc. f_equal. simpl.
      replace (n + 1) with (Z.succ n) by lia.
      rewrite (seqZ_cons 0 (Z.succ n)) by lia. rewrite fmap_cons.
      replace (cursor + 3600 * 0) with cursor by lia.
      f_equal.
      replace (Z.pred (Z.succ n)) with (n - 1 + 1) by lia.
      rewrite <- (fmap_add_seqZ 1 0), <- list_fmap_compose.
      apply list_fmap_ext. intros i k _. simpl. f_equal. lia.
    + assert ((end_utc - cursor) `div` 3600 + 1 ≤ 0).
      { pose proof (Z.div_lt_upper_bound (end_utc - cursor) 3600 0). lia. }
      unfold seqZ. replace (Z.to_nat _) with 0%nat by lia.
      simpl. rewrite app_nil_r. reflexivity.
Qed.

(** C1 (merge completeness).  Over an hour-aligned range [start_utc <= end_utc]
    and any two maps, the loop returns (with fuel for one iteration per hour
    of the range) a list of steps that has exactly one step per hour: step
    number [i] is at [start_utc + i hours], the last one is at [end_utc], so
    the hours ascend without gap or repetition and every aligned hour of the
    range occurs at exactly one position.  Each step follows the merge rule
    (observation, else forecast, else none), and a step whose source is
    "none" has its seven numeric fields absent. *)
Theorem merge_steps_one_step_per_hour (fuel : nat) (start_utc end_utc : Z) :
  start_utc `mod` HOUR = 0 →
  end_utc `mod` HOUR = 0 →
  start_utc ≤ end_utc →
  (Z.to_nat (hours_between start_utc end_utc) ≤ fuel)%nat →
  ∃ steps : list step,
    merge_steps fuel obs_map fcst_map start_utc end_utc = Some steps
    ∧ Z.of_nat (length steps) = (end_utc - start_utc) `div` HOUR + 1
    ∧ (∀ (i : nat) (s : step),
         steps !! i = Some s → s_valid_at s = start_utc + HOUR * Z.of_nat i)
    ∧ start_utc + HOUR * (Z.of_nat (length steps) - 1) = end_utc
    ∧ (∀ t : Z, start_utc ≤ t ≤ end_utc → t `mod` HOUR = 0 →
         ∃ i : nat, (s_valid_at <$> steps) !! i = Some t
           ∧ ∀ j : nat, (s_valid_at <$> steps) !! j = Some t → j = i)
    ∧ Forall (merged_as_specified obs_map fcst_map) steps
    ∧ Forall (λ s, s_source s = "none"%string → all_absent s) steps.
Proof.
  intros Hs He Hle Hfuel.
  unfold merge_steps. rewrite merge_loop_unfold by exact Hfuel.
  rewrite app_nil_l. eexists. split; [reflexivity|].
  unfold hours_between, HOUR in *.
  set (n := (end_utc - start_utc) `div` 3600) in *.
  assert (Hn : 0 ≤ n) by (apply Z.div_pos; lia).
  assert (Hexact : end_utc - start_utc = 3600 * n).
  { unfold n. apply Z.div_exact; [lia|].
    rewrite Zminus_mod, Hs, He. reflexivity. }
  assert (Hnth : ∀ (i : nat) (s : step),
    ((λ k, merge_at obs_map fcst_map (start_utc + 3600 * k)) <$> seqZ 0 (n + 1)) !! i = Some s →
    s = merge_at obs_map fcst_map (start_utc + 3600 * Z.of_nat i) ∧ Z.of_nat i < n + 1).
  { intros i s Hi. rewrite list_lookup_fmap in Hi.
    destruct (seqZ 0 (n + 1) !! i) as [k|] eqn:Hk; [|discriminate].
    apply lookup_seqZ in Hk. simpl in Hi. inversion Hi; subst s.
    destruct Hk as [-> Hk]. split; [f_equal; lia|lia]. }
  repeat split.
  - rewrite length_fmap, length_seqZ. lia.
  - intros i s Hi. apply Hnth in Hi as [-> _]. apply merge_at_valid_at.
  - rewrite length_fmap, length_seqZ. lia.
  - intros t [Ht1 Ht2] Hmod.
    assert (Hk : ∃ k, t - start_utc = 3600 * k).
    { exists ((t - start_utc) `div` 3600). apply Z.div_exact; [lia|].
      rewrite Zminus_mod, Hs, Hmod. reflexivity. }
    destruct Hk as [k Hk]. exists (Z.to_nat k).
    assert (Hview : ∀ j : nat,
      (s_valid_at <$> ((λ k, merge_at obs_map fcst_map (start_utc + 3600 * k)) <$> seqZ 0 (n + 1))) !! j = Some t
      ↔ Z.of_nat j < n + 1 ∧ start_utc + 3600 * Z.of_nat j = t).
    { intros j. rewrite <- list_fmap_compose, list_lookup_fmap. split.
      - destruct (seqZ 0 (n + 1) !! j) as [k'|] eqn:Hj; [|discriminate].
        apply lookup_seqZ in Hj as [-> Hj]. simpl. rewrite merge_at_valid_at.
        intros [= <-]. split; lia.
      - intros [Hj <-].
        assert (Hl : seqZ 0 (n + 1) !! j = Some (0 + Z.of_nat j)) by (apply lookup_seqZ; lia).
        rewrite Hl. simpl. rewrite merge_at_valid_at. f_equal. }
    split.
    + apply Hview. split; lia.
    + intros j Hj. apply Hview in Hj. lia.
  - apply Forall_fmap, Forall_forall. intros k _. simpl. apply merge_at_as_specified.
  - apply Forall_fmap, Forall_forall. intros k _. simpl. apply merge_at_none_absent.
Qed.

End merge.

Lemma merge_steps_one_step_per_hour_witness :
  ∃ steps : list views_obs.step,
    views_obs.merge_steps 3
      {[ 0 := views_obs.mk_weather_rec (Some 25.5%Q) None (Some 0%Q) None None None None ]}
      {[ 3600 := views_obs.mk_weather_rec (Some 26%Q) None None None None None None ]}
      0 7200 = Some steps
    ∧ views_obs.s_source <$> steps = ["obs"; "fcst"; "none"]%string
    ∧ views_obs.s_valid_at <$> steps = [0; 3600; 7200].
Proof.
  destruct (merge_steps_one_step_per_hour
              {[ 0 := views_obs.mk_weather_rec (Some 25.5%Q) None (Some 0%Q) None None None None ]}
              {[ 3600 := views_obs.mk_weather_rec (Some 26%Q) None None None None None None ]}
              3 0 7200)
    as (steps & Hrun & _); [reflexivity | reflexivity | lia | vm_compute; lia |].
  exists steps. split; [exact Hrun|].
  vm_compute in Hrun. injection Hrun as <-. split; reflexivity.
Defined.

(** ** The merged time series endpoint *)

Section endpoint.

Import views_obs Spec.

Lemma clamp_hours_range (h : Z) : 0 ≤ clamp_hours h ≤ 168.
Proof.
  unfold clamp_hours.
  destruct (Z.ltb_spec h 0); destruct (Z.gtb_spec 0 168); try lia;
    destruct (Z.gtb_spec h 168); lia.
Qed.

Lemma clamp_hours_cases (h : Z) :
  (h < 0 → clamp_hours h = 0)
  ∧ (168 < h → clamp_hours h = 168)
  ∧ (0 ≤ h ≤ 168 → clamp_hours h = h).
Proof.
  unfold clamp_hours.
  destruct (Z.ltb_spec h 0); [|destruct (Z.gtb_spec h 168)];
    repeat split; intros; try lia; reflexivity.
Qed.

Lemma hours_param_cases (raw : option string) (default : Z) :
  (raw = None ∨ raw = Some ""%string ∨ (∃ s, raw = Some s ∧ Py.int s = None) →
   hours_param raw default = default)
  ∧ (∀ (s : string) (n : Z), raw = Some s → s ≠ ""%string → Py.int s = Some n →
     hours_param raw default = n).
Proof.
  split.
  - intros [-> | [-> | (s & -> & Hs)]]; [reflexivity | reflexivity |].
    unfold hours_param. rewrite Hs. destruct (String.eqb s ""); reflexivity.
  - intros s n -> Hne Hs. unfold hours_param. rewrite Hs.
    destruct (String.eqb_spec s ""); [contradiction | reflexivity].
Qed.

(** C10, as the code has it.  For a request with a well-formed id of a known
    location (and fuel for 337 iterations) the endpoint answers with a
    series whose backward and forward windows are the parameters clamped to
    [0, 168]: a missing, empty or non-integer parameter gives the default (48
    back, 96 forward), a negative integer gives 0 (not the default), an
    integer above 168 gives 168.  The number of steps is
    [back + forward + 1], between 1 and 337. *)
Theorem merged_timeseries_window (fuel : nat) (rq : request) (loc : location) :
  uuid_ok rq = true →
  loc_row rq = Some loc →
  (337 ≤ fuel)%nat →
  ∃ body : timeseries,
    merged_timeseries fuel rq = Some (Found body)
    ∧ ts_back_hours body = clamp_hours (hours_param (get_back rq) 48)
    ∧ ts_forward_hours body = clamp_hours (hours_param (get_fwd rq) 96)
    ∧ 0 ≤ ts_back_hours body ≤ 168
    ∧ 0 ≤ ts_forward_hours body ≤ 168
    ∧ (get_back rq = None ∨ get_back rq = Some ""%string
       ∨ (∃ s, get_back rq = Some s ∧ Py.int s = None) → ts_back_hours body = 48)
    ∧ (get_fwd rq = None ∨ get_fwd rq = Some ""%string
       ∨ (∃ s, get_fwd rq = Some s ∧ Py.int s = None) → ts_forward_hours body = 96)
    ∧ (∀ s n, get_back rq = Some s → s ≠ ""%string → Py.int s = Some n →
         ts_back_hours body = Z.max 0 (Z.min 168 n))
    ∧ (∀ s n, get_fwd rq = Some s → s ≠ ""%string → Py.int s = Some n →
         ts_forward_hours body = Z.max 0 (Z.min 168 n))
    ∧ ts_count body = Z.of_nat (length (ts_steps body))
    ∧ ts_count body = ts_back_hours body + ts_forward_hours body + 1
    ∧ 1 ≤ ts_count body ≤ 337.
Proof.
  intros Hu Hl Hfuel. unfold merged_timeseries. rewrite Hu, Hl. simpl.
  set (back := clamp_hours (hours_param (get_back rq) 48)).
  set (fwd := clamp_hours (hours_param (get_fwd rq) 96)).
  pose proof (clamp_hours_range (hours_param (get_back rq) 48)) as Hb.
  pose proof (clamp_hours_range (hours_param (get_fwd rq) 96)) as Hf.
  fold back in Hb. fold fwd in Hf.
  set (base := now_utc rq - now_utc rq `mod` HOUR).
  assert (Hn : hours_between (base - back * HOUR) (base + fwd * HOUR) = back + fwd + 1).
  { unfold hours_between, HOUR.
    replace (base + fwd * 3600 - (base - back * 3600)) with ((back + fwd) * 3600) by lia.
    rewrite Z.div_mul by lia. reflexivity. }
  unfold merge_steps. rewrite merge_loop_unfold by (rewrite Hn; lia).
  rewrite Hn. simpl. eexists. split; [reflexivity|]. simpl.
  rewrite length_fmap, length_seqZ.
  destruct (hours_param_cases (get_back rq) 48) as [Hb1 Hb2].
  destruct (hours_param_cases (get_fwd rq) 96) as [Hf1 Hf2].
  repeat split; try lia.
  - intros H. unfold back. rewrite (Hb1 H). reflexivity.
  - intros H. unfold fwd. rewrite (Hf1 H). reflexivity.
  - intros s n H1 H2 H3. unfold back. rewrite (Hb2 s n H1 H2 H3).
    destruct (clamp_hours_cases n) as (? & ? & ?). lia.
  - intros s n H1 H2 H3. unfold fwd. rewrite (Hf2 s n H1 H2 H3).
    destruct (clamp_hours_cases n) as (? & ? & ?). lia.
Qed.

End endpoint.

Lemma merged_timeseries_window_witness :
  ∃ body : views_obs.timeseries,
    views_obs.merged_timeseries 337
      (views_obs.mk_request true
         (Some (views_obs.mk_location "7b1c" "Ha Noi" 21.03%Q 105.85%Q))
         (Some "12"%string) (Some "3.5"%string) 1762176600
         (λ _ _, []) (λ _ _, []))
    = Some (views_obs.Found body)
    ∧ views_obs.ts_back_hours body = 12
    ∧ views_obs.ts_forward_hours body = 96
    ∧ views_obs.ts_count body = 109.
Proof.
  destruct (merged_timeseries_window 337
              (views_obs.mk_request true
                 (Some (views_obs.mk_location "7b1c" "Ha Noi" 21.03%Q 105.85%Q))
                 (Some "12"%string) (Some "3.5"%string) 1762176600
                 (λ _ _, []) (λ _ _, []))
              (views_obs.mk_location "7b1c" "Ha Noi" 21.03%Q 105.85%Q))
    as (body & Hrun & Hb & Hf & _ & _ & _ & _ & _ & _ & _ & Hc & _);
    [reflexivity | reflexivity | lia |].
  exists body. split; [exact Hrun|]. rewrite Hc, Hb, Hf. simpl. repeat split.
Defined.

(** C10 as stated fails: a negative [back] is replaced by 0, not by the
    default 48 (and a negative [fwd] by 0, not by 96). *)
Lemma merged_timeseries_negative_back_is_zero :
  ∃ body : views_obs.timeseries,
    views_obs.merged_timeseries 337
      (views_obs.mk_request true
         (Some (views_obs.mk_location "7b1c" "Ha Noi" 21.03%Q 105.85%Q))
         (Some "-5"%string) (Some "-1"%string) 1762176600
         (λ _ _, []) (λ _ _, []))
    = Some (views_obs.Found body)
    ∧ views_obs.ts_back_hours body = 0
    ∧ views_obs.ts_back_hours body ≠ 48
    ∧ views_obs.ts_forward_hours body = 0
    ∧ views_obs.ts_forward_hours body ≠ 96
    ∧ views_obs.ts_count body = 1.
Proof.
  eexists. split; [vm_compute; reflexivity|]. simpl. repeat split; discriminate.
Qed.

(** ** Hazard combination *)

Section combination.

Import views_alerts Spec.

Lemma level_rank_lookup (lv : string) :
  _LEVEL_RANK !! lv =
    if decide (lv = "none"%string) then Some 0
    else if decide (lv = "info"%string) then Some 1
    else if decide (lv = "watch"%string) then Some 2
    else if decide (lv = "warning"%string) then Some 3
    else if decide (lv = "danger"%string) then Some 4
    else None.
Proof.
  unfold _LEVEL_RANK. simpl. rewrite !lookup_insert, lookup_empty.
  repeat case_decide; subst; try reflexivity; congruence.
Qed.

Lemma rank_range (h : hazard) : 0 ≤ _rank h ≤ 4.
Proof.
  unfold _rank. rewrite level_rank_lookup.
  repeat (destruct (decide _)); simpl; lia.
Qed.

Lemma rank_of_level (h : hazard) (lv : string) (r : Z) :
  level h = lv → _LEVEL_RANK !! lv = Some r → _rank h = r.
Proof. intros <- H. unfold _rank. rewrite H. reflexivity. Qed.

(** The level stored at a rank of the scale has that rank. *)
Lemma level_order_rank (r : Z) :
  0 ≤ r ≤ 4 →
  ∃ lv, _LEVEL_ORDER !! Z.to_nat r = Some lv ∧ _LEVEL_RANK !! lv = Some r.
Proof.
  intros Hr.
  assert (r = 0 ∨ r = 1 ∨ r = 2 ∨ r = 3 ∨ r = 4) as [->|[->|[->|[->| ->]]]] by lia;
    eexists; (split; [reflexivity|rewrite level_rank_lookup; reflexivity]).
Qed.

(** [max_from] returns an element of the list, of greatest rank. *)
Lemma max_from_spec (rest : list hazard) (best : hazard) (best_i i : nat) :
  let '(m, _) := max_from best best_i i rest in
  (m = best ∨ m ∈ rest)
  ∧ _rank best ≤ _rank m
  ∧ Forall (λ h, _rank h ≤ _rank m) rest.
Proof.
  revert best best_i i. induction rest as [|y rest IH]; intros best best_i i; simpl.
  - repeat split; [left; reflexivity | lia | constructor].
  - destruct (Z.ltb_spec (_rank best) (_rank y)) as [Hlt|Hge].
    + specialize (IH y i (Datatypes.S i)).
      destruct (max_from y i (Datatypes.S i) rest) as [m mi].
      destruct IH as ([->|Hin] & Hle & Hall).
      * repeat split; [right; left | lia | constructor; [lia|exact Hall]].
      * repeat split; [right; right; exact Hin | lia | constructor; [lia|exact Hall]].
    + specialize (IH best best_i (Datatypes.S i)).
      destruct (max_from best best_i (Datatypes.S i) rest) as [m mi].
      destruct IH as ([->|Hin] & Hle & Hall).
      * repeat split; [left; reflexivity | lia | constructor; [lia|exact Hall]].
      * repeat split; [right; right; exact Hin | lia | constructor; [lia|exact Hall]].
Qed.

Lemma max_rank_bound (hs : list hazard) (m : hazard) :
  m ∈ hs → Forall (λ h, _rank h ≤ _rank m) hs → max_rank hs = _rank m.
Proof.
  intros Hin Hall. unfold max_rank.
  assert (Hle : foldr (λ h acc, Z.max (_rank h) acc) 0 hs ≤ _rank m).
  { clear Hin. induction Hall as [|h hs Hh _ IH]; simpl.
    - pose proof (rank_range m). lia.
    - simpl in Hh. lia. }
  assert (Hge : _rank m ≤ foldr (λ h acc, Z.max (_rank h) acc) 0 hs).
  { clear Hall Hle. induction Hin as [h hs|h h' hs _ IH]; simpl; lia. }
  lia.
Qed.

Lemma watch_rank_is_2 : default 0 (_LEVEL_RANK !! "watch"%string) = 2.
Proof. rewrite level_rank_lookup. reflexivity. Qed.

Lemma level_rank_inj (a b : string) (r : Z) :
  _LEVEL_RANK !! a = Some r → _LEVEL_RANK !! b = Some r → a = b.
Proof.
  rewrite !level_rank_lookup.
  repeat case_decide; subst; intros; simplify_eq; reflexivity.
Qed.

(** C2 (hazard combination).  The empty list gives "none".  For a non-empty
    list the function returns a level; with [main] a hazard of the list of
    greatest rank on the scale none<info<watch<warning<danger, that level is
    the one at rank [min 4 (rank main + bump)], where [bump] is 1 exactly
    when at least two hazards are at "watch" or above and 0 otherwise; with
    no bump it is the level of [main] itself.  Two "watch" hazards give
    "warning", and a single "warning" hazard gives "warning". *)
Theorem overall_level_rule :
  (∃ comment, _calc_overall_level_and_comment [] = Some ("none"%string, comment))
  ∧ (∀ (h0 : hazard) (rest : list hazard),
       ∃ (main : hazard) (lvl comment : string),
         _calc_overall_level_and_comment (h0 :: rest) = Some (lvl, comment)
         ∧ main ∈ h0 :: rest
         ∧ Forall (λ h, _rank h ≤ _rank main) (h0 :: rest)
         ∧ _rank main = max_rank (h0 :: rest)
         ∧ _LEVEL_ORDER !! Z.to_nat (Z.min 4 (_rank main + bump (h0 :: rest))) = Some lvl
         ∧ _LEVEL_RANK !! lvl = Some (Z.min 4 (_rank main + bump (h0 :: rest)))
         ∧ (bump (h0 :: rest) = 1 ↔ 2 ≤ watch_or_more (h0 :: rest))
         ∧ (bump (h0 :: rest) = 0 ↔ watch_or_more (h0 :: rest) < 2)
         ∧ (bump (h0 :: rest) = 0 → is_Some (_LEVEL_RANK !! level main) →
            lvl = level main))
  ∧ (∀ h1 h2 : hazard,
       level h1 = "watch"%string → level h2 = "watch"%string →
       ∃ comment,
         _calc_overall_level_and_comment [h1; h2] = Some ("warning"%string, comment))
  ∧ (∀ h : hazard,
       level h = "warning"%string →
       ∃ comment,
         _calc_overall_level_and_comment [h] = Some ("warning"%string, comment)).
Proof.
  assert (Hgen : ∀ (h0 : hazard) (rest : list hazard),
       ∃ (main : hazard) (lvl comment : string),
         _calc_overall_level_and_comment (h0 :: rest) = Some (lvl, comment)
         ∧ main ∈ h0 :: rest
         ∧ Forall (λ h, _rank h ≤ _rank main) (h0 :: rest)
         ∧ _LEVEL_ORDER !! Z.to_nat (Z.min 4 (_rank main + bump (h0 :: rest))) = Some lvl
         ∧ _LEVEL_RANK !! lvl = Some (Z.min 4 (_rank main + bump (h0 :: rest)))).
  { intros h0 rest. unfold _calc_overall_level_and_comment.
    pose proof (max_from_spec rest h0 0%nat 1%nat) as Hmax.
    destruct (max_from h0 0%nat 1%nat rest) as [main mi].
    destruct Hmax as (Hin & Hle & Hall).
    rewrite watch_rank_is_2.
    pose proof (rank_range main) as Hr.
    set (hs := h0 :: rest) in *.
    set (r := if (2 <=? Z.of_nat (length (filter (λ h, 2 ≤ _rank h) hs)))
                 && (_rank main <? Z.of_nat (length _LEVEL_ORDER) - 1)
              then _rank main + 1 else _rank main).
    assert (Hreq : r = Z.min 4 (_rank main + bump hs)).
    { unfold r, bump, watch_or_more.
      change (Z.of_nat (length _LEVEL_ORDER) - 1) with 4.
      destruct (Z.leb_spec 2 (Z.of_nat (length (filter (λ h, 2 ≤ _rank h) hs))));
        destruct (Z.ltb_spec (_rank main) 4); simpl; lia. }
    assert (Hb01 : 0 ≤ bump hs ≤ 1).
    { unfold bump. destruct (2 <=? watch_or_more hs); lia. }
    destruct (level_order_rank r) as (lv & Hlv & Hrk); [lia|].
    rewrite Hlv. simpl.
    exists main, lv. eexists. split; [reflexivity|].
    rewrite <- Hreq.
    repeat split; [| |exact Hlv|exact Hrk].
    - destruct Hin as [->|Hin]; [left|right; exact Hin].
    - constructor; [exact Hle|exact Hall]. }
  assert (Hbump : ∀ hs, (bump hs = 1 ↔ 2 ≤ watch_or_more hs)
                        ∧ (bump hs = 0 ↔ watch_or_more hs < 2)).
  { intros hs. unfold bump. destruct (Z.leb_spec 2 (watch_or_more hs)); lia. }
  split; [eexists; reflexivity|]. split; [|split].
  - intros h0 rest.
    destruct (Hgen h0 rest) as (main & lvl & comment & Hrun & Hin & Hall & Hlv & Hrk).
    exists main, lvl, comment.
    destruct (Hbump (h0 :: rest)) as [Hb1 Hb0].
    repeat split; try assumption; try apply Hb1; try apply Hb0.
    + symmetry. apply max_rank_bound; assumption.
    + intros Hz [r Hmain].
      pose proof (rank_range main) as Hr.
      assert (_rank main = r) by (unfold _rank; rewrite Hmain; reflexivity).
      apply (level_rank_inj _ _ r); [|exact Hmain].
      rewrite Hrk. f_equal. lia.
  - intros h1 h2 H1 H2.
    destruct (Hgen h1 [h2]) as (main & lvl & comment & Hrun & Hin & _ & Hlv & _).
    assert (Hr1 : _rank h1 = 2) by (apply (rank_of_level _ _ _ H1); rewrite level_rank_lookup; reflexivity).
    assert (Hr2 : _rank h2 = 2) by (apply (rank_of_level _ _ _ H2); rewrite level_rank_lookup; reflexivity).
    assert (Hm : _rank main = 2).
    { apply elem_of_cons in Hin as [->|Hin]; [exact Hr1|].
      apply list_elem_of_singleton in Hin as ->. exact Hr2. }
    assert (Hb : bump [h1; h2] = 1).
    { unfold bump, watch_or_more.
      rewrite !filter_cons_True by lia. reflexivity. }
    rewrite Hm, Hb in Hlv. simpl in Hlv. injection Hlv as <-.
    exists comment. exact Hrun.
  - intros h H.
    destruct (Hgen h []) as (main & lvl & comment & Hrun & Hin & _ & Hlv & _).
    assert (Hr : _rank h = 3) by (apply (rank_of_level _ _ _ H); rewrite level_rank_lookup; reflexivity).
    apply list_elem_of_singleton in Hin as ->.
    assert (Hb : bump [h] = 0).
    { unfold bump, watch_or_more.
      rewrite filter_cons_True by lia. reflexivity. }
    rewrite Hr, Hb in Hlv. simpl in Hlv. injection Hlv as <-.
    exists comment. exact Hrun.
Qed.

End combination.

Lemma overall_level_rule_witness :
  (∃ comment,
     views_alerts._calc_overall_level_and_comment
       [views_alerts.mk_hazard "rain" "watch" 2 "Mưa vừa, có nguy cơ ngập nhẹ" "" [];
        views_alerts.mk_hazard "strong_wind" "watch" 2 "Gió mạnh" "" []]
     = Some ("warning"%string, comment))
  ∧ (∃ comment,
       views_alerts._calc_overall_level_and_comment
         [views_alerts.mk_hazard "rain" "warning" 3 "Mưa to, nguy cơ ngập cục bộ" "" []]
       = Some ("warning"%string, comment)).
Proof.
  destruct overall_level_rule as (_ & _ & Htwo & Hone). split.
  - apply Htwo; reflexivity.
  - apply Hone; reflexivity.
Defined.

(** ** Flood risk score *)

Section risk_score.

Import views_flood Spec.

Lemma clamp_range (x lo hi : Z) : lo ≤ hi → lo ≤ _clamp x lo hi ≤ hi.
Proof. unfold _clamp. lia. Qed.

Lemma clamp_id (x lo hi : Z) : lo ≤ x ≤ hi → _clamp x lo hi = x.
Proof. unfold _clamp. lia. Qed.

(** On bands in 0..4 and a penalty in 0..2 the binary64 computation of the
    source and the exact formula agree: checked on each of the 375 inputs. *)
Lemma combined_risk_score_in_range (a b c d : Z) :
  0 ≤ a ≤ 4 → 0 ≤ b ≤ 4 → 0 ≤ c ≤ 4 → 0 ≤ d ≤ 2 →
  _combined_risk_score a b c d = Some (risk_score_formula a b c d)
  ∧ 0 ≤ risk_score_formula a b c d ≤ 4.
Proof.
  intros Ha Hb Hc Hd.
  assert (a = 0 ∨ a = 1 ∨ a = 2 ∨ a = 3 ∨ a = 4) as [->|[->|[->|[->| ->]]]] by lia;
  assert (b = 0 ∨ b = 1 ∨ b = 2 ∨ b = 3 ∨ b = 4) as [->|[->|[->|[->| ->]]]] by lia;
  assert (c = 0 ∨ c = 1 ∨ c = 2 ∨ c = 3 ∨ c = 4) as [->|[->|[->|[->| ->]]]] by lia;
  assert (d = 0 ∨ d = 1 ∨ d = 2) as [->|[->| ->]] by lia;
  vm_compute; repeat split; congruence.
Qed.

(** For all integers the score is defined: it is the formula at the clamped
    inputs, lies in 0..4 and indexes [RISK_LEVELS]. *)
Lemma combined_risk_score_defined (rain_band relief_band elev_band slope_pen : Z) :
  ∃ (score : Z) (lvl : string),
    _combined_risk_score rain_band relief_band elev_band slope_pen = Some score
    ∧ score = risk_score_formula (_clamp rain_band 0 4) (_clamp relief_band 0 4)
                (_clamp elev_band 0 4) (_clamp slope_pen 0 2)
    ∧ 0 ≤ score ≤ 4
    ∧ RISK_LEVELS !! Z.to_nat score = Some lvl.
Proof.
  pose proof (clamp_range rain_band 0 4 ltac:(lia)) as Ha.
  pose proof (clamp_range relief_band 0 4 ltac:(lia)) as Hb.
  pose proof (clamp_range elev_band 0 4 ltac:(lia)) as Hc.
  pose proof (clamp_range slope_pen 0 2 ltac:(lia)) as Hd.
  destruct (combined_risk_score_in_range _ _ _ _ Ha Hb Hc Hd) as [Hrun Hrange].
  assert (Hidem : _combined_risk_score rain_band relief_band elev_band slope_pen
                  = _combined_risk_score (_clamp rain_band 0 4) (_clamp relief_band 0 4)
                      (_clamp elev_band 0 4) (_clamp slope_pen 0 2)).
  { unfold _combined_risk_score. rewrite !(clamp_id (_clamp _ _ _)) by assumption.
    reflexivity. }
  set (score := risk_score_formula (_clamp rain_band 0 4) (_clamp relief_band 0 4)
                  (_clamp elev_band 0 4) (_clamp slope_pen 0 2)) in *.
  assert (Hlvl : ∃ lvl, RISK_LEVELS !! Z.to_nat score = Some lvl).
  { assert (score = 0 ∨ score = 1 ∨ score = 2 ∨ score = 3 ∨ score = 4)
      as [->|[->|[->|[->| ->]]]] by lia; eexists; reflexivity. }
  destruct Hlvl as [lvl Hlvl].
  exists score, lvl. rewrite Hidem.
  split; [exact Hrun|]. split; [reflexivity|]. split; [exact Hrange|exact Hlvl].
Qed.

(** C3, as the code has it.  For all integers the score is the exact
    formula [round(0.70*rain + 0.20*relief + 0.10*elev) - penalty], clamped
    to [0, 4], taken at the bands clamped to [0, 4] and the penalty clamped
    to [0, 2]; so for bands in 0..4 and a penalty in 0..2 it is the formula
    at the inputs themselves.  The score is between 0 and 4 and indexes
    [RISK_LEVELS].  Bands 2, 4, 4 with penalty 0 give raw 2.6, score 3 and
    level "HIGH". *)
Theorem combined_risk_score_formula (rain_band relief_band elev_band slope_pen : Z) :
  ∃ (score : Z) (lvl : string),
    _combined_risk_score rain_band relief_band elev_band slope_pen = Some score
    ∧ score = risk_score_formula (_clamp rain_band 0 4) (_clamp relief_band 0 4)
                (_clamp elev_band 0 4) (_clamp slope_pen 0 2)
    ∧ (0 ≤ rain_band ≤ 4 → 0 ≤ relief_band ≤ 4 → 0 ≤ elev_band ≤ 4 →
       0 ≤ slope_pen ≤ 2 →
       score = risk_score_formula rain_band relief_band elev_band slope_pen)
    ∧ 0 ≤ score ≤ 4
    ∧ RISK_LEVELS !! Z.to_nat score = Some lvl
    ∧ (0.70 * 2 + 0.20 * 4 + 0.10 * 4 == 2.6)%Q
    ∧ PrimFloat.eqb (risk_raw 2 4 4) 2.6%float = true
    ∧ _combined_risk_score 2 4 4 0 = Some 3
    ∧ RISK_LEVELS !! Z.to_nat 3 = Some "HIGH"%string.
Proof.
  destruct (combined_risk_score_defined rain_band relief_band elev_band slope_pen)
    as (score & lvl & Hrun & Hform & Hrange & Hlvl).
  exists score, lvl.
  split; [exact Hrun|]. split; [exact Hform|].
  split.
  { intros H1 H2 H3 H4. rewrite Hform, !clamp_id by assumption. reflexivity. }
  split; [exact Hrange|]. split; [exact Hlvl|].
  repeat split; vm_compute; reflexivity.
Qed.

(** C3 as stated fails outside the band ranges: the inputs are clamped
    before the weighted sum, so a rain band of 10 counts as 4. *)
Lemma combined_risk_score_clamps_inputs_first :
  _combined_risk_score 10 0 0 2 = Some 1
  ∧ risk_score_formula 10 0 0 2 = 4.
Proof. split; vm_compute; reflexivity. Qed.

End risk_score.

Lemma combined_risk_score_formula_witness :
  ∃ score : Z,
    views_flood._combined_risk_score 2 4 4 0 = Some score
    ∧ score = Spec.risk_score_formula 2 4 4 0.
Proof.
  destruct (combined_risk_score_formula 2 4 4 0) as (score & lvl & Hrun & _ & Hin & _).
  exists score. split; [exact Hrun | apply Hin; lia].
Defined.

(** ** Effective rainfall *)

Section effective_rain.

Import views_flood Spec.
Local Open Scope Q_scope.

Lemma given_read (x : Py.arg) :
  Py.max 0 (_safe_float x 0) == given x ∧ 0 <= given x.
Proof.
  unfold given. rewrite py_max_Qmax.
  destruct x; simpl; split; try reflexivity; apply Q.le_max_l.
Qed.

(** The three effective amounts in terms of the clamped readings. *)
Lemma effective_rain_unfold (x1 x3 x6 : Py.arg) :
  _effective_rain_1h x1 == given x1
  ∧ _effective_rain_3h x1 x3 == given x1 + 0.6 * Qmax 0 (given x3 - given x1)
  ∧ _effective_rain_6h x1 x3 x6
    == given x1 + 0.6 * Qmax 0 (given x3 - given x1)
       + 0.4 * Qmax 0 (given x6 - given x3).
Proof.
  destruct (given_read x1) as [E1 P1].
  destruct (given_read x3) as [E3 P3].
  destruct (given_read x6) as [E6 P6].
  unfold _effective_rain_1h, _effective_rain_3h, _effective_rain_6h.
  set (r1 := Py.max 0 (_safe_float x1 0)) in *.
  set (r3 := Py.max 0 (_safe_float x3 0)) in *.
  set (r6 := Py.max 0 (_safe_float x6 0)) in *.
  clearbody r1 r3 r6.
  set (g1 := given x1) in *. set (g3 := given x3) in *. set (g6 := given x6) in *.
  clearbody g1 g3 g6.
  destruct (Q.max_spec 0 (g3 - g1)) as [[? Ea]|[? Ea]];
    destruct (Q.max_spec 0 (g6 - g3)) as [[? Eb]|[? Eb]];
    set (ma := Qmax 0 (g3 - g1)) in *; set (mb := Qmax 0 (g6 - g3)) in *;
    clearbody ma mb;
    (split; [exact E1|split]); py_max_cases; lra.
Qed.

(** C4 (effective rainfall).  With every reading taken as [given] (absent
    is 0, negative is 0): [eff_1h = rain_1h],
    [eff_3h = rain_1h + 0.6 * max(0, rain_3h - rain_1h)] and
    [eff_6h = rain_1h + 0.6 * max(0, rain_3h - rain_1h)
              + 0.4 * max(0, rain_6h - rain_3h)].
    Readings 2, 8, 10 give [eff_6h = 6.4], and the rain band of 6.4 is 2. *)
Theorem effective_rain_decay (x1 x3 x6 : Py.arg) :
  given Py.ANone == 0
  ∧ given (Py.ANum (- 3)) == 0
  ∧ given (Py.ANum 2) == 2
  ∧ _effective_rain_1h x1 == given x1
  ∧ _effective_rain_3h x1 x3 == given x1 + 0.6 * Qmax 0 (given x3 - given x1)
  ∧ _effective_rain_6h x1 x3 x6
    == given x1 + 0.6 * Qmax 0 (given x3 - given x1)
       + 0.4 * Qmax 0 (given x6 - given x3)
  ∧ _effective_rain_6h (Py.ANum 2) (Py.ANum 8) (Py.ANum 10) == 6.4
  ∧ _rain_band_from_eff6 (Py.ANum 6.4) = 2%Z
  ∧ _rain_band_from_eff6
      (Py.ANum (_effective_rain_6h (Py.ANum 2) (Py.ANum 8) (Py.ANum 10))) = 2%Z.
Proof.
  destruct (effective_rain_unfold x1 x3 x6) as (H1 & H3 & H6).
  repeat split; try assumption; vm_compute; reflexivity.
Qed.

(** On binary64 the same readings give the float next below 6.4, in the
    same band. *)
Remark effective_rain_6h_binary64 :
  binary64._effective_rain_6h 2 8 10 = 6.3999999999999995%float
  ∧ PrimFloat.ltb (binary64._effective_rain_6h 2 8 10) 6.4 = true
  ∧ binary64._rain_band_from_eff6 (binary64._effective_rain_6h 2 8 10) = 2%Z
  ∧ binary64._rain_band_from_eff6 6.4 = 2%Z.
Proof. repeat split; vm_compute; reflexivity. Qed.

End effective_rain.

(** ** Hazards on the scale *)

Section hazard_scale.

Import views_alerts.

Lemma make_hazard_on_scale (t lv : string) (s : Z) (hl d : string) (a : list string) :
  is_Some (_LEVEL_RANK !! lv) →
  _make_hazard t lv s hl d a = mk_hazard t lv s hl d a.
Proof.
  intros H. unfold _make_hazard. rewrite bool_decide_eq_true_2 by exact H.
  reflexivity.
Qed.

Lemma scale_levels :
  is_Some (_LEVEL_RANK !! "info"%string) ∧ is_Some (_LEVEL_RANK !! "watch"%string)
  ∧ is_Some (_LEVEL_RANK !! "warning"%string) ∧ is_Some (_LEVEL_RANK !! "danger"%string).
Proof. rewrite !level_rank_lookup. repeat split; eexists; reflexivity. Qed.

End hazard_scale.

(** ** The order of binary64 *)

Section float_order.

Import Spec.

(** [SFcompare], the comparison the kernel's [<?] and [<=?] are specified
    by, is antisymmetric and transitive, and equal values compare alike. *)
Lemma SFcompare_antisym (x y : spec_float) :
  SFcompare y x = CompOpp <$> SFcompare x y.
Proof.
  destruct x as [[]|[]| |[] mx ex], y as [[]|[]| |[] my ey]; simpl; try reflexivity;
    rewrite (Z.compare_antisym ex ey);
    destruct (ex ?= ey); simpl; try reflexivity;
    change (Pos.compare_cont Eq my mx) with (Pos.compare my mx);
    change (Pos.compare_cont Eq mx my) with (Pos.compare mx my);
    rewrite (Pos.compare_antisym mx my); destruct (mx ?= my)%positive; reflexivity.
Qed.

Lemma SFcompare_eq_l (x y z : spec_float) :
  SFcompare x y = Some Eq → SFcompare x z = SFcompare y z.
Proof.
  destruct x as [[]|[]| |[] mx ex], y as [[]|[]| |[] my ey]; simpl; try discriminate;
    try (intros _; destruct z as [[]|[]| |[] mz ez]; reflexivity);
    destruct (Z.compare_spec ex ey) as [->| |]; try discriminate;
    change (Pos.compare_cont Eq mx my) with (Pos.compare mx my);
    destruct (Pos.compare_spec mx my) as [->| |]; try discriminate; reflexivity.
Qed.

Lemma SFcompare_eq_r (x y z : spec_float) :
  SFcompare y z = Some Eq → SFcompare x y = SFcompare x z.
Proof.
  intros H. rewrite (SFcompare_antisym y x), (SFcompare_antisym z x).
  rewrite (SFcompare_eq_l y z x H). reflexivity.
Qed.

Lemma SFcompare_lt_trans (x y z : spec_float) :
  SFcompare x y = Some Lt → SFcompare y z = Some Lt → SFcompare x z = Some Lt.
Proof.
  destruct x as [[]|[]| |[] mx ex], y as [[]|[]| |[] my ey], z as [[]|[]| |[] mz ez];
    simpl; try discriminate; try reflexivity;
    change (Pos.compare_cont Eq mx my) with (Pos.compare mx my);
    change (Pos.compare_cont Eq my mz) with (Pos.compare my mz);
    change (Pos.compare_cont Eq mx mz) with (Pos.compare mx mz);
    destruct (Z.compare_spec ex ey), (Z.compare_spec ey ez), (Z.compare_spec ex ez);
    simpl; try discriminate; try reflexivity; try lia;
    destruct (Pos.compare_spec mx my), (Pos.compare_spec my mz), (Pos.compare_spec mx mz);
    simpl; try discriminate; try reflexivity; try lia.
Qed.

Lemma flt_compare (x y : float) :
  flt x y ↔ SFcompare (Prim2SF x) (Prim2SF y) = Some Lt.
Proof.
  unfold flt. rewrite FloatAxioms.ltb_spec. unfold SFltb.
  destruct (SFcompare (Prim2SF x) (Prim2SF y)) as [[]|]; split; congruence.
Qed.

Lemma fle_compare (x y : float) :
  fle x y ↔ SFcompare (Prim2SF x) (Prim2SF y) = Some Lt
            ∨ SFcompare (Prim2SF x) (Prim2SF y) = Some Eq.
Proof.
  unfold fle. rewrite FloatAxioms.leb_spec. unfold SFleb.
  destruct (SFcompare (Prim2SF x) (Prim2SF y)) as [[]|]; split;
    try congruence; try tauto; intros [H|H]; congruence.
Qed.

Lemma flt_fle (x y : float) : flt x y → fle x y.
Proof. rewrite flt_compare, fle_compare. tauto. Qed.

(** [x <= y] excludes [y < x], and [x < y] excludes [y <= x]. *)
Lemma fle_not_flt (x y : float) : fle x y → PrimFloat.ltb y x = false.
Proof.
  rewrite fle_compare, FloatAxioms.ltb_spec. unfold SFltb.
  rewrite (SFcompare_antisym (Prim2SF x) (Prim2SF y)).
  intros [-> | ->]; reflexivity.
Qed.

Lemma flt_not_fle (x y : float) : flt x y → PrimFloat.leb y x = false.
Proof.
  rewrite flt_compare, FloatAxioms.leb_spec. unfold SFleb.
  rewrite (SFcompare_antisym (Prim2SF x) (Prim2SF y)).
  intros ->. reflexivity.
Qed.

Lemma flt_trans (x y z : float) : flt x y → flt y z → flt x z.
Proof. rewrite !flt_compare. apply SFcompare_lt_trans. Qed.

Lemma fle_flt_trans (x y z : float) : fle x y → flt y z → flt x z.
Proof.
  rewrite fle_compare, !flt_compare. intros [H|H] Hyz.
  - exact (SFcompare_lt_trans _ _ _ H Hyz).
  - rewrite (SFcompare_eq_l _ _ _ H). exact Hyz.
Qed.

Lemma flt_fle_trans (x y z : float) : flt x y → fle y z → flt x z.
Proof.
  rewrite fle_compare, !flt_compare. intros Hxy [H|H].
  - exact (SFcompare_lt_trans _ _ _ Hxy H).
  - rewrite <- (SFcompare_eq_r _ _ _ H). exact Hxy.
Qed.

Lemma fle_trans (x y z : float) : fle x y → fle y z → fle x z.
Proof.
  intros Hxy Hyz. destruct (proj1 (fle_compare y z) Hyz) as [H|H].
  - apply flt_fle. apply (fle_flt_trans x y z Hxy). apply flt_compare. exact H.
  - apply fle_compare. rewrite <- (SFcompare_eq_r _ _ _ H).
    apply fle_compare. exact Hxy.
Qed.

(** Two values that are not NaN are comparable. *)
Lemma flt_or_fle (x y : float) :
  PrimFloat.is_nan x = false → PrimFloat.is_nan y = false → flt x y ∨ fle y x.
Proof.
  unfold PrimFloat.is_nan. rewrite !Bool.negb_false_iff, !FloatAxioms.eqb_spec.
  unfold flt, fle. rewrite FloatAxioms.ltb_spec, FloatAxioms.leb_spec. unfold SFeqb, SFltb, SFleb.
  rewrite (SFcompare_antisym (Prim2SF x) (Prim2SF y)).
  destruct (Prim2SF x) as [[]|[]| |[] mx ex], (Prim2SF y) as [[]|[]| |[] my ey];
    simpl; try discriminate; intros _ _; try (left; reflexivity); try (right; reflexivity);
    destruct (ex ?= ey); simpl; try (left; reflexivity); try (right; reflexivity);
    destruct (Pos.compare_cont Eq mx my); simpl;
    try (left; reflexivity); try (right; reflexivity).
Qed.

(** What is compared successfully is not a NaN. *)
Lemma fle_number (x y : float) :
  fle x y → PrimFloat.is_nan x = false ∧ PrimFloat.is_nan y = false.
Proof.
  unfold fle, PrimFloat.is_nan. rewrite !Bool.negb_false_iff, !FloatAxioms.eqb_spec.
  rewrite FloatAxioms.leb_spec. unfold SFeqb, SFleb.
  destruct (Prim2SF x) as [[]|[]| |[] mx ex], (Prim2SF y) as [[]|[]| |[] my ey];
    simpl; try discriminate; intros _;
    rewrite ?Z.compare_refl, ?Pos.compare_cont_refl; split; reflexivity.
Qed.

Lemma not_flt_fle (x y : float) :
  PrimFloat.is_nan x = false → PrimFloat.is_nan y = false →
  PrimFloat.ltb x y = false → fle y x.
Proof.
  intros Hx Hy H. destruct (flt_or_fle x y Hx Hy) as [H'|H']; [|exact H'].
  unfold flt in H'. congruence.
Qed.

(** Every comparison with a NaN is false. *)
Lemma nan_compares_false (x y : float) :
  PrimFloat.is_nan x = true →
  PrimFloat.ltb x y = false ∧ PrimFloat.leb x y = false
  ∧ PrimFloat.ltb y x = false ∧ PrimFloat.leb y x = false.
Proof.
  unfold PrimFloat.is_nan. rewrite Bool.negb_true_iff, FloatAxioms.eqb_spec.
  rewrite !FloatAxioms.ltb_spec, !FloatAxioms.leb_spec. unfold SFeqb, SFltb, SFleb.
  destruct (Prim2SF x) as [[]|[]| |[] mx ex]; simpl; try discriminate.
  - intros _. destruct (Prim2SF y) as [[]|[]| |[] my ey]; repeat split; reflexivity.
  - rewrite Z.compare_refl, Pos.compare_cont_refl. discriminate.
  - rewrite Z.compare_refl, Pos.compare_cont_refl. discriminate.
Qed.

End float_order.

(** Closes a goal [ltb x c = false] or [leb x c = false] from bounds on [x]
    among the hypotheses, comparing the constants by computation. *)
Ltac float_tier :=
  match goal with
  | |- PrimFloat.ltb ?x ?c = false =>
      let E := fresh "E" in
      destruct (PrimFloat.ltb x c) eqn:E; [exfalso|reflexivity];
      match goal with
      | H : Spec.fle ?c' x |- _ =>
          pose proof (fle_flt_trans c' x c H E) as E'; vm_compute in E'; discriminate E'
      | H : Spec.flt ?c' x |- _ =>
          pose proof (flt_trans c' x c H E) as E'; vm_compute in E'; discriminate E'
      end
  | |- PrimFloat.leb ?x ?c = false =>
      let E := fresh "E" in
      destruct (PrimFloat.leb x c) eqn:E; [exfalso|reflexivity];
      match goal with
      | H : Spec.flt ?c' x |- _ =>
          pose proof (flt_fle_trans c' x c H E) as E'; vm_compute in E'; discriminate E'
      end
  end.

(** ** Rain hazard *)

Section rain_hazard.

Import views_alerts Spec.

Variable fmt1 : float → string.

(** At 0.5 or more the light-rain test fails. *)
Lemma not_light (eff : float) (precip_now : binary64.arg) :
  PrimFloat.ltb eff 0.5 = false →
  match precip_now with
  | binary64.ANum p => PrimFloat.leb 0.1 p && PrimFloat.ltb eff 0.5
  | _ => false
  end = false.
Proof.
  intros H. destruct precip_now; try reflexivity.
  rewrite H. apply andb_false_r.
Qed.

(** C5 (rain hazard).  [eff] is the sum [r1 + 0.6*extra_3h + 0.4*extra_6h]
    as the code computes it in binary64 from the three sums (an absent sum
    is 0).  Below 0.5 there is no hazard, unless the current-hour
    precipitation is a number of at least 0.1, and then the hazard is the
    info-level "Mưa nhẹ" (light rain); from 0.5 to below 5 the hazard is
    info, from 5 to below 15 watch, from 15 to below 30 warning, and from 30
    on danger. *)
Theorem rain_hazard_tiers (rain_1h rain_3h rain_6h : option float)
    (precip_now : binary64.arg) :
  let r1 := binary64.float_or_zero rain_1h in
  let r3 := binary64.float_or_zero rain_3h in
  let r6 := binary64.float_or_zero rain_6h in
  let eff := binary64.rain_eff rain_1h rain_3h rain_6h in
  let hz := binary64._build_rain_hazard fmt1 rain_1h rain_3h rain_6h precip_now in
  eff = (r1 + 0.6 * binary64.max 0 (r3 - r1) + 0.4 * binary64.max 0 (r6 - r3))%float
  ∧ (flt eff 0.5 → (∃ p, precip_now = binary64.ANum p ∧ fle 0.1 p) →
       is_hazard hz "rain" "info" 1
       ∧ headline <$> hz = Some "Mưa nhẹ"%string)
  ∧ (flt eff 0.5 → ¬ (∃ p, precip_now = binary64.ANum p ∧ fle 0.1 p) → hz = None)
  ∧ (fle 0.5 eff → flt eff 5 → is_hazard hz "rain" "info" 1)
  ∧ (fle 5 eff → flt eff 15 → is_hazard hz "rain" "watch" 2)
  ∧ (fle 15 eff → flt eff 30 → is_hazard hz "rain" "warning" 3)
  ∧ (fle 30 eff → is_hazard hz "rain" "danger" 4).
Proof.
  intros r1 r3 r6 eff hz. subst r1 r3 r6 hz.
  split; [reflexivity|].
  unfold binary64._build_rain_hazard.
  fold eff. clearbody eff.
  destruct scale_levels as (Hi & Hw & Hwa & Hd).
  unfold is_hazard.
  split; [|split; [|split; [|split; [|split]]]].
  - intros Hlt (p & -> & Hp). unfold flt, fle in *. rewrite Hp, Hlt. simpl.
    rewrite make_hazard_on_scale by exact Hi.
    split; [eexists; repeat split|reflexivity].
  - intros Hlt Hno.
    assert (Hlight : match precip_now with
                     | binary64.ANum p => PrimFloat.leb 0.1 p && PrimFloat.ltb eff 0.5
                     | _ => false
                     end = false).
    { destruct precip_now as [|p|]; try reflexivity.
      destruct (PrimFloat.leb 0.1 p) eqn:Hp; [|reflexivity].
      exfalso. apply Hno. exists p. split; [reflexivity|exact Hp]. }
    rewrite Hlight, Hlt. reflexivity.
  - intros H1 H2.
    assert (E1 : PrimFloat.ltb eff 0.5 = false) by float_tier.
    rewrite (not_light _ _ E1), E1, H2.
    rewrite make_hazard_on_scale by exact Hi. eexists; repeat split.
  - intros H1 H2.
    assert (E1 : PrimFloat.ltb eff 0.5 = false) by float_tier.
    assert (E2 : PrimFloat.ltb eff 5 = false) by float_tier.
    rewrite (not_light _ _ E1), E1, E2, H2.
    rewrite make_hazard_on_scale by exact Hw. eexists; repeat split.
  - intros H1 H2.
    assert (E1 : PrimFloat.ltb eff 0.5 = false) by float_tier.
    assert (E2 : PrimFloat.ltb eff 5 = false) by float_tier.
    assert (E3 : PrimFloat.ltb eff 15 = false) by float_tier.
    rewrite (not_light _ _ E1), E1, E2, E3, H2.
    rewrite make_hazard_on_scale by exact Hwa. eexists; repeat split.
  - intros H1.
    assert (E1 : PrimFloat.ltb eff 0.5 = false) by float_tier.
    assert (E2 : PrimFloat.ltb eff 5 = false) by float_tier.
    assert (E3 : PrimFloat.ltb eff 15 = false) by float_tier.
    assert (E4 : PrimFloat.ltb eff 30 = false) by float_tier.
    rewrite (not_light _ _ E1), E1, E2, E3, E4.
    rewrite make_hazard_on_scale by exact Hd. eexists; repeat split.
Qed.

End rain_hazard.

Lemma rain_hazard_tiers_witness :
  Spec.is_hazard
    (binary64._build_rain_hazard (λ _, "6.4"%string)
       (Some 2%float) (Some 8%float) (Some 10%float) binary64.ANone)
    "rain" "watch" 2.
Proof.
  destruct (rain_hazard_tiers (λ _, "6.4"%string) (Some 2%float) (Some 8%float)
              (Some 10%float) binary64.ANone)
    as (_ & _ & _ & _ & Hwatch & _).
  apply Hwatch; vm_compute; reflexivity.
Defined.

(** The tiers cover every sum that is a number, and a sum that is not
    falls through every test to the last tier. *)
Lemma rain_tiers_cover (eff : float) :
  PrimFloat.is_nan eff = true
  ∨ Spec.flt eff 0.5
  ∨ (Spec.fle 0.5 eff ∧ Spec.flt eff 5)
  ∨ (Spec.fle 5 eff ∧ Spec.flt eff 15)
  ∨ (Spec.fle 15 eff ∧ Spec.flt eff 30)
  ∨ Spec.fle 30 eff.
Proof.
  destruct (PrimFloat.is_nan eff) eqn:En; [left; reflexivity|right].
  destruct (flt_or_fle eff 0.5 En eq_refl) as [H|H1]; [left; exact H|right].
  destruct (flt_or_fle eff 5 En eq_refl) as [H|H2]; [left; split; assumption|right].
  destruct (flt_or_fle eff 15 En eq_refl) as [H|H3]; [left; split; assumption|right].
  destruct (flt_or_fle eff 30 En eq_refl) as [H|H4]; [left; split; assumption|right].
  exact H4.
Qed.

Lemma rain_hazard_of_nan (fmt1 : float → string) (rain_1h rain_3h rain_6h : option float)
    (precip_now : binary64.arg) :
  PrimFloat.is_nan (binary64.rain_eff rain_1h rain_3h rain_6h) = true →
  Spec.is_hazard (binary64._build_rain_hazard fmt1 rain_1h rain_3h rain_6h precip_now)
    "rain" "danger" 4.
Proof.
  intros Hn. unfold binary64._build_rain_hazard.
  set (eff := binary64.rain_eff rain_1h rain_3h rain_6h) in *. clearbody eff.
  destruct (nan_compares_false eff 0.5 Hn) as (E1 & _).
  destruct (nan_compares_false eff 5 Hn) as (E2 & _).
  destruct (nan_compares_false eff 15 Hn) as (E3 & _).
  destruct (nan_compares_false eff 30 Hn) as (E4 & _).
  rewrite (not_light _ _ E1), E1, E2, E3, E4.
  destruct scale_levels as (_ & _ & _ & Hd).
  rewrite make_hazard_on_scale by exact Hd. unfold Spec.is_hazard.
  eexists; repeat split.
Qed.

(** Where the exact sum is a threshold the rounded one may fall below it:
    for the sums 1.5, 6 and 8 the exact value of the formula is 5, the code
    computes 4.9999999999999991 and the hazard is info. *)
Lemma rain_eff_rounds_below_five :
  (Spec.rain_eff_formula (Some 1.5) (Some 6) (Some 8) == 5)%Q
  ∧ Spec.exactly 1.5 1.5 ∧ Spec.exactly 6 6 ∧ Spec.exactly 8 8
  ∧ binary64.rain_eff (Some 1.5%float) (Some 6%float) (Some 8%float)
    = 4.9999999999999991%float
  ∧ Spec.is_hazard
      (binary64._build_rain_hazard (λ _, "5.0"%string)
         (Some 1.5%float) (Some 6%float) (Some 8%float) binary64.ANone)
      "rain" "info" 1.
Proof.
  split; [vm_compute; reflexivity|].
  do 3 (split; [eexists; split; [vm_compute; reflexivity|vm_compute; reflexivity]|]).
  split; [vm_compute; reflexivity|].
  eexists. split; [vm_compute; reflexivity|]. repeat split.
Qed.

(** ** Heat and cold hazard *)

Section heat_cold.

Import views_alerts Spec.

Variable pow016 : float → float.
Variable pow2 : float → Py.result float.
Variable fmt1 : float → string.

Lemma windchill_cases (T : float) (wind_ms : option float) :
  (∀ w, wind_ms = Some w → fle T 10 → fle 5 (w * 3.6) →
     binary64._compute_windchill pow016 (Some T) wind_ms
     = Some (13.12 + 0.6215 * T - 11.37 * pow016 (w * 3.6)
             + 0.3965 * T * pow016 (w * 3.6))%float)
  ∧ (wind_ms = None ∨ flt 10 T ∨ (∃ w, wind_ms = Some w ∧ flt (w * 3.6) 5) →
     binary64._compute_windchill pow016 (Some T) wind_ms = None).
Proof.
  unfold binary64._compute_windchill. split.
  - intros w -> H1 H2.
    rewrite (fle_not_flt _ _ H1), (fle_not_flt _ _ H2). reflexivity.
  - intros [->|[H|(w & -> & H)]]; [reflexivity| |].
    + destruct wind_ms; [|reflexivity]. unfold flt in H. rewrite H. reflexivity.
    + unfold flt in H. rewrite H, orb_true_r. reflexivity.
Qed.

(** The clamped humidity of a humidity below 40 is below 40. *)
Lemma clamped_humidity_below (rh : float) :
  flt rh 40 → flt (binary64.max 0 (binary64.min 100 rh)) 40.
Proof.
  intros H. unfold binary64.max, binary64.min.
  assert (H100 : PrimFloat.ltb rh 100 = true).
  { apply (flt_trans rh 40 100 H). vm_compute. reflexivity. }
  rewrite H100. destruct (PrimFloat.ltb 0 rh); [exact H|vm_compute; reflexivity].
Qed.

Lemma heat_index_cases (T : float) (rel_humidity : option float) :
  (∀ rh, rel_humidity = Some rh → fle 27 T →
     fle 40 (binary64.max 0 (binary64.min 100 rh)) →
     binary64._compute_heat_index pow2 (Some T) rel_humidity
     = (let RH := binary64.max 0 (binary64.min 100 rh) in
        T2 ← pow2 T;
        RH2 ← pow2 RH;
        mret (Some (- 8.784695 + 1.61139411 * T + 2.338549 * RH
                    - 0.14611605 * T * RH - 0.012308094 * T2
                    - 0.016424828 * RH2 + 0.002211732 * T2 * RH
                    + 0.00072546 * T * RH2 - 0.000003582 * T2 * RH2)%float)))
  ∧ (flt T 27 ∨ rel_humidity = None
     ∨ (∃ rh, rel_humidity = Some rh ∧ flt (binary64.max 0 (binary64.min 100 rh)) 40) →
     binary64._compute_heat_index pow2 (Some T) rel_humidity = inr (Some T)).
Proof.
  unfold binary64._compute_heat_index. split.
  - intros rh -> H1 H2.
    rewrite (fle_not_flt _ _ H1), (fle_not_flt _ _ H2). reflexivity.
  - intros [H|[->|(rh & -> & H)]]; [|reflexivity|].
    + destruct rel_humidity; [|reflexivity]. unfold flt in H. rewrite H. reflexivity.
    + unfold flt in H. rewrite H, orb_true_r. reflexivity.
Qed.

Lemma cold_tiers (T : float) (wind_ms cloudcover rel_humidity : option float) :
  let ec := default T (binary64._compute_windchill pow016 (Some T) wind_ms) in
  let hz := binary64._build_heat_cold_hazard pow016 pow2 fmt1 (Some T) wind_ms
              cloudcover rel_humidity in
  (fle ec 5 → returns_hazard hz "cold" "warning" 3)
  ∧ (flt 5 ec → fle ec 10 → returns_hazard hz "cold" "watch" 2)
  ∧ (flt 10 ec → fle ec 15 → returns_hazard hz "cold" "info" 1).
Proof.
  intros ec hz. subst hz. unfold binary64._build_heat_cold_hazard.
  fold ec. clearbody ec.
  destruct scale_levels as (Hi & Hw & Hwa & Hd). unfold returns_hazard, is_hazard.
  split; [|split].
  - intros H.
    assert (E : PrimFloat.leb ec 15 = true).
    { apply (fle_trans ec 5 15 H). vm_compute. reflexivity. }
    unfold fle in H. rewrite E, H.
    rewrite make_hazard_on_scale by assumption.
    eexists. split; [reflexivity|]. eexists; repeat split.
  - intros H1 H2.
    assert (E : PrimFloat.leb ec 15 = true).
    { apply (fle_trans ec 10 15 H2). vm_compute. reflexivity. }
    rewrite E, (flt_not_fle _ _ H1). unfold fle in H2. rewrite H2.
    rewrite make_hazard_on_scale by assumption.
    eexists. split; [reflexivity|]. eexists; repeat split.
  - intros H1 H2.
    assert (E : PrimFloat.leb ec 5 = false) by float_tier.
    unfold fle in H2. rewrite H2, E, (flt_not_fle _ _ H1).
    rewrite make_hazard_on_scale by assumption.
    eexists. split; [reflexivity|]. eexists; repeat split.
Qed.

Lemma heat_tiers (T eh : float) (wind_ms cloudcover rel_humidity : option float) :
  let ec := default T (binary64._compute_windchill pow016 (Some T) wind_ms) in
  let hz := binary64._build_heat_cold_hazard pow016 pow2 fmt1 (Some T) wind_ms
              cloudcover rel_humidity in
  flt 15 ec → PrimFloat.ltb T 32 = false →
  binary64._compute_heat_index pow2 (Some T) rel_humidity = inr (Some eh) →
  (flt eh 32 → hz = inr None)
  ∧ (fle 32 eh → flt eh 41 → returns_hazard hz "heat" "info" 1)
  ∧ (fle 41 eh → flt eh 54 → returns_hazard hz "heat" "watch" 2)
  ∧ (fle 54 eh → returns_hazard hz "heat" "warning" 3).
Proof.
  intros ec hz Hec HT HHI. subst hz. unfold binary64._build_heat_cold_hazard.
  fold ec. rewrite (flt_not_fle _ _ Hec), HT, HHI. clearbody ec.
  unfold mbind, Py.result_bind; cbn [from_option id].
  destruct scale_levels as (Hi & Hw & Hwa & Hd). unfold returns_hazard, is_hazard.
  split; [|split; [|split]].
  - intros H. unfold flt in H. rewrite H. reflexivity.
  - intros H1 H2. rewrite (fle_not_flt _ _ H1). unfold flt in H2. rewrite H2.
    rewrite make_hazard_on_scale by assumption.
    eexists. split; [reflexivity|]. eexists; repeat split.
  - intros H1 H2.
    assert (E : PrimFloat.ltb eh 32 = false) by float_tier.
    rewrite E, (fle_not_flt _ _ H1). unfold flt in H2. rewrite H2.
    rewrite make_hazard_on_scale by assumption.
    eexists. split; [reflexivity|]. eexists; repeat split.
  - intros H1.
    assert (E1 : PrimFloat.ltb eh 32 = false) by float_tier.
    assert (E2 : PrimFloat.ltb eh 41 = false) by float_tier.
    rewrite E1, E2, (fle_not_flt _ _ H1).
    rewrite make_hazard_on_scale by assumption.
    eexists. split; [reflexivity|]. eexists; repeat split.
Qed.

(** From 32 degrees on no wind chill is computed and the cold branch is
    not taken. *)
Lemma hot_is_not_cold (T : float) (wind_ms : option float) :
  fle 32 T →
  binary64._compute_windchill pow016 (Some T) wind_ms = None
  ∧ flt 15 T ∧ PrimFloat.ltb T 32 = false.
Proof.
  intros H.
  assert (H10 : flt 10 T).
  { apply (flt_fle_trans 10 32 T); [vm_compute; reflexivity|exact H]. }
  split; [|split].
  - unfold binary64._compute_windchill. destruct wind_ms; [|reflexivity].
    unfold flt in H10. rewrite H10. reflexivity.
  - apply (flt_fle_trans 15 32 T); [vm_compute; reflexivity|exact H].
  - apply fle_not_flt. exact H.
Qed.

(** C6 (heat and cold).  All comparisons are those of the code, on the
    binary64 values it computes.  For a temperature [T] that is not [None]:
    the wind chill is computed when [T <= 10] and the wind speed in km/h,
    the product [wind_ms * 3.6], is at least 5, and not when [T > 10], the
    product is below 5 or there is no wind speed; the effective cold metric
    [ec] is the wind chill, else [T].  Cold is decided first: [ec <= 5]
    gives a cold warning, [ec <= 10] a cold watch, [ec <= 15] a cold info
    hazard.  Otherwise there is no hazard below 32 degrees; from 32 degrees
    on no wind chill is computed, the cold branch is not taken, and the
    heat index decides: it is the polynomial when [T >= 27] and the
    humidity, clamped to [0, 100], is at least 40, else [T]; an index below
    32 gives no hazard, from 32 to below 41 a heat info hazard, below 54 a
    heat watch, from 54 on a heat warning, and with the index at [T] a heat
    hazard is always returned.  At 38 degrees and 70% (the two squares
    being 1444 and 4900) the index exceeds 32 and a heat warning is
    returned; at 38 degrees and a humidity below 40% the index is 38 and
    the hazard is info.  The answer is an exception of the square, no
    hazard, one cold hazard or one heat hazard. *)
Theorem heat_cold_hazard_rule (T : float) (wind_ms cloudcover rel_humidity : option float) :
  let windchill := binary64._compute_windchill pow016 (Some T) wind_ms in
  let ec := default T windchill in
  let HI := binary64._compute_heat_index pow2 (Some T) rel_humidity in
  let build := binary64._build_heat_cold_hazard pow016 pow2 fmt1 in
  let hz := build (Some T) wind_ms cloudcover rel_humidity in
  (∀ w, wind_ms = Some w → fle T 10 → fle 5 (w * 3.6) →
     windchill = Some (13.12 + 0.6215 * T - 11.37 * pow016 (w * 3.6)
                       + 0.3965 * T * pow016 (w * 3.6))%float)
  ∧ (wind_ms = None ∨ flt 10 T ∨ (∃ w, wind_ms = Some w ∧ flt (w * 3.6) 5) →
     windchill = None ∧ ec = T)
  ∧ (fle ec 5 → returns_hazard hz "cold" "warning" 3)
  ∧ (flt 5 ec → fle ec 10 → returns_hazard hz "cold" "watch" 2)
  ∧ (flt 10 ec → fle ec 15 → returns_hazard hz "cold" "info" 1)
  ∧ (flt 15 ec → flt T 32 → hz = inr None)
  ∧ (fle 32 T →
     windchill = None ∧ ec = T ∧ flt 15 ec
     ∧ (∀ e, HI = inl e → hz = inl e)
     ∧ (∀ eh, HI = inr (Some eh) →
          (flt eh 32 → hz = inr None)
          ∧ (fle 32 eh → flt eh 41 → returns_hazard hz "heat" "info" 1)
          ∧ (fle 41 eh → flt eh 54 → returns_hazard hz "heat" "watch" 2)
          ∧ (fle 54 eh → returns_hazard hz "heat" "warning" 3))
     ∧ (HI = inr (Some T) →
          ∃ h, hz = inr (Some h) ∧ h_type h = "heat"%string))
  ∧ (∀ rh, rel_humidity = Some rh → fle 27 T →
       fle 40 (binary64.max 0 (binary64.min 100 rh)) →
       HI = (let RH := binary64.max 0 (binary64.min 100 rh) in
             T2 ← pow2 T;
             RH2 ← pow2 RH;
             mret (Some (- 8.784695 + 1.61139411 * T + 2.338549 * RH
                         - 0.14611605 * T * RH - 0.012308094 * T2
                         - 0.016424828 * RH2 + 0.002211732 * T2 * RH
                         + 0.00072546 * T * RH2 - 0.000003582 * T2 * RH2)%float)))
  ∧ (flt T 27 ∨ rel_humidity = None
     ∨ (∃ rh, rel_humidity = Some rh ∧ flt (binary64.max 0 (binary64.min 100 rh)) 40) →
     HI = inr (Some T))
  ∧ (pow2 38 = inr 1444%float → pow2 70 = inr 4900%float →
     ∃ eh, binary64._compute_heat_index pow2 (Some 38%float) (Some 70%float)
           = inr (Some eh)
           ∧ flt 32 eh
           ∧ returns_hazard (build (Some 38%float) wind_ms cloudcover (Some 70%float))
               "heat" "warning" 3)
  ∧ (∀ rh, flt rh 40 →
       binary64._compute_heat_index pow2 (Some 38%float) (Some rh) = inr (Some 38%float)
       ∧ returns_hazard (build (Some 38%float) wind_ms cloudcover (Some rh))
           "heat" "info" 1)
  ∧ ((∃ e, hz = inl e ∧ HI = inl e)
     ∨ hz = inr None
     ∨ (PrimFloat.leb ec 15 = true ∧ ∃ h, hz = inr (Some h) ∧ h_type h = "cold"%string)
     ∨ (PrimFloat.leb ec 15 = false ∧ PrimFloat.ltb T 32 = false
        ∧ ∃ h, hz = inr (Some h) ∧ h_type h = "heat"%string))
  ∧ build None wind_ms cloudcover rel_humidity = inr None.
Proof.
  intros windchill ec HI build hz.
  destruct (windchill_cases T wind_ms) as [Hw1 Hw2]. fold windchill in Hw1, Hw2.
  destruct (cold_tiers T wind_ms cloudcover rel_humidity) as (Hc1 & Hc2 & Hc3).
  fold windchill ec build hz in Hc1, Hc2, Hc3.
  destruct (heat_index_cases T rel_humidity) as [Hi1 Hi2]. fold HI in Hi1, Hi2.
  assert (Hheat : ∀ T' rel' eh,
            fle 32 T' →
            binary64._compute_heat_index pow2 (Some T') rel' = inr (Some eh) →
            (flt eh 32 → build (Some T') wind_ms cloudcover rel' = inr None)
            ∧ (fle 32 eh → flt eh 41 →
               returns_hazard (build (Some T') wind_ms cloudcover rel') "heat" "info" 1)
            ∧ (fle 41 eh → flt eh 54 →
               returns_hazard (build (Some T') wind_ms cloudcover rel') "heat" "watch" 2)
            ∧ (fle 54 eh →
               returns_hazard (build (Some T') wind_ms cloudcover rel') "heat" "warning" 3)).
  { intros T' rel' eh HT' HHI.
    destruct (hot_is_not_cold T' wind_ms HT') as (Hwc & H15 & H32).
    apply heat_tiers; [rewrite Hwc; exact H15|exact H32|exact HHI]. }
  split; [exact Hw1|].
  split.
  { intros H. specialize (Hw2 H). split; [exact Hw2|]. unfold ec. rewrite Hw2. reflexivity. }
  do 3 (split; [assumption|]).
  split.
  { intros H1 H2. subst hz build. unfold binary64._build_heat_cold_hazard.
    fold windchill. fold ec. rewrite (flt_not_fle _ _ H1). unfold flt in H2. rewrite H2.
    reflexivity. }
  split.
  { intros HT. destruct (hot_is_not_cold T wind_ms HT) as (Hwc & H15 & H32).
    fold windchill in Hwc.
    assert (Eec : ec = T) by (unfold ec; rewrite Hwc; reflexivity).
    split; [exact Hwc|]. split; [exact Eec|]. split; [rewrite Eec; exact H15|].
    split.
    { intros e He. subst hz build. unfold binary64._build_heat_cold_hazard.
      fold windchill. fold ec. rewrite Eec, (flt_not_fle _ _ H15), H32.
      fold HI. rewrite He. reflexivity. }
    split; [intros eh Heh; apply (Hheat T rel_humidity eh HT Heh)|].
    intros Heh. destruct (Hheat T rel_humidity T HT Heh) as (_ & Ha & Hb & Hc).
    unfold hz.
    destruct (fle_number 32 T HT) as [_ Hnum].
    destruct (PrimFloat.ltb T 41) eqn:E41.
    { destruct (Ha HT E41) as (o & -> & h & -> & Ht & _).
      exists h. split; [reflexivity|exact Ht]. }
    apply (not_flt_fle T 41 Hnum eq_refl) in E41.
    destruct (PrimFloat.ltb T 54) eqn:E54.
    { destruct (Hb E41 E54) as (o & -> & h & -> & Ht & _).
      exists h. split; [reflexivity|exact Ht]. }
    apply (not_flt_fle T 54 Hnum eq_refl) in E54.
    destruct (Hc E54) as (o & -> & h & -> & Ht & _).
    exists h. split; [reflexivity|exact Ht]. }
  split; [exact Hi1|]. split; [exact Hi2|].
  split.
  { intros H38 H70.
    assert (E : binary64._compute_heat_index pow2 (Some 38%float) (Some 70%float)
                = inr (Some 62.521196604000053%float)).
    { unfold binary64._compute_heat_index.
      change (binary64.max 0 (binary64.min 100 70)) with 70%float.
      change (PrimFloat.ltb 38 27 || PrimFloat.ltb 70 40) with false.
      cbv iota. rewrite H38, H70. vm_compute. reflexivity. }
    eexists. split; [exact E|]. split; [vm_compute; reflexivity|].
    destruct (Hheat 38%float (Some 70%float) _ ltac:(vm_compute; reflexivity) E)
      as (_ & _ & _ & Hc).
    apply Hc. vm_compute. reflexivity. }
  split.
  { intros rh Hrh.
    destruct (heat_index_cases 38 (Some rh)) as [_ E].
    specialize (E ltac:(right; right; exists rh; split;
                        [reflexivity|apply clamped_humidity_below; exact Hrh])).
    split; [exact E|].
    destruct (Hheat 38%float (Some rh) _ ltac:(vm_compute; reflexivity) E)
      as (_ & Ha & _).
    apply Ha; vm_compute; reflexivity. }
  split; [|reflexivity].
  subst hz build. unfold binary64._build_heat_cold_hazard.
  fold windchill. fold ec. fold HI. clearbody ec HI.
  destruct (PrimFloat.leb ec 15) eqn:E15.
  { right; right; left. split; [reflexivity|].
    destruct (PrimFloat.leb ec 5); [|destruct (PrimFloat.leb ec 10)];
      eexists; (split; [reflexivity|reflexivity]). }
  destruct (PrimFloat.ltb T 32) eqn:E32; [right; left; reflexivity|].
  destruct HI as [e|o]; [left; exists e; split; reflexivity|].
  unfold mbind, Py.result_bind.
  destruct (PrimFloat.ltb (default T o) 32); [right; left; reflexivity|].
  right; right; right. split; [reflexivity|]. split; [reflexivity|].
  destruct (PrimFloat.ltb (default T o) 41); [|destruct (PrimFloat.ltb (default T o) 54)];
    eexists; (split; [reflexivity|reflexivity]).
Qed.

End heat_cold.

Lemma heat_cold_hazard_rule_witness :
  Spec.returns_hazard
    (binary64._build_heat_cold_hazard (λ x, x) (λ x, inr (x * x)%float) (λ _, "3.0"%string)
       (Some 3%float) (Some 1%float) None None)
    "cold" "warning" 3.
Proof.
  destruct (heat_cold_hazard_rule (λ x, x) (λ x, inr (x * x)%float) (λ _, "3.0"%string)
              3%float (Some 1%float) None None)
    as (_ & _ & Hcold & _).
  apply Hcold. vm_compute. reflexivity.
Defined.

(** The wind chill is decided on the rounded product: a wind of
    1.3888888888888888 m/s is below 5 km/h, the product the code computes
    is 5.0, and the wind chill is computed. *)
Lemma windchill_on_rounded_product (pow016 : float → float) :
  (∃ q, Spec.exact 1.3888888888888888 = Some q ∧ (q * 3.6 < 5)%Q)
  ∧ (1.3888888888888888 * 3.6)%float = 5%float
  ∧ is_Some (binary64._compute_windchill pow016 (Some 5.5%float)
               (Some 1.3888888888888888%float)).
Proof.
  split; [eexists; split; [vm_compute; reflexivity|vm_compute; reflexivity]|].
  split; [reflexivity|].
  eexists. unfold binary64._compute_windchill.
  change (PrimFloat.ltb 10 5.5 || PrimFloat.ltb (1.3888888888888888 * 3.6) 5) with false.
  reflexivity.
Qed.

Section heat_index_exact.

Import Spec.
Local Open Scope Q_scope.

(** In exact arithmetic the polynomial of the heat index is at least 32
    from 32 degrees on, for a humidity from 40 to 100: with the index
    active only rounding could bring it below the guard
    [effective_heat < 32]. *)
Lemma heat_index_poly_lower (T RH : Q) :
  32 <= T → 40 <= RH → RH <= 100 → 32 <= heat_index_poly T RH.
Proof.
  intros HT H1 H2.
  set (c2 := - 0.012308094 + 0.002211732 * RH - 0.000003582 * (RH * RH)).
  set (c1 := 1.61139411 - 0.14611605 * RH + 0.00072546 * (RH * RH) + 64 * c2).
  set (c0 := heat_index_poly 32 RH - 32).
  assert (Hsq : 0 <= (RH - 40) * (RH - 40)) by (apply Qmult_le_0_compat; lra).
  assert (Hin : 0 <= (RH - 40) * (100 - RH)) by (apply Qmult_le_0_compat; lra).
  assert (H0 : 0 <= c0) by (unfold c0, heat_index_poly; lra).
  assert (Hc2 : 0 <= c2) by (unfold c2; lra).
  assert (Hc1 : 0 <= c1) by (unfold c1, c2; lra).
  assert (Ht1 : 0 <= (T - 32) * c1) by (apply Qmult_le_0_compat; lra).
  assert (Ht2 : 0 <= ((T - 32) * (T - 32)) * c2).
  { apply Qmult_le_0_compat; [apply Qmult_le_0_compat; lra|lra]. }
  assert (Heq : heat_index_poly T RH - 32
                == c0 + (T - 32) * c1 + ((T - 32) * (T - 32)) * c2).
  { unfold c0, c1, c2, heat_index_poly. ring. }
  lra.
Qed.

End heat_index_exact.

(** ** Rainfall accumulator *)

Section accumulator.

Import views_alerts Spec.
Local Open Scope Q_scope.

Variable anchor_ts : Z.

(** A row outside the window, or whose instant cannot be subtracted, leaves
    the accumulator as it is. *)
Lemma rain_step_discards (acc : rain_acc) (r : option Z * option Q) :
  match r.1 with
  | Some valid_at =>
      hours_back anchor_ts valid_at < 0 ∨ 6 < hours_back anchor_ts valid_at
  | None => True
  end →
  rain_step anchor_ts acc r = acc.
Proof.
  unfold rain_step. destruct r.1 as [t|]; [|reflexivity].
  intros [H|H]; py_cases; try reflexivity; lra.
Qed.

(** The three sums after a run, from any accumulator. *)
Lemma rain_fold_sums (rows : list (option Z * option Q)) (acc : rain_acc) :
  let acc' := foldl (rain_step anchor_ts) acc rows in
  rain_1h acc' == rain_1h acc + precip_where (within 1) anchor_ts rows
  ∧ rain_3h acc' == rain_3h acc + precip_where (within 3) anchor_ts rows
  ∧ rain_6h acc' == rain_6h acc + precip_where (within 6) anchor_ts rows.
Proof.
  revert acc. induction rows as [|r rows IH]; intros acc; simpl.
  - repeat split; lra.
  - destruct (IH (rain_step anchor_ts acc r)) as (I1 & I3 & I6).
    rewrite I1, I3, I6. clear IH I1 I3 I6.
    unfold rain_step, within. destruct r.1 as [t|]; [|repeat split; reflexivity].
    set (h := hours_back anchor_ts t). set (p := float_or_zero r.2).
    change (default 0 r.2) with p.
    set (s1 := precip_where _ _ _). set (s3 := precip_where _ _ _).
    set (s6 := precip_where _ _ _). clearbody h p s1 s3 s6.
    destruct (Qltb_spec h 0); destruct (Qgtb_spec h 6); destruct (Qleb_spec h 1);
      destruct (Qleb_spec h 3);
      destruct (Qle_bool_spec 0 h); destruct (Qle_bool_spec h 1);
      destruct (Qle_bool_spec h 3); destruct (Qle_bool_spec h 6);
      simpl; repeat split; lra.
Qed.

Lemma precip_where_split (lo hi : Q) (rows : list (option Z * option Q)) :
  0 <= lo → lo <= hi →
  precip_where (within hi) anchor_ts rows
  == precip_where (within lo) anchor_ts rows + precip_where (aged lo hi) anchor_ts rows.
Proof.
  intros H0 Hle. induction rows as [|r rows IH]; simpl; [lra|].
  destruct r.1 as [t|]; [|exact IH].
  unfold within, aged in *. set (h := hours_back anchor_ts t).
  destruct (Qle_bool_spec 0 h); destruct (Qle_bool_spec h hi);
    destruct (Qle_bool_spec h lo); simpl; lra.
Qed.

Lemma precip_where_nonneg (P : Q → bool) (rows : list (option Z * option Q)) :
  readings_nonneg rows → 0 <= precip_where P anchor_ts rows.
Proof.
  induction 1 as [|r rows Hr _ IH]; simpl; [lra|].
  destruct r.1; [destruct (P _)|]; lra.
Qed.

End accumulator.

Section accumulated_rain.

Import views_alerts views_flood Spec.
Local Open Scope Q_scope.

(** The effective amounts never decrease with the window, whatever the
    readings. *)
Lemma effective_rain_monotone (x1 x3 x6 : Py.arg) :
  _effective_rain_1h x1 <= _effective_rain_3h x1 x3
  ∧ _effective_rain_3h x1 x3 <= _effective_rain_6h x1 x3 x6.
Proof.
  destruct (effective_rain_unfold x1 x3 x6) as (E1 & E3 & E6).
  pose proof (Q.le_max_l 0 (given x3 - given x1)).
  pose proof (Q.le_max_l 0 (given x6 - given x3)).
  split; lra.
Qed.

(** C7, as the code has it.  A row older than 6 hours, newer than the
    anchor, or without a usable instant is discarded.  The three sums are the
    totals over the rows aged at most 1, 3 and 6 hours, so each larger sum is
    the smaller one plus the readings of the hours in between; when no
    reading is negative, [rain_1h <= rain_3h <= rain_6h].  The effective
    amounts derived from the sums satisfy [eff_1h <= eff_3h <= eff_6h]. *)
Theorem rain_sums_nested (rows : list (option Z * option Q)) (anchor_ts : Z) :
  ∃ r1 r3 r6 cov : Q,
    _sum_rain_in_window rows anchor_ts = (r1, r3, r6, cov)
    ∧ (∀ (acc : rain_acc) (valid_at : Z) (p : option Q),
         hours_back anchor_ts valid_at < 0 ∨ 6 < hours_back anchor_ts valid_at →
         rain_step anchor_ts acc (Some valid_at, p) = acc)
    ∧ r1 == precip_where (within 1) anchor_ts rows
    ∧ r3 == precip_where (within 3) anchor_ts rows
    ∧ r6 == precip_where (within 6) anchor_ts rows
    ∧ r3 == r1 + precip_where (aged 1 3) anchor_ts rows
    ∧ r6 == r3 + precip_where (aged 3 6) anchor_ts rows
    ∧ (readings_nonneg rows → r1 <= r3 ∧ r3 <= r6)
    ∧ _effective_rain_1h (Py.ANum r1) <= _effective_rain_3h (Py.ANum r1) (Py.ANum r3)
    ∧ _effective_rain_3h (Py.ANum r1) (Py.ANum r3)
      <= _effective_rain_6h (Py.ANum r1) (Py.ANum r3) (Py.ANum r6).
Proof.
  unfold _sum_rain_in_window.
  destruct (rain_fold_sums anchor_ts rows rain_acc0) as (H1 & H3 & H6).
  set (acc := foldl (rain_step anchor_ts) rain_acc0 rows) in *.
  simpl in H1, H3, H6.
  pose proof (precip_where_split anchor_ts 1 3 rows ltac:(lra) ltac:(lra)) as S13.
  pose proof (precip_where_split anchor_ts 3 6 rows ltac:(lra) ltac:(lra)) as S36.
  do 4 eexists. split; [reflexivity|].
  split; [intros a t p H; apply rain_step_discards; exact H|].
  split; [lra|]. split; [lra|]. split; [lra|]. split; [lra|]. split; [lra|].
  split.
  - intros Hnn.
    pose proof (precip_where_nonneg anchor_ts (aged 1 3) rows Hnn).
    pose proof (precip_where_nonneg anchor_ts (aged 3 6) rows Hnn).
    split; lra.
  - apply effective_rain_monotone.
Qed.

(** C7 as stated fails on a negative reading: one row two hours back with
    -1 mm leaves [rain_1h] at 0 and takes [rain_3h] and [rain_6h] to -1. *)
Lemma rain_sums_negative_reading :
  ∃ r1 r3 r6 cov : Q,
    _sum_rain_in_window [(Some 0%Z, Some (- 1))] 7200 = (r1, r3, r6, cov)
    ∧ r1 == 0 ∧ r3 == - 1 ∧ r6 == - 1 ∧ r3 < r1.
Proof.
  do 4 eexists. split; [reflexivity|].
  repeat split; vm_compute; reflexivity.
Qed.

End accumulated_rain.

Lemma rain_sums_nested_witness :
  ∃ r1 r3 r6 cov : Q,
    views_alerts._sum_rain_in_window
      [(Some 7200%Z, Some 2%Q); (Some 3600%Z, Some 2.5%Q); (Some 0%Z, Some 3.5%Q);
       (Some (- 18000)%Z, None); (Some 10800%Z, Some 9%Q); (None, Some 1%Q)] 7200
    = (r1, r3, r6, cov)
    ∧ (r1 <= r3)%Q ∧ (r3 <= r6)%Q.
Proof.
  destruct (rain_sums_nested
              [(Some 7200%Z, Some 2%Q); (Some 3600%Z, Some 2.5%Q); (Some 0%Z, Some 3.5%Q);
               (Some (- 18000)%Z, None); (Some 10800%Z, Some 9%Q); (None, Some 1%Q)] 7200)
    as (r1 & r3 & r6 & cov & Hrun & _ & _ & _ & _ & _ & _ & Hmono & _).
  exists r1, r3, r6, cov. split; [exact Hrun|].
  apply Hmono. unfold Spec.readings_nonneg.
  repeat constructor; simpl; apply Qle_bool_iff; reflexivity.
Defined.

(** ** Local relief *)

Section relief.

Import dem_utils Spec.

Lemma window_values_elem (d : dataset) (row_start col_start h w : Z) (v : fval) :
  v ∈ window_values d row_start col_start h w
  ↔ ∃ r c, 0 ≤ r < h ∧ 0 ≤ c < w ∧ v = band1 d (row_start + r) (col_start + c).
Proof.
  unfold window_values. rewrite list_elem_of_bind. split.
  - intros (r & Hv & Hr). apply list_elem_of_bind in Hv as (c & Hv & Hc).
    apply list_elem_of_singleton in Hv. apply elem_of_seqZ in Hr, Hc.
    exists r, c. repeat split; try lia. exact Hv.
  - intros (r & c & Hr & Hc & ->). exists r. split; [|apply elem_of_seqZ; lia].
    apply list_elem_of_bind. exists c. split; [|apply elem_of_seqZ; lia].
    apply list_elem_of_singleton. reflexivity.
Qed.

Lemma scan_pixel_cases (nd : option fval) (acc : option Q) (v : fval) :
  (∃ q, valid_value nd v q
        ∧ match acc with
          | None => scan_pixel nd acc v = Some q
          | Some m => (q < m ∧ scan_pixel nd acc v = Some q)%Q
                      ∨ (m <= q ∧ scan_pixel nd acc v = acc)%Q
          end)
  ∨ ((∀ q, ¬ valid_value nd v q) ∧ scan_pixel nd acc v = acc).
Proof.
  unfold scan_pixel, valid_value. destruct v as [q| |].
  - destruct (is_nodata nd (Fin q)) eqn:E.
    + right. split; [|reflexivity]. intros q' [_ H]. congruence.
    + left. exists q. split; [split; reflexivity|].
      destruct acc as [m|]; [|reflexivity].
      destruct (Qltb_spec q m); [left|right]; split; auto.
  - right. split; [|reflexivity]. intros q [H _]. discriminate.
  - right. split; [|reflexivity]. intros q [H _]. discriminate.
Qed.

(** The scan of a list of values from an accumulator: [None] when neither
    the accumulator nor the list holds a value that counts, else the least
    one (the accumulator being at least as large). *)
Lemma scan_fold (nd : option fval) (vs : list fval) (acc : option Q) :
  match foldl (scan_pixel nd) acc vs with
  | None => acc = None ∧ ∀ v q, v ∈ vs → ¬ valid_value nd v q
  | Some m =>
      (acc = Some m ∨ ∃ v, v ∈ vs ∧ valid_value nd v m)
      ∧ (∀ a, acc = Some a → (m <= a)%Q)
      ∧ (∀ v q, v ∈ vs → valid_value nd v q → (m <= q)%Q)
  end.
Proof.
  revert acc. induction vs as [|v vs IH]; intros acc; simpl.
  - destruct acc as [m|].
    + split; [left; reflexivity|]. split.
      * intros a [= <-]. apply Qle_refl.
      * intros v q Hv. inversion Hv.
    + split; [reflexivity|]. intros v q Hv. inversion Hv.
  - specialize (IH (scan_pixel nd acc v)).
    destruct (foldl (scan_pixel nd) (scan_pixel nd acc v) vs) as [m|].
    + destruct IH as (Hsrc & Hacc & Hall).
      destruct (scan_pixel_cases nd acc v) as [(q & Hq & Hstep)|[Hinv Hstep]].
      * destruct acc as [a|].
        -- destruct Hstep as [[Hlt Hstep]|[Hle Hstep]]; rewrite Hstep in *.
           ++ pose proof (Hacc q eq_refl) as Hmq.
              split; [|split].
              ** destruct Hsrc as [[= <-]|(v' & Hv' & Hval)].
                 --- right. exists v. split; [left|exact Hq].
                 --- right. exists v'. split; [right; exact Hv'|exact Hval].
              ** intros a' [= <-]. apply Qle_trans with q; [exact Hmq|apply Qlt_le_weak; exact Hlt].
              ** intros v' q' Hv' Hval'. apply elem_of_cons in Hv' as [->|Hv'].
                 --- destruct Hq as [Hq _], Hval' as [Hval' _].
                     rewrite Hq in Hval'. injection Hval' as <-. exact Hmq.
                 --- apply (Hall v' q' Hv' Hval').
           ++ pose proof (Hacc a eq_refl) as Hma.
              split; [|split].
              ** destruct Hsrc as [Hs|(v' & Hv' & Hval)]; [left; exact Hs|].
                 right. exists v'. split; [right; exact Hv'|exact Hval].
              ** intros a' [= <-]. exact Hma.
              ** intros v' q' Hv' Hval'. apply elem_of_cons in Hv' as [->|Hv'].
                 --- destruct Hq as [Hq _], Hval' as [Hval' _].
                     rewrite Hq in Hval'. injection Hval' as <-.
                     apply Qle_trans with a; assumption.
                 --- apply (Hall v' q' Hv' Hval').
        -- rewrite Hstep in *. pose proof (Hacc q eq_refl) as Hmq.
           split; [|split].
           ++ right. destruct Hsrc as [[= <-]|(v' & Hv' & Hval)].
              ** exists v. split; [left|exact Hq].
              ** exists v'. split; [right; exact Hv'|exact Hval].
           ++ intros a [=].
           ++ intros v' q' Hv' Hval'. apply elem_of_cons in Hv' as [->|Hv'].
              ** destruct Hq as [Hq _], Hval' as [Hval' _].
                 rewrite Hq in Hval'. injection Hval' as <-. exact Hmq.
              ** apply (Hall v' q' Hv' Hval').
      * rewrite Hstep in *. split; [|split].
        -- destruct Hsrc as [Hs|(v' & Hv' & Hval)]; [left; exact Hs|].
           right. exists v'. split; [right; exact Hv'|exact Hval].
        -- exact Hacc.
        -- intros v' q' Hv' Hval'. apply elem_of_cons in Hv' as [->|Hv'].
           ++ exfalso. apply (Hinv q'). exact Hval'.
           ++ apply (Hall v' q' Hv' Hval').
    + destruct IH as (Hnone & Hall).
      destruct (scan_pixel_cases nd acc v) as [(q & Hq & Hstep)|[Hinv Hstep]].
      * destruct acc as [a|].
        -- destruct Hstep as [[_ Hstep]|[_ Hstep]]; rewrite Hstep in Hnone; discriminate.
        -- rewrite Hstep in Hnone. discriminate.
      * rewrite Hstep in Hnone. split; [exact Hnone|].
        intros v' q' Hv'. apply elem_of_cons in Hv' as [->|Hv'].
        -- apply Hinv.
        -- apply (Hall v' q' Hv').
Qed.

(** What [relief_at] returns, by cases. *)
Lemma relief_at_cases (d : dataset) (row col half_size_px : Z) :
  match relief_at d row col half_size_px with
  | None =>
      ¬ inside d row col
      ∨ (∀ q, ¬ valid_pixel d row col q)
      ∨ (∀ r c q, in_window d row col half_size_px r c → ¬ valid_pixel d r c q)
  | Some relief =>
      inside d row col
      ∧ ∃ center m rm cm,
          valid_pixel d row col center
          ∧ in_window d row col half_size_px row col
          ∧ in_window d row col half_size_px rm cm
          ∧ valid_pixel d rm cm m
          ∧ (∀ r c q, in_window d row col half_size_px r c → valid_pixel d r c q →
               (m <= q)%Q)
          ∧ (relief == center - m)%Q
          ∧ (0 <= relief)%Q
  end.
Proof.
  unfold relief_at, inside.
  destruct (Z.ltb_spec row 0); [left; lia|].
  destruct (Z.leb_spec (height d) row); [left; lia|].
  destruct (Z.ltb_spec col 0); [left; lia|].
  destruct (Z.leb_spec (width d) col); [left; lia|]. simpl.
  set (row_start := Z.max 0 (row - half_size_px)).
  set (row_stop := Z.min (height d) (row + half_size_px + 1)).
  set (col_start := Z.max 0 (col - half_size_px)).
  set (col_stop := Z.min (width d) (col + half_size_px + 1)).
  set (h := Z.max 0 (row_stop - row_start)).
  set (w := Z.max 0 (col_stop - col_start)).
  assert (Hwin : ∀ r c, in_window d row col half_size_px r c
                        ↔ ∃ r' c', 0 ≤ r' < h ∧ 0 ≤ c' < w
                                   ∧ r = row_start + r' ∧ c = col_start + c').
  { intros r c. unfold in_window. split.
    - intros (Hr & Hc & Hr' & Hc'). exists (r - row_start), (c - col_start).
      unfold h, w, row_start, row_stop, col_start, col_stop. lia.
    - intros (r' & c' & Hr & Hc & -> & ->).
      unfold h, w, row_start, row_stop, col_start, col_stop in *. lia. }
  pose proof (scan_fold (nodata d) (window_values d row_start col_start h w) None) as Hscan.
  destruct (foldl (scan_pixel (nodata d)) None (window_values d row_start col_start h w))
    as [m|].
  - destruct Hscan as (Hsrc & _ & Hall).
    destruct Hsrc as [Hs|(v & Hv & Hval)]; [discriminate|].
    apply window_values_elem in Hv as (r' & c' & Hr' & Hc' & ->).
    assert (Hhalf : 0 ≤ half_size_px).
    { unfold h, w, row_start, row_stop, col_start, col_stop in *. lia. }
    assert (Hcenter : in_window d row col half_size_px row col).
    { unfold in_window. lia. }
    assert (Hmin : ∀ r c q, in_window d row col half_size_px r c → valid_pixel d r c q →
                     (m <= q)%Q).
    { intros r c q Hin Hq. apply Hwin in Hin as (r0 & c0 & Hr0 & Hc0 & -> & ->).
      apply (Hall (band1 d (row_start + r0) (col_start + c0)) q); [|exact Hq].
      apply window_values_elem. exists r0, c0. repeat split; lia. }
    replace ((0 <=? row - row_start) && (row - row_start <? h)
             && (0 <=? col - col_start) && (col - col_start <? w)) with true
      by (unfold h, w, row_start, row_stop, col_start, col_stop in *;
          symmetry; rewrite !andb_true_iff; repeat split; lia).
    simpl.
    replace (row_start + (row - row_start)) with row by lia.
    replace (col_start + (col - col_start)) with col by lia.
    destruct (band1 d row col) as [center| |] eqn:Ec.
    + destruct (is_nodata (nodata d) (Fin center)) eqn:End.
      * right; left. intros q [Hq Hnd]. unfold valid_pixel, valid_value in *.
        rewrite Ec in Hq, Hnd. congruence.
      * assert (Hvc : valid_pixel d row col center).
        { unfold valid_pixel, valid_value. rewrite Ec. split; [reflexivity|exact End]. }
        pose proof (Hmin row col center Hcenter Hvc) as Hle.
        split; [lia|].
        exists center, m, (row_start + r'), (col_start + c').
        split; [exact Hvc|]. split; [exact Hcenter|].
        split; [apply Hwin; exists r', c'; repeat split; lia|].
        split; [exact Hval|]. split; [exact Hmin|].
        destruct (Qltb_spec (center - m) 0); split; lra.
    + right; left. intros q [Hq _]. unfold valid_pixel, valid_value in *.
      rewrite Ec in Hq. discriminate.
    + right; left. intros q [Hq _]. unfold valid_pixel, valid_value in *.
      rewrite Ec in Hq. discriminate.
  - destruct Hscan as [_ Hall]. right; right.
    intros r c q Hin. apply Hwin in Hin as (r0 & c0 & Hr0 & Hc0 & -> & ->).
    apply Hall. apply window_values_elem. exists r0, c0. repeat split; lia.
Qed.

(** A pixel has at most one valid value. *)
Lemma valid_pixel_unique (d : dataset) (r c : Z) (q q' : Q) :
  valid_pixel d r c q → valid_pixel d r c q' → q = q'.
Proof. intros [H _] [H' _]. congruence. Qed.

(** C9 (local relief).  [sample_relief_local] raises only when [_get_dem]
    does; otherwise it returns [relief_at] of the pixel the point falls on,
    which is [None] or at least 0.  [relief_at] is [None] exactly when the
    pixel is outside the raster, or the centre pixel is not a finite value
    other than nodata, or no pixel of the window is; in every other case,
    so for a valid centre pixel inside the raster and a half-size that is
    not negative, it returns a relief, and that is the centre elevation
    minus the least valid value of the window, the square of side
    [2 * half_size_px + 1] around the pixel clamped to the raster. *)
Theorem sample_relief_local_nonneg (env : install) (lat lon : Q) (half_size_px : Z)
    (cache : globals) :
  match (sample_relief_local env lat lon half_size_px cache).1 with
  | inr (Some relief) => (0 <= relief)%Q
  | inr None => True
  | inl e => (_get_dem env cache).1 = inl e
  end
  ∧ (∀ h cache', _get_dem env cache = (inr h, cache') →
       sample_relief_local env lat lon half_size_px cache
       = (inr (relief_at (ds h) (index (ds h) (transform h lon lat).1 (transform h lon lat).2).1
                 (index (ds h) (transform h lon lat).1 (transform h lon lat).2).2
                 half_size_px), cache'))
  ∧ ∀ (d : dataset) (row col : Z),
      (¬ inside d row col → relief_at d row col half_size_px = None)
      ∧ ((∀ q, ¬ valid_pixel d row col q) → relief_at d row col half_size_px = None)
      ∧ ((∀ r c q, in_window d row col half_size_px r c → ¬ valid_pixel d r c q) →
         relief_at d row col half_size_px = None)
      ∧ (relief_at d row col half_size_px = None →
           ¬ inside d row col
           ∨ (∀ q, ¬ valid_pixel d row col q)
           ∨ (∀ r c q, in_window d row col half_size_px r c → ¬ valid_pixel d r c q))
      ∧ (∀ relief, relief_at d row col half_size_px = Some relief →
           (0 <= relief)%Q
           ∧ ∃ center m rm cm,
               valid_pixel d row col center
               ∧ in_window d row col half_size_px rm cm
               ∧ valid_pixel d rm cm m
               ∧ (∀ r c q, in_window d row col half_size_px r c →
                    valid_pixel d r c q → (m <= q)%Q)
               ∧ (relief == center - m)%Q)
      ∧ (∀ center, inside d row col → valid_pixel d row col center →
           (0 ≤ half_size_px
            ∨ ∃ r c q, in_window d row col half_size_px r c ∧ valid_pixel d r c q) →
           ∃ relief m rm cm,
             relief_at d row col half_size_px = Some relief
             ∧ in_window d row col half_size_px rm cm
             ∧ valid_pixel d rm cm m
             ∧ (∀ r c q, in_window d row col half_size_px r c →
                  valid_pixel d r c q → (m <= q)%Q)
             ∧ (relief == center - m)%Q
             ∧ (0 <= relief)%Q).
Proof.
  assert (Hsome : ∀ (d : dataset) (row col : Z) relief,
      relief_at d row col half_size_px = Some relief →
      (0 <= relief)%Q
      ∧ ∃ center m rm cm,
          valid_pixel d row col center
          ∧ in_window d row col half_size_px rm cm
          ∧ valid_pixel d rm cm m
          ∧ (∀ r c q, in_window d row col half_size_px r c →
               valid_pixel d r c q → (m <= q)%Q)
          ∧ (relief == center - m)%Q).
  { intros d row col relief E.
    pose proof (relief_at_cases d row col half_size_px) as H. rewrite E in H.
    destruct H as (Hin & center & m & rm & cm & Hc & _ & Hw & Hm & Hmin & Heq & Hpos).
    split; [exact Hpos|].
    exists center, m, rm, cm.
    split; [exact Hc|]. split; [exact Hw|]. split; [exact Hm|].
    split; [exact Hmin|exact Heq]. }
  split; [|split].
  - unfold sample_relief_local.
    destruct (_get_dem env cache) as [[e|h] cache']; simpl; [reflexivity|].
    destruct (transform h lon lat) as [x y].
    destruct (index (ds h) x y) as [row col]. simpl.
    destruct (relief_at (ds h) row col half_size_px) as [relief|] eqn:E; [|exact I].
    apply (Hsome _ _ _ _ E).
  - intros h cache' Hget. unfold sample_relief_local. rewrite Hget.
    destruct (transform h lon lat) as [x y]. simpl.
    destruct (index (ds h) x y) as [row col]. reflexivity.
  - intros d row col.
    pose proof (relief_at_cases d row col half_size_px) as H.
    destruct (relief_at d row col half_size_px) as [relief|] eqn:E.
    + destruct H as (Hin & center & m & rm & cm & Hc & _ & Hw & Hm & Hmin & Heq & Hpos).
      split; [intros Hout; contradiction|].
      split; [intros Hinv; exfalso; apply (Hinv center Hc)|].
      split; [intros Hinv; exfalso; apply (Hinv rm cm m Hw Hm)|].
      split; [discriminate|].
      split; [intros relief' [= <-]; apply (Hsome _ _ _ _ E)|].
      intros center' _ Hc' _.
      exists relief, m, rm, cm.
      rewrite (valid_pixel_unique _ _ _ _ _ Hc' Hc).
      split; [reflexivity|]. split; [exact Hw|]. split; [exact Hm|].
      split; [exact Hmin|]. split; [exact Heq|exact Hpos].
    + split; [reflexivity|]. split; [reflexivity|]. split; [reflexivity|].
      split; [intros _; exact H|].
      split; [intros relief [=]|].
      intros center Hin Hc Hwin. exfalso.
      destruct H as [H|[H|H]].
      * contradiction.
      * apply (H center Hc).
      * destruct Hwin as [Hhalf|(r & c & q & Hw & Hq)].
        -- apply (H row col center); [|exact Hc].
           unfold in_window, inside in *. lia.
        -- apply (H r c q Hw Hq).
Qed.

End relief.

Lemma sample_relief_local_nonneg_witness :
  ∃ relief : Q,
    dem_utils.relief_at
      (dem_utils.mk_dataset 3 3 (Some (dem_utils.Fin (- 9999)))
         (λ r c, if (r =? 1) && (c =? 1) then dem_utils.Fin 12
                 else if r =? 0 then dem_utils.Fin (- 9999)
                 else if c =? 0 then dem_utils.NaN
                 else dem_utils.Fin 10.5)
         (λ x y, (Qfloor y, Qfloor x)) (λ _ _, []))
      1 1 1 = Some relief
    ∧ (relief == 1.5)%Q ∧ (0 <= relief)%Q.
Proof.
  eexists. split; [vm_compute; reflexivity|]. split; [reflexivity|].
  destruct (sample_relief_local_nonneg
              (dem_utils.mk_install true "dem.tif" true
                 (inr (dem_utils.mk_dataset 3 3 (Some (dem_utils.Fin (- 9999)))
                         (λ r c, if (r =? 1) && (c =? 1) then dem_utils.Fin 12
                                 else if r =? 0 then dem_utils.Fin (- 9999)
                                 else if c =? 0 then dem_utils.NaN
                                 else dem_utils.Fin 10.5)
                         (λ x y, (Qfloor y, Qfloor x)) (λ _ _, [])))
                 true (inr (λ lon lat, (lon, lat))))
              1.5%Q 1.5%Q 1 (dem_utils.mk_globals None None)) as (_ & _ & Hat).
  destruct (Hat (dem_utils.mk_dataset 3 3 (Some (dem_utils.Fin (- 9999)))
                   (λ r c, if (r =? 1) && (c =? 1) then dem_utils.Fin 12
                           else if r =? 0 then dem_utils.Fin (- 9999)
                           else if c =? 0 then dem_utils.NaN
                           else dem_utils.Fin 10.5)
                   (λ x y, (Qfloor y, Qfloor x)) (λ _ _, [])) 1 1)
    as (_ & _ & _ & _ & Hsome & _).
  apply (Hsome _ ltac:(vm_compute; reflexivity)).
Defined.

(** ** Terrain failures and the flood risk rows *)

Section terrain_failure.

Import views_flood Spec.

Variable S : Type.
Variable sample_elevation : Q → Q → S → Py.result (option Q) * S.
Variable sample_relief_local : Q → Q → Z → S → Py.result (option Q) * S.

Abbreviation try_body := (views_flood.try_body S sample_elevation sample_relief_local).
Abbreviation _try_sample_dem := (views_flood._try_sample_dem S sample_elevation sample_relief_local).
Abbreviation risk_of_row := (views_flood.risk_of_row S sample_elevation sample_relief_local).
Abbreviation flood_risk_rows := (views_flood.flood_risk_rows S sample_elevation sample_relief_local).









End terrain_failure.





(** * Further properties of the code *)

(** ** Bands of the flood risk scorer *)

Section bands.

Import views_flood Spec.

(** X1.  The rain band never decreases when the effective rainfall grows,
    lies in 0..4, and is 0 for an absent, unreadable or negative amount. *)
Theorem rain_band_monotone (a b : Q) (x : Py.arg) :
  ((a <= b)%Q → _rain_band_from_eff6 (Py.ANum a) ≤ _rain_band_from_eff6 (Py.ANum b))
  ∧ 0 ≤ _rain_band_from_eff6 x ≤ 4
  ∧ _rain_band_from_eff6 Py.ANone = 0
  ∧ _rain_band_from_eff6 Py.AOther = 0
  ∧ ((a < 0)%Q → _rain_band_from_eff6 (Py.ANum a) = 0).
Proof.
  split; [|split; [|split; [|split]]].
  - intros H. unfold _rain_band_from_eff6, _safe_float.
    py_max_cases; py_cases; try lia; lra.
  - unfold _rain_band_from_eff6. py_cases; lia.
  - reflexivity.
  - reflexivity.
  - intros H. unfold _rain_band_from_eff6, _safe_float.
    py_max_cases; py_cases; try lia; lra.
Qed.

(** X2.  The relief band and the elevation band never increase when the
    relief or the elevation grows (lower ground scores higher), and lie in
    0..4.  An absent relief or elevation gives band 0, the band of high
    ground; a negative relief counts as 0 m (band 4), and an elevation
    below sea level is band 4. *)
Theorem terrain_bands_antitone (a b : Q) (x : Py.arg) :
  ((a <= b)%Q →
     _terrain_band_from_relief_local (Py.ANum b) ≤ _terrain_band_from_relief_local (Py.ANum a)
     ∧ _elevation_band (Py.ANum b) ≤ _elevation_band (Py.ANum a))
  ∧ 0 ≤ _terrain_band_from_relief_local x ≤ 4
  ∧ 0 ≤ _elevation_band x ≤ 4
  ∧ _terrain_band_from_relief_local Py.ANone = 0
  ∧ _elevation_band Py.ANone = 0
  ∧ ((a < 1)%Q → _terrain_band_from_relief_local (Py.ANum a) = 4)
  ∧ ((a < 5)%Q → _elevation_band (Py.ANum a) = 4).
Proof.
  split; [|split; [|split; [|split; [|split; [|split]]]]].
  - intros H. split.
    + unfold _terrain_band_from_relief_local, _safe_float.
      py_max_cases; py_cases; try lia; lra.
    + unfold _elevation_band, _safe_float. py_cases; try lia; lra.
  - unfold _terrain_band_from_relief_local. py_cases; lia.
  - unfold _elevation_band. py_cases; lia.
  - vm_compute. reflexivity.
  - vm_compute. reflexivity.
  - intros H. unfold _terrain_band_from_relief_local, _safe_float.
    py_max_cases; py_cases; try lia; lra.
  - intros H. unfold _elevation_band, _safe_float. py_cases; try lia; lra.
Qed.

(** X3.  The slope penalty never decreases when the slope proxy grows, lies
    in 0..2, and is 0 for an absent or negative slope. *)
Theorem slope_penalty_monotone (a b : Q) (x : Py.arg) :
  ((a <= b)%Q → _slope_like_penalty (Py.ANum a) ≤ _slope_like_penalty (Py.ANum b))
  ∧ 0 ≤ _slope_like_penalty x ≤ 2
  ∧ _slope_like_penalty Py.ANone = 0
  ∧ ((a < 30)%Q → _slope_like_penalty (Py.ANum a) = 0).
Proof.
  split; [|split; [|split]].
  - intros H. unfold _slope_like_penalty, _safe_float.
    py_max_cases; py_cases; try lia; lra.
  - unfold _slope_like_penalty. py_cases; lia.
  - reflexivity.
  - intros H. unfold _slope_like_penalty, _safe_float.
    py_max_cases; py_cases; try lia; lra.
Qed.

End bands.

Lemma rain_band_monotone_witness :
  views_flood._rain_band_from_eff6 (Py.ANum 3) ≤ views_flood._rain_band_from_eff6 (Py.ANum 20)
  ∧ views_flood._rain_band_from_eff6 (Py.ANum (- 1)) = 0.
Proof.
  destruct (rain_band_monotone (- 1) 20 Py.ANone) as (_ & _ & _ & _ & H5).
  destruct (rain_band_monotone 3 20 Py.ANone) as (H1 & _).
  split; [apply H1; lra|apply H5; lra].
Defined.

Lemma terrain_bands_antitone_witness :
  views_flood._terrain_band_from_relief_local (Py.ANum 40)
  ≤ views_flood._terrain_band_from_relief_local (Py.ANum 0.5)
  ∧ views_flood._elevation_band (Py.ANum 40) ≤ views_flood._elevation_band (Py.ANum 0.5)
  ∧ views_flood._terrain_band_from_relief_local (Py.ANum 0.5) = 4
  ∧ views_flood._elevation_band (Py.ANum 0.5) = 4.
Proof.
  destruct (terrain_bands_antitone 0.5 40 Py.ANone) as (H1 & _ & _ & _ & _ & H6 & H7).
  destruct H1 as [Hr He]; [lra|].
  split; [exact Hr|]. split; [exact He|]. split; [apply H6; lra|apply H7; lra].
Defined.

Lemma slope_penalty_monotone_witness :
  views_flood._slope_like_penalty (Py.ANum 10) ≤ views_flood._slope_like_penalty (Py.ANum 90)
  ∧ views_flood._slope_like_penalty (Py.ANum 10) = 0.
Proof.
  destruct (slope_penalty_monotone 10 90 Py.ANone) as (H1 & _ & _ & H4).
  split; [apply H1; lra|apply H4; lra].
Defined.

(** ** The combined score as a function of its inputs *)

Section score_order.

Import views_flood Spec.

Lemma clamp_monotone (x y lo hi : Z) : x ≤ y → _clamp x lo hi ≤ _clamp y lo hi.
Proof. unfold _clamp. lia. Qed.

Lemma in_range5 (a : Z) : 0 ≤ a ≤ 4 → In a [0; 1; 2; 3; 4].
Proof. intros H. simpl. lia. Qed.

Lemma in_range3 (d : Z) : 0 ≤ d ≤ 2 → In d [0; 1; 2].
Proof. intros H. simpl. lia. Qed.

(** A property of the formula that holds at each of the 375 inputs of the
    clamped ranges holds on the ranges. *)
Lemma risk_inputs_checked (P : Z → Z → Z → Z → bool) :
  forallb (λ a, forallb (λ b, forallb (λ c, forallb (λ d, P a b c d)
    [0; 1; 2]) [0; 1; 2; 3; 4]) [0; 1; 2; 3; 4]) [0; 1; 2; 3; 4] = true →
  ∀ a b c d, 0 ≤ a ≤ 4 → 0 ≤ b ≤ 4 → 0 ≤ c ≤ 4 → 0 ≤ d ≤ 2 → P a b c d = true.
Proof.
  intros H a b c d Ha Hb Hc Hd.
  rewrite forallb_forall in H. specialize (H a (in_range5 a Ha)).
  rewrite forallb_forall in H. specialize (H b (in_range5 b Hb)).
  rewrite forallb_forall in H. specialize (H c (in_range5 c Hc)).
  rewrite forallb_forall in H. exact (H d (in_range3 d Hd)).
Qed.

Lemma risk_score_formula_steps (a b c d : Z) :
  0 ≤ a ≤ 4 → 0 ≤ b ≤ 4 → 0 ≤ c ≤ 4 → 0 ≤ d ≤ 2 →
  (a < 4 → risk_score_formula a b c d ≤ risk_score_formula (a + 1) b c d)
  ∧ (b < 4 → risk_score_formula a b c d ≤ risk_score_formula a (b + 1) c d)
  ∧ (c < 4 → risk_score_formula a b c d ≤ risk_score_formula a b (c + 1) d)
  ∧ (d < 2 → risk_score_formula a b c (d + 1) ≤ risk_score_formula a b c d).
Proof.
  intros Ha Hb Hc Hd.
  pose proof (risk_inputs_checked
    (λ a b c d,
       ((4 <=? a) || (risk_score_formula a b c d <=? risk_score_formula (a + 1) b c d))
       && ((4 <=? b) || (risk_score_formula a b c d <=? risk_score_formula a (b + 1) c d))
       && ((4 <=? c) || (risk_score_formula a b c d <=? risk_score_formula a b (c + 1) d))
       && ((2 <=? d) || (risk_score_formula a b c (d + 1) <=? risk_score_formula a b c d)))
    ltac:(vm_compute; reflexivity) a b c d Ha Hb Hc Hd) as H.
  simpl in H. rewrite !andb_true_iff, !orb_true_iff, !Z.leb_le in H.
  destruct H as (((H1 & H2) & H3) & H4). repeat split; intros; lia.
Qed.
Lemma risk_score_formula_monotone (a a' b b' c c' d d' : Z) :
  0 ≤ a → a ≤ a' → a' ≤ 4 → 0 ≤ b → b ≤ b' → b' ≤ 4 →
  0 ≤ c → c ≤ c' → c' ≤ 4 → 0 ≤ d' → d' ≤ d → d ≤ 2 →
  risk_score_formula a b c d ≤ risk_score_formula a' b' c' d'.
Proof.
  intros Ha Haa Ha' Hb Hbb Hb' Hc Hcc Hc' Hd' Hdd Hd.
  assert (Sa : ∀ n : nat, a + Z.of_nat n ≤ 4 →
            risk_score_formula a b c d ≤ risk_score_formula (a + Z.of_nat n) b c d).
  { induction n as [|n IH]; intros Hn.
    - replace (a + Z.of_nat 0) with a by lia. lia.
    - destruct (risk_score_formula_steps (a + Z.of_nat n) b c d) as (S1 & _); try lia.
      replace (a + Z.of_nat (Datatypes.S n)) with (a + Z.of_nat n + 1) by lia.
      specialize (IH ltac:(lia)). specialize (S1 ltac:(lia)). lia. }
  assert (Sb : ∀ n : nat, b + Z.of_nat n ≤ 4 →
            risk_score_formula a' b c d ≤ risk_score_formula a' (b + Z.of_nat n) c d).
  { induction n as [|n IH]; intros Hn.
    - replace (b + Z.of_nat 0) with b by lia. lia.
    - destruct (risk_score_formula_steps a' (b + Z.of_nat n) c d) as (_ & S1 & _); try lia.
      replace (b + Z.of_nat (Datatypes.S n)) with (b + Z.of_nat n + 1) by lia.
      specialize (IH ltac:(lia)). specialize (S1 ltac:(lia)). lia. }
  assert (Sc : ∀ n : nat, c + Z.of_nat n ≤ 4 →
            risk_score_formula a' b' c d ≤ risk_score_formula a' b' (c + Z.of_nat n) d).
  { induction n as [|n IH]; intros Hn.
    - replace (c + Z.of_nat 0) with c by lia. lia.
    - destruct (risk_score_formula_steps a' b' (c + Z.of_nat n) d) as (_ & _ & S1 & _); try lia.
      replace (c + Z.of_nat (Datatypes.S n)) with (c + Z.of_nat n + 1) by lia.
      specialize (IH ltac:(lia)). specialize (S1 ltac:(lia)). lia. }
  assert (Sd : ∀ n : nat, d' + Z.of_nat n ≤ 2 →
            risk_score_formula a' b' c' (d' + Z.of_nat n) ≤ risk_score_formula a' b' c' d').
  { induction n as [|n IH]; intros Hn.
    - replace (d' + Z.of_nat 0) with d' by lia. lia.
    - destruct (risk_score_formula_steps a' b' c' (d' + Z.of_nat n)) as (_ & _ & _ & S1); try lia.
      replace (d' + Z.of_nat (Datatypes.S n)) with (d' + Z.of_nat n + 1) by lia.
      specialize (IH ltac:(lia)). specialize (S1 ltac:(lia)). lia. }
  specialize (Sa (Z.to_nat (a' - a)) ltac:(lia)).
  specialize (Sb (Z.to_nat (b' - b)) ltac:(lia)).
  specialize (Sc (Z.to_nat (c' - c)) ltac:(lia)).
  specialize (Sd (Z.to_nat (d - d')) ltac:(lia)).
  replace (a + Z.of_nat (Z.to_nat (a' - a))) with a' in Sa by lia.
  replace (b + Z.of_nat (Z.to_nat (b' - b))) with b' in Sb by lia.
  replace (c + Z.of_nat (Z.to_nat (c' - c))) with c' in Sc by lia.
  replace (d' + Z.of_nat (Z.to_nat (d - d'))) with d in Sd by lia.
  lia.
Qed.

(** X4.  For all integers, raising a band never lowers the combined score
    and raising the slope penalty never raises it. *)
Theorem combined_risk_score_monotone
    (rain rain' relief relief' elev elev' pen pen' : Z) :
  rain ≤ rain' → relief ≤ relief' → elev ≤ elev' → pen' ≤ pen →
  ∃ s s' : Z,
    _combined_risk_score rain relief elev pen = Some s
    ∧ _combined_risk_score rain' relief' elev' pen' = Some s'
    ∧ s ≤ s'.
Proof.
  intros H1 H2 H3 H4.
  destruct (combined_risk_score_defined rain relief elev pen) as (s & _ & Hs & -> & _).
  destruct (combined_risk_score_defined rain' relief' elev' pen') as (s' & _ & Hs' & -> & _).
  eexists. eexists. split; [exact Hs|]. split; [exact Hs'|].
  apply risk_score_formula_monotone; unfold _clamp; lia.
Qed.

(** X5.  What rain alone decides: with rain band 0 (or below) the score is
    at most 1 whatever the terrain; the score is 4 only with rain band 4
    (or above) and no slope penalty; and with rain band 4 and no slope
    penalty the score is at least 3. *)
Theorem combined_risk_score_rain_limits (rain relief elev pen : Z) :
  ∃ s : Z,
    _combined_risk_score rain relief elev pen = Some s
    ∧ (rain ≤ 0 → s ≤ 1)
    ∧ (s = 4 → 4 ≤ rain ∧ pen ≤ 0)
    ∧ (4 ≤ rain → pen ≤ 0 → 3 ≤ s).
Proof.
  destruct (combined_risk_score_defined rain relief elev pen) as (s & _ & Hs & -> & _).
  exists (risk_score_formula (_clamp rain 0 4) (_clamp relief 0 4) (_clamp elev 0 4)
            (_clamp pen 0 2)).
  split; [exact Hs|].
  pose proof (clamp_range rain 0 4 ltac:(lia)) as Ha.
  pose proof (clamp_range relief 0 4 ltac:(lia)) as Hb.
  pose proof (clamp_range elev 0 4 ltac:(lia)) as Hc.
  pose proof (clamp_range pen 0 2 ltac:(lia)) as Hd.
  assert (Hr0 : rain ≤ 0 → _clamp rain 0 4 = 0) by (unfold _clamp; lia).
  assert (Hr4 : 4 ≤ rain ↔ _clamp rain 0 4 = 4) by (unfold _clamp; lia).
  assert (Hp0 : pen ≤ 0 ↔ _clamp pen 0 2 = 0) by (unfold _clamp; lia).
  set (a := _clamp rain 0 4) in *. set (b := _clamp relief 0 4) in *.
  set (c := _clamp elev 0 4) in *. set (d := _clamp pen 0 2) in *.
  clearbody a b c d.
  assert (Hall : (a = 0 → risk_score_formula a b c d ≤ 1)
                 ∧ (risk_score_formula a b c d = 4 → a = 4 ∧ d = 0)
                 ∧ (a = 4 → d = 0 → 3 ≤ risk_score_formula a b c d)).
  { pose proof (risk_inputs_checked
      (λ a b c d,
         (negb (a =? 0) || (risk_score_formula a b c d <=? 1))
         && (negb (risk_score_formula a b c d =? 4) || ((a =? 4) && (d =? 0)))
         && (negb ((a =? 4) && (d =? 0)) || (3 <=? risk_score_formula a b c d)))
      ltac:(vm_compute; reflexivity) a b c d Ha Hb Hc Hd) as H.
    simpl in H.
    rewrite !andb_true_iff, !orb_true_iff, !negb_true_iff, !andb_true_iff,
      !andb_false_iff, !Z.leb_le, !Z.eqb_eq, !Z.eqb_neq in H.
    destruct H as ((H1 & H2) & H3). repeat split; intros; lia. }
  destruct Hall as (A1 & A2 & A3).
  split; [intros H; apply A1, Hr0, H|]. split.
  - intros H. destruct (A2 H) as [E1 E2]. split; [apply Hr4, E1|apply Hp0, E2].
  - intros H1 H2. apply A3; [apply Hr4, H1|apply Hp0, H2].
Qed.

End score_order.

Lemma combined_risk_score_monotone_witness :
  ∃ s s' : Z,
    views_flood._combined_risk_score 1 0 2 2 = Some s
    ∧ views_flood._combined_risk_score 3 4 2 0 = Some s'
    ∧ s ≤ s'.
Proof.
  apply (combined_risk_score_monotone 1 3 0 4 2 2 2 0); lia.
Defined.

Lemma combined_risk_score_rain_limits_witness :
  (∃ s : Z, views_flood._combined_risk_score 0 4 4 0 = Some s ∧ s ≤ 1)
  ∧ (∃ s : Z, views_flood._combined_risk_score 4 0 0 0 = Some s ∧ 3 ≤ s).
Proof.
  split.
  - destruct (combined_risk_score_rain_limits 0 4 4 0) as (s & Hs & H1 & _).
    exists s. split; [exact Hs|apply H1; lia].
  - destruct (combined_risk_score_rain_limits 4 0 0 0) as (s & Hs & _ & _ & H3).
    exists s. split; [exact Hs|apply H3; lia].
Defined.

(** ** The raster handle and the samplers *)

Section raster.

Import dem_utils Spec.

(** X6.  [_get_dem] and its two globals.  With both globals set and the
    libraries there, a call returns them and touches nothing.  A call that
    succeeds leaves both globals set to the pair it returns, and from then
    on every call returns that same pair, whatever has become of the file,
    as long as the libraries are there; when a global was unset, the pair
    is the dataset just opened and the transformer just built.  A call
    fails when the libraries are missing, or, with a global unset, when the
    file is missing, [rasterio.open] raises, the dataset has no CRS, or
    [Transformer.from_crs] raises.  A failing call leaves the globals as
    they were, except for a failing [Transformer.from_crs]: by then the
    dataset just opened is in [_dem_dataset], the transformer is as it was,
    and, if that was unset, the next call opens the file again. *)
Theorem get_dem_caches (env : install) (cache : globals) :
  match _get_dem env cache with
  | (inr h, cache') =>
      libs_present env = true
      ∧ cache' = mk_globals (Some (ds h)) (Some (transform h))
      ∧ (∀ d t, _dem_dataset cache = Some d → _dem_transformer cache = Some t →
           h = mk_handle d t ∧ cache' = cache)
      ∧ (_dem_dataset cache = None ∨ _dem_transformer cache = None →
           dem_exists env = true ∧ dem_open env = inr (ds h)
           ∧ dem_has_crs env = true ∧ dem_from_crs env = inr (transform h))
      ∧ ∀ env' : install, libs_present env' = true →
          _get_dem env' cache' = (inr h, cache')
  | (inl e, cache') =>
      (libs_present env = false ∧ cache' = cache)
      ∨ (libs_present env = true
         ∧ (_dem_dataset cache = None ∨ _dem_transformer cache = None)
         ∧ ((dem_exists env = false ∧ cache' = cache
             ∧ e = Py.RuntimeError ("DEM file không tồn tại: " ++ DEM_PATH env)%string)
            ∨ (dem_exists env = true ∧ dem_open env = inl e ∧ cache' = cache)
            ∨ (dem_exists env = true ∧ (∃ d, dem_open env = inr d)
               ∧ dem_has_crs env = false ∧ cache' = cache
               ∧ e = Py.RuntimeError
                       "DEM không có CRS, kiểm tra lại file DEM / metadata.")
            ∨ (dem_exists env = true ∧ dem_has_crs env = true
               ∧ dem_from_crs env = inl e
               ∧ ∃ d, dem_open env = inr d
                      ∧ cache' = mk_globals (Some d) (_dem_transformer cache)
                      ∧ (_dem_transformer cache = None →
                         ∀ env' : install, libs_present env' = true →
                           dem_exists env' = false →
                           ∃ e', _get_dem env' cache' = (inl e', cache')))))
  end.
Proof.
  destruct cache as [od ot]. unfold _get_dem.
  cbn [_dem_dataset _dem_transformer].
  destruct (libs_present env) eqn:Hl; cbn [negb]; [|left; split; reflexivity].
  destruct od as [d|], ot as [t|];
    [ split; [reflexivity|]; split; [reflexivity|];
      split; [intros d' t' [= <-] [= <-]; split; reflexivity|];
      split; [intros [H|H]; discriminate H|];
      intros env' Hl'; cbn [_dem_dataset _dem_transformer]; rewrite Hl'; reflexivity
    | | | ];
    (destruct (dem_exists env) eqn:He; cbn [negb];
       [|right; split; [reflexivity|];
         split; [first [left; reflexivity|right; reflexivity]|];
         left; repeat split; reflexivity]);
    (destruct (dem_open env) as [e0|d0] eqn:Ho;
       [right; split; [reflexivity|];
        split; [first [left; reflexivity|right; reflexivity]|];
        right; left; repeat split; reflexivity|]);
    (destruct (dem_has_crs env) eqn:Hcrs; cbn [negb];
       [|right; split; [reflexivity|];
         split; [first [left; reflexivity|right; reflexivity]|];
         right; right; left;
         split; [reflexivity|]; split; [exists d0; reflexivity|];
         split; [reflexivity|]; split; reflexivity]);
    (destruct (dem_from_crs env) as [e1|t1] eqn:Ht;
       [ right; split; [reflexivity|];
         split; [first [left; reflexivity|right; reflexivity]|];
         right; right; right;
         split; [reflexivity|]; split; [reflexivity|]; split; [reflexivity|];
         exists d0; split; [reflexivity|]; split; [reflexivity|];
         intros Hnone env' Hl' He'; try discriminate Hnone;
         cbn [_dem_dataset _dem_transformer]; rewrite Hl', He';
         eexists; reflexivity
       | split; [reflexivity|]; split; [reflexivity|];
         split; [intros d' t' H1 H2; discriminate|];
         split; [intros _; repeat split; reflexivity|];
         intros env' Hl'; cbn [_dem_dataset _dem_transformer]; rewrite Hl';
         reflexivity ]).
Qed.

(** X7.  [sample_elevation] raises only when [_get_dem] does and leaves
    the cache as [_get_dem] does.  An elevation it returns is the first
    value sampled at the point, finite and different from the raster's
    nodata value; in every other case (nothing sampled, a value that is
    not a number, NaN, an infinity, nodata) it returns [None]. *)
Theorem sample_elevation_valid (env : install) (lat lon : Q) (cache : globals) :
  (sample_elevation env lat lon cache).2 = (_get_dem env cache).2
  ∧ match (sample_elevation env lat lon cache).1 with
    | inl e => (_get_dem env cache).1 = inl e
    | inr res =>
        ∃ h, (_get_dem env cache).1 = inr h
          ∧ ∀ q, res = Some q
                 ↔ ∃ rest,
                     sample (ds h) (transform h lon lat).1 (transform h lon lat).2
                     = Some (Fin q) :: rest
                     ∧ ∀ nd, nodata (ds h) = Some (Fin nd) → ¬ (q == nd)%Q
    end.
Proof.
  unfold sample_elevation.
  destruct (_get_dem env cache) as [[e|h] cache']; simpl; [split; reflexivity|].
  destruct (transform h lon lat) as [x y] eqn:Et. simpl. split; [reflexivity|].
  exists h. split; [reflexivity|]. rewrite Et. simpl.
  intros q. unfold _sample_single.
  destruct (sample (ds h) x y) as [|[v|] rest].
  - split; [discriminate|]. intros (r & H & _). discriminate H.
  - destruct v as [q'| |].
    + unfold is_nodata, feq. destruct (nodata (ds h)) as [[nd| |]|]; cbv beta iota.
      * destruct (Qeq_bool q' nd) eqn:E.
        -- split; [discriminate|]. intros (r & [= -> ->] & H).
           exfalso. apply (H nd eq_refl). apply Qeq_bool_iff. exact E.
        -- split.
           ++ intros [= ->]. exists rest. split; [reflexivity|].
              intros nd' [= <-] Heq. apply Qeq_bool_iff in Heq. congruence.
           ++ intros (r & [= -> ->] & _). reflexivity.
      * split.
        -- intros [= ->]. exists rest. split; [reflexivity|]. intros nd' [=].
        -- intros (r & [= -> ->] & _). reflexivity.
      * split.
        -- intros [= ->]. exists rest. split; [reflexivity|]. intros nd' [=].
        -- intros (r & [= -> ->] & _). reflexivity.
      * split.
        -- intros [= ->]. exists rest. split; [reflexivity|]. intros nd' [=].
        -- intros (r & [= -> ->] & _). reflexivity.
    + split; [discriminate|]. intros (r & H & _); discriminate H.
    + split; [discriminate|]. intros (r & H & _); discriminate H.
  - split; [discriminate|]. intros (r & H & _); discriminate H.
Qed.

Lemma in_window_grows (d : dataset) (row col half half' r c : Z) :
  half ≤ half' → in_window d row col half r c → in_window d row col half' r c.
Proof. unfold in_window. lia. Qed.

(** X8.  A wider window never gives a smaller relief: when the relief is
    defined for a half-size it is defined for every larger one and is at
    least as large.  With half-size 0 the window is the pixel itself, and
    the relief of a valid pixel inside the raster is 0. *)
Theorem relief_grows_with_window (d : dataset) (row col half half' : Z) :
  (half ≤ half' → ∀ x, relief_at d row col half = Some x →
     ∃ x', relief_at d row col half' = Some x' ∧ (x <= x')%Q)
  ∧ (∀ q, inside d row col → valid_pixel d row col q →
       ∃ x, relief_at d row col 0 = Some x ∧ (x == 0)%Q).
Proof.
  split.
  - intros Hle x Hx.
    pose proof (relief_at_cases d row col half) as H. rewrite Hx in H.
    destruct H as (Hin & center & m & rm & cm & Hc & Hcw & Hw & Hm & Hmin & Heq & Hpos).
    pose proof (relief_at_cases d row col half') as H'.
    destruct (relief_at d row col half') as [x'|].
    + destruct H' as (_ & center' & m' & rm' & cm' & Hc' & _ & Hw' & Hm' & Hmin' & Heq' & _).
      exists x'. split; [reflexivity|].
      rewrite (valid_pixel_unique _ _ _ _ _ Hc' Hc) in Heq'.
      pose proof (Hmin' rm cm m (in_window_grows _ _ _ _ _ _ _ Hle Hw) Hm).
      lra.
    + exfalso. destruct H' as [H'|[H'|H']].
      * contradiction.
      * apply (H' center Hc).
      * apply (H' rm cm m (in_window_grows _ _ _ _ _ _ _ Hle Hw) Hm).
  - intros q Hin Hq.
    pose proof (relief_at_cases d row col 0) as H.
    destruct (relief_at d row col 0) as [x|].
    + destruct H as (_ & center & m & rm & cm & Hc & _ & Hw & Hm & _ & Heq & _).
      exists x. split; [reflexivity|].
      assert (rm = row ∧ cm = col) as [-> ->] by (unfold in_window in Hw; lia).
      rewrite (valid_pixel_unique _ _ _ _ _ Hm Hc) in Heq. lra.
    + exfalso. destruct H as [H|[H|H]].
      * contradiction.
      * apply (H q Hq).
      * apply (H row col q); [|exact Hq]. unfold in_window, inside in *. lia.
Qed.

End raster.

Lemma get_dem_caches_witness :
  ∃ h : dem_utils.handle,
    dem_utils._get_dem
      (dem_utils.mk_install true "dem.tif" true
         (inr (dem_utils.mk_dataset 1 1 None (λ _ _, dem_utils.Fin 7)
                 (λ _ _, (0, 0)) (λ _ _, [])))
         true (inr (λ lon lat, (lon, lat))))
      (dem_utils.mk_globals None None)
    = (inr h,
       dem_utils.mk_globals (Some (dem_utils.ds h)) (Some (dem_utils.transform h)))
    ∧ dem_utils._get_dem
        (dem_utils.mk_install true "dem.tif" false
           (inl (Py.OtherError "RasterioIOError")) false
           (inl (Py.OtherError "CRSError")))
        (dem_utils.mk_globals (Some (dem_utils.ds h)) (Some (dem_utils.transform h)))
      = (inr h,
         dem_utils.mk_globals (Some (dem_utils.ds h)) (Some (dem_utils.transform h))).
Proof.
  pose proof (get_dem_caches
    (dem_utils.mk_install true "dem.tif" true
       (inr (dem_utils.mk_dataset 1 1 None (λ _ _, dem_utils.Fin 7)
               (λ _ _, (0, 0)) (λ _ _, [])))
       true (inr (λ lon lat, (lon, lat))))
    (dem_utils.mk_globals None None)) as H.
  cbn in H. destruct H as (_ & _ & _ & _ & Hnext).
  exists (dem_utils.mk_handle
            (dem_utils.mk_dataset 1 1 None (λ _ _, dem_utils.Fin 7)
               (λ _ _, (0, 0)) (λ _ _, []))
            (λ lon lat, (lon, lat))).
  split; [reflexivity|]. apply Hnext. reflexivity.
Defined.

Lemma sample_elevation_valid_witness :
  (dem_utils.sample_elevation
     (dem_utils.mk_install true "dem.tif" true
        (inr (dem_utils.mk_dataset 1 1 (Some (dem_utils.Fin (- 9999)))
                (λ _ _, dem_utils.Fin 12) (λ _ _, (0, 0))
                (λ _ _, [Some (dem_utils.Fin 12)])))
        true (inr (λ lon lat, (lon, lat))))
     21 105 (dem_utils.mk_globals None None)).1
  = inr (Some 12%Q).
Proof.
  pose proof (sample_elevation_valid
    (dem_utils.mk_install true "dem.tif" true
       (inr (dem_utils.mk_dataset 1 1 (Some (dem_utils.Fin (- 9999)))
               (λ _ _, dem_utils.Fin 12) (λ _ _, (0, 0))
               (λ _ _, [Some (dem_utils.Fin 12)])))
       true (inr (λ lon lat, (lon, lat))))
    21 105 (dem_utils.mk_globals None None)) as [_ H].
  match goal with |- ?x = _ => destruct x as [e|res] end.
  - cbn in H. discriminate H.
  - destruct H as (h & Hh & Hq). cbn in Hh. injection Hh as <-. f_equal.
    apply Hq. exists []. split; [reflexivity|].
    intros nd [= <-]. intros Heq. vm_compute in Heq. discriminate Heq.
Defined.

Lemma relief_grows_with_window_witness :
  ∃ x x' : Q,
    dem_utils.relief_at
      (dem_utils.mk_dataset 3 3 (Some (dem_utils.Fin (- 9999)))
         (λ r c, if (r =? 1) && (c =? 1) then dem_utils.Fin 12
                 else if r =? 0 then dem_utils.Fin (- 9999)
                 else dem_utils.Fin 10.5)
         (λ x y, (Qfloor y, Qfloor x)) (λ _ _, []))
      1 1 0 = Some x
    ∧ dem_utils.relief_at
        (dem_utils.mk_dataset 3 3 (Some (dem_utils.Fin (- 9999)))
           (λ r c, if (r =? 1) && (c =? 1) then dem_utils.Fin 12
                   else if r =? 0 then dem_utils.Fin (- 9999)
                   else dem_utils.Fin 10.5)
           (λ x y, (Qfloor y, Qfloor x)) (λ _ _, []))
        1 1 1 = Some x'
    ∧ (x <= x')%Q.
Proof.
  set (d := dem_utils.mk_dataset 3 3 (Some (dem_utils.Fin (- 9999)))
         (λ r c, if (r =? 1) && (c =? 1) then dem_utils.Fin 12
                 else if r =? 0 then dem_utils.Fin (- 9999)
                 else dem_utils.Fin 10.5)
         (λ x y, (Qfloor y, Qfloor x)) (λ _ _, [])).
  destruct (relief_grows_with_window d 1 1 0 1) as [H1 _].
  assert (E : ∃ x, dem_utils.relief_at d 1 1 0 = Some x)
    by (eexists; vm_compute; reflexivity).
  destruct E as [x E]. destruct (H1 ltac:(lia) x E) as (x' & E' & Hle).
  exists x, x'. split; [exact E|]. split; [exact E'|exact Hle].
Defined.

(** ** Terrain features and the rows of the flood view *)

Section terrain_features.

Import views_flood Spec.
Local Open Scope Q_scope.

Variable S : Type.
Variable sample_elevation : Q → Q → S → Py.result (option Q) * S.
Variable sample_relief_local : Q → Q → Z → S → Py.result (option Q) * S.

Lemma py_abs_nonneg (x : Q) : 0 <= Py.abs x.
Proof. unfold Py.abs. destruct (Qltb_spec x 0); lra. Qed.

Lemma foldl_max_upper (xs : list Q) (x : Q) :
  x <= foldl Py.max x xs
  ∧ Forall (λ y, y <= foldl Py.max x xs) xs.
Proof.
  revert x. induction xs as [|y xs IH]; intros x; simpl.
  - split; [lra|constructor].
  - destruct (IH (Py.max x y)) as [H1 H2].
    destruct (py_max_spec x y) as [[Hlt E]|[Hle E]]; rewrite E in *.
    + split; [lra|]. constructor; [exact H1|exact H2].
    + split; [exact H1|]. constructor; [lra|exact H2].
Qed.

Lemma max_list_upper (xs : list Q) (s : Q) :
  Py.max_list xs = Some s → Forall (λ y, y <= s) xs.
Proof.
  destruct xs as [|x xs]; [discriminate|]. simpl. intros [= <-].
  destruct (foldl_max_upper xs x) as [H1 H2]. constructor; assumption.
Qed.

Lemma diffs_nonneg (elev : Q) (around : list (option Q)) :
  Forall (λ y, 0 <= y) (diffs_of elev around).
Proof.
  unfold diffs_of. induction around as [|[v|] around IH]; simpl.
  - constructor.
  - constructor; [apply py_abs_nonneg|exact IH].
  - exact IH.
Qed.

Lemma slope_nonneg (elev : Q) (around : list (option Q)) (s : Q) :
  Py.max_list (diffs_of elev around) = Some s → 0 <= s.
Proof.
  intros H. pose proof (diffs_nonneg elev around) as Hn.
  pose proof (max_list_upper _ _ H) as Hu.
  destruct (diffs_of elev around) as [|x xs]; [discriminate|].
  inversion Hn; subst. inversion Hu; subst. lra.
Qed.

(** X9.  The terrain triple [(elevation, relief, slope)] that
    [_try_sample_dem] returns never has a slope without an elevation, and a
    slope is never negative.  When the centre has no elevation (and nothing
    raised) the relief is returned as sampled and no offset point is
    sampled: the state is the one the relief sample left. *)
Theorem try_sample_dem_slope (lat lon : Q) (st : S) :
  let out := _try_sample_dem S sample_elevation sample_relief_local lat lon st in
  (out.1.1.1 = None → out.1.2 = None)
  ∧ (∀ s, out.1.2 = Some s → 0 <= s ∧ is_Some out.1.1.1)
  ∧ (∀ st1 st2 relief,
       sample_elevation lat lon st = (inr None, st1) →
       sample_relief_local lat lon 15 st1 = (inr relief, st2) →
       out = ((None, relief, None), st2)).
Proof.
  unfold _try_sample_dem, try_body, and_then. cbv zeta.
  split; [|split].
  - destruct (sample_elevation lat lon st) as [[e|[elev|]] st1]; simpl; try reflexivity.
    + destruct (sample_relief_local lat lon 15 st1) as [[e|relief] st2]; simpl; try reflexivity.
      destruct (sample_elevation (lat + 0.01) lon st2) as [[e|e_n] st3]; simpl; try reflexivity.
      destruct (sample_elevation (lat - 0.01) lon st3) as [[e|e_s] st4]; simpl; try reflexivity.
      destruct (sample_elevation lat (lon + 0.01) st4) as [[e|e_e] st5]; simpl; try reflexivity.
      destruct (sample_elevation lat (lon - 0.01) st5) as [[e|e_w] st6]; simpl; try reflexivity.
      discriminate.
    + destruct (sample_relief_local lat lon 15 st1) as [[e|relief] st2]; simpl; reflexivity.
  - intros s.
    destruct (sample_elevation lat lon st) as [[e|[elev|]] st1]; simpl; try discriminate.
    + destruct (sample_relief_local lat lon 15 st1) as [[e|relief] st2]; simpl; try discriminate.
      destruct (sample_elevation (lat + 0.01) lon st2) as [[e|e_n] st3]; simpl; try discriminate.
      destruct (sample_elevation (lat - 0.01) lon st3) as [[e|e_s] st4]; simpl; try discriminate.
      destruct (sample_elevation lat (lon + 0.01) st4) as [[e|e_e] st5]; simpl; try discriminate.
      destruct (sample_elevation lat (lon - 0.01) st5) as [[e|e_w] st6]; simpl; try discriminate.
      intros H. split; [|eexists; reflexivity].
      apply (slope_nonneg elev [e_n; e_s; e_e; e_w]). exact H.
    + destruct (sample_relief_local lat lon 15 st1) as [[e|relief] st2]; simpl; discriminate.
  - intros st1 st2 relief H1 H2. rewrite H1. simpl. rewrite H2. reflexivity.
Qed.

End terrain_features.

Lemma try_sample_dem_slope_witness :
  (∃ s : Q,
     (views_flood._try_sample_dem unit
        (λ lat lon st, (inr (Some (2 * lat)%Q), st))
        (λ lat lon half st, (inr (Some 1.5%Q), st))
        21 105 tt).1.2 = Some s
     ∧ (0 <= s)%Q)
  ∧ views_flood._try_sample_dem unit
      (λ lat lon st, (inr None, st))
      (λ lat lon half st, (inr (Some 1.5%Q), st))
      21 105 tt
    = ((None, Some 1.5%Q, None), tt).
Proof.
  split.
  - destruct (try_sample_dem_slope unit
                (λ lat lon st, (inr (Some (2 * lat)%Q), st))
                (λ lat lon half st, (inr (Some 1.5%Q), st))
                21%Q 105%Q tt) as (_ & H2 & _).
    assert (E : ∃ s : Q,
      (views_flood._try_sample_dem unit
         (λ lat lon st, (inr (Some (2 * lat)%Q), st))
         (λ lat lon half st, (inr (Some 1.5%Q), st))
         21 105 tt).1.2 = Some s)
      by (eexists; vm_compute; reflexivity).
    destruct E as [s E]. exists s. split; [exact E|]. apply (H2 s E).
  - destruct (try_sample_dem_slope unit
                (λ lat lon st, (inr None, st))
                (λ lat lon half st, (inr (Some 1.5%Q), st))
                21%Q 105%Q tt) as (_ & _ & H3).
    apply (H3 tt tt (Some 1.5%Q)); reflexivity.
Defined.

Section flood_rows.

Import views_flood Spec.

Variable S : Type.
Variable sample_elevation : Q → Q → S → Py.result (option Q) * S.
Variable sample_relief_local : Q → Q → Z → S → Py.result (option Q) * S.

Lemma risk_of_row_fields (r : agg_row) (st : S) :
  ∃ (out : risk) (st' : S),
    views_flood.risk_of_row S sample_elevation sample_relief_local r st = (Some out, st')
    ∧ row_echoed r out.
Proof.
  unfold views_flood.risk_of_row.
  destruct (views_flood._try_sample_dem S sample_elevation sample_relief_local (lat r) (lon r) st)
    as [[[elev_m relief_local_m] slope_like_m] st'].
  match goal with
  | |- context [_combined_risk_score ?a ?b ?c ?d] =>
      destruct (combined_risk_score_defined a b c d)
        as (score & lvl & Hrun & _ & Hrange & Hlvl)
  end.
  rewrite Hrun. cbv beta iota delta [mbind option_bind]. rewrite Hlvl.
  eexists. eexists. split; [reflexivity|].
  unfold row_echoed.
  cbv beta iota delta [out_location_id out_lat out_lon out_valid_at out_rain_1h_mm
                       out_rain_3h_mm eff_rain_1h_mm eff_rain_3h_mm risk_score risk_level].
  do 6 (split; [reflexivity|]).
  split.
  { unfold _effective_rain_1h. destruct (py_max_spec 0 (_safe_float (Py.ANum (_safe_float (rain_1h_mm r) 0)) 0))
      as [[? ->]|[? ->]]; lra. }
  split.
  { apply (effective_rain_monotone _ _ Py.ANone). }
  split; [exact Hrange|]. exact Hlvl.
Qed.

(** X10.  [flood_risk_latest] answers with one record per row of the
    query, in the order of the rows.  Each record carries the id, the
    position and the time of its row and the two raw sums (an absent sum
    as 0); its effective amounts satisfy [0 <= eff_1h <= eff_3h]; its score
    is in 0..4 and its level is the entry of [RISK_LEVELS] at the score. *)
Theorem flood_risk_rows_echo (rows : list agg_row) (st : S) :
  ∃ (outs : list risk) (st' : S),
    views_flood.flood_risk_rows S sample_elevation sample_relief_local rows st
    = (Some outs, st')
    ∧ Forall2 row_echoed rows outs.
Proof.
  revert st. induction rows as [|r rows IH]; intros st;
    cbn [views_flood.flood_risk_rows].
  - exists [], st. split; [reflexivity|constructor].
  - destruct (risk_of_row_fields r st) as (out & st1 & Hrow & Hecho).
    rewrite Hrow. destruct (IH st1) as (outs & st2 & Hrest & Hall).
    rewrite Hrest. exists (out :: outs), st2.
    split; [reflexivity|]. constructor; assumption.
Qed.

End flood_rows.

(** ** Hazards and the alert bundle *)

Section wind_ladder.

Import views_alerts Spec.

(** X11.  The wind ladder, on the speed in km/h as the code computes it in
    binary64 (the rounded product [wind_ms * 3.6]): no hazard without a
    wind speed or below 20 km/h, an info hazard from 20 to below 30, a
    watch hazard from 30 to below 50, a warning hazard from 50 on. *)
Theorem wind_hazard_tiers (fmt0 : float → string) (w : float) :
  let wind_kmh := (w * 3.6)%float in
  let hz := binary64._build_wind_hazard fmt0 (Some w) in
  binary64._build_wind_hazard fmt0 None = None
  ∧ (flt wind_kmh 20 → hz = None)
  ∧ (fle 20 wind_kmh → flt wind_kmh 30 → is_hazard hz "strong_wind" "info" 1)
  ∧ (fle 30 wind_kmh → flt wind_kmh 50 → is_hazard hz "strong_wind" "watch" 2)
  ∧ (fle 50 wind_kmh → is_hazard hz "strong_wind" "warning" 3).
Proof.
  intros wind_kmh hz. subst hz.
  destruct scale_levels as (Hi & Hw & Hwa & Hd).
  unfold is_hazard, binary64._build_wind_hazard. fold wind_kmh. clearbody wind_kmh.
  split; [reflexivity|].
  split; [intros H; unfold flt in H; rewrite H; reflexivity|].
  split; [|split].
  - intros H1 H2. rewrite (fle_not_flt _ _ H1). unfold flt in H2. rewrite H2.
    rewrite make_hazard_on_scale by assumption. eexists; repeat split.
  - intros H1 H2.
    assert (E : PrimFloat.ltb wind_kmh 20 = false) by float_tier.
    rewrite E, (fle_not_flt _ _ H1). unfold flt in H2. rewrite H2.
    rewrite make_hazard_on_scale by assumption. eexists; repeat split.
  - intros H1.
    assert (E1 : PrimFloat.ltb wind_kmh 20 = false) by float_tier.
    assert (E2 : PrimFloat.ltb wind_kmh 30 = false) by float_tier.
    rewrite E1, E2, (fle_not_flt _ _ H1).
    rewrite make_hazard_on_scale by assumption. eexists; repeat split.
Qed.

End wind_ladder.

Lemma wind_hazard_tiers_witness :
  (5.555555555555555 * 3.6)%float = 20%float
  ∧ Spec.is_hazard
      (binary64._build_wind_hazard (λ _, "20"%string) (Some 5.555555555555555%float))
      "strong_wind" "info" 1.
Proof.
  split; [reflexivity|].
  destruct (wind_hazard_tiers (λ _, "20"%string) 5.555555555555555%float)
    as (_ & _ & Hinfo & _).
  apply Hinfo; vm_compute; reflexivity.
Defined.


Section hazards.

Import views_alerts Spec.
Local Open Scope Q_scope.

(** The four levels a builder uses, with the scores that go with them. *)
Lemma built_hazard_graded (t lv : string) (s : Z) (hl d : string) (a : list string) :
  (lv = "info"%string ∧ s = 1%Z) ∨ (lv = "watch"%string ∧ s = 2%Z)
  ∨ (lv = "warning"%string ∧ s = 3%Z) ∨ (lv = "danger"%string ∧ s = 4%Z) →
  hazard_graded (_make_hazard t lv s hl d a).
Proof.
  destruct scale_levels as (Hi & Hw & Hwa & Hd). unfold hazard_graded.
  intros [[-> ->]|[[-> ->]|[[-> ->]|[-> ->]]]];
    rewrite make_hazard_on_scale by assumption; unfold _rank; simpl;
    rewrite level_rank_lookup; simpl;
    (split; [lia|split; [reflexivity|discriminate]]).
Qed.

Lemma rain_hazard_graded (fmt1 : Q → string) (rain_1h rain_3h rain_6h : option Q) (precip_now : Py.arg)
    (h : hazard) :
  _build_rain_hazard fmt1 rain_1h rain_3h rain_6h precip_now = Some h →
  hazard_graded h ∧ h_type h = "rain"%string.
Proof.
  intros H. unfold _build_rain_hazard in H.
  destruct (match precip_now with
            | Py.ANum p => Py.Qgeb p 0.1 && Py.Qltb (rain_eff rain_1h rain_3h rain_6h) 0.5
            | _ => false
            end).
  - injection H as <-. split; [apply built_hazard_graded; tauto|reflexivity].
  - revert H. py_cases; intros [= <-];
      (split; [apply built_hazard_graded; tauto|reflexivity]).
Qed.

Lemma heat_cold_hazard_graded (pow016 : Q → Q) (fmt1 : Q → string)
    (temp_c wind_ms cloudcover rel_humidity : option Q)
    (h : hazard) :
  _build_heat_cold_hazard pow016 fmt1 temp_c wind_ms cloudcover rel_humidity = Some h →
  hazard_graded h ∧ (h_type h = "cold"%string ∨ h_type h = "heat"%string).
Proof.
  intros H. unfold _build_heat_cold_hazard in H. destruct temp_c as [T|]; [|discriminate].
  revert H. py_cases; destruct cloudcover as [c|]; py_cases;
    intros [= <-]; (split; [apply built_hazard_graded; tauto|]);
    first [left; reflexivity|right; reflexivity].
Qed.

Lemma wind_hazard_graded (fmt0 : Q → string) (wind_ms : option Q) (h : hazard) :
  _build_wind_hazard fmt0 wind_ms = Some h →
  hazard_graded h ∧ h_type h = "strong_wind"%string.
Proof.
  intros H. unfold _build_wind_hazard in H. destruct wind_ms as [w|]; [|discriminate].
  revert H. py_cases; intros [= <-];
    (split; [apply built_hazard_graded; tauto|reflexivity]).
Qed.

(** X12.  Every hazard the three builders return is graded: its level is
    one of info, watch, warning and danger (never "none"), and its score is
    the rank of that level, 1 to 4.  The rain builder returns hazards of
    type "rain", the temperature builder of type "cold" or "heat", the
    wind builder of type "strong_wind". *)
Theorem built_hazards_graded (pow016 : Q → Q) (fmt1 fmt0 : Q → string)
    (temp_c wind_ms cloudcover rel_humidity : option Q)
    (rain_1h rain_3h rain_6h : option Q) (precip_now : Py.arg) (h : hazard) :
  (_build_rain_hazard fmt1 rain_1h rain_3h rain_6h precip_now = Some h →
     hazard_graded h ∧ h_type h = "rain"%string)
  ∧ (_build_heat_cold_hazard pow016 fmt1 temp_c wind_ms cloudcover rel_humidity = Some h →
       hazard_graded h ∧ (h_type h = "cold"%string ∨ h_type h = "heat"%string))
  ∧ (_build_wind_hazard fmt0 wind_ms = Some h →
       hazard_graded h ∧ h_type h = "strong_wind"%string).
Proof.
  split; [|split].
  - apply rain_hazard_graded.
  - apply heat_cold_hazard_graded.
  - apply wind_hazard_graded.
Qed.

End hazards.

Lemma built_hazards_graded_witness :
  ∃ h : views_alerts.hazard,
    views_alerts._build_wind_hazard (λ _, ""%string) (Some 10%Q) = Some h
    ∧ Spec.hazard_graded h
    ∧ views_alerts.h_type h = "strong_wind"%string.
Proof.
  assert (E : ∃ h, views_alerts._build_wind_hazard (λ _, ""%string) (Some 10%Q) = Some h)
    by (eexists; vm_compute; reflexivity).
  destruct E as [h E]. exists h. split; [exact E|].
  destruct (built_hazards_graded (λ x, x) (λ _, ""%string) (λ _, ""%string)
              None (Some 10%Q) None None None None None Py.ANone h) as (_ & _ & H).
  exact (H E).
Defined.

Section bundle.

Import views_alerts Spec.
Local Open Scope Z_scope.

(** The level of a non-empty list, by its rank. *)
Lemma calc_overall_rank (h0 : hazard) (rest : list hazard) :
  ∃ lvl comment : string,
    _calc_overall_level_and_comment (h0 :: rest) = Some (lvl, comment)
    ∧ _LEVEL_RANK !! lvl = Some (Z.min 4 (max_rank (h0 :: rest) + bump (h0 :: rest))).
Proof.
  unfold _calc_overall_level_and_comment.
  pose proof (max_from_spec rest h0 0%nat 1%nat) as Hmax.
  destruct (max_from h0 0%nat 1%nat rest) as [main mi].
  destruct Hmax as (Hin & Hle & Hall).
  rewrite watch_rank_is_2.
  pose proof (rank_range main) as Hr.
  assert (Hmr : max_rank (h0 :: rest) = _rank main).
  { apply max_rank_bound.
    - destruct Hin as [->|Hin]; [left|right; exact Hin].
    - constructor; [exact Hle|exact Hall]. }
  set (hs := h0 :: rest) in *.
  set (r := if (2 <=? Z.of_nat (length (filter (λ h, 2 ≤ _rank h) hs)))
               && (_rank main <? Z.of_nat (length _LEVEL_ORDER) - 1)
            then _rank main + 1 else _rank main).
  assert (Hb01 : 0 ≤ bump hs ≤ 1).
  { unfold bump. destruct (2 <=? watch_or_more hs); lia. }
  assert (Hreq : r = Z.min 4 (max_rank hs + bump hs)).
  { rewrite Hmr. unfold r, bump, watch_or_more.
    change (Z.of_nat (length _LEVEL_ORDER) - 1) with 4.
    destruct (Z.leb_spec 2 (Z.of_nat (length (filter (λ h, 2 ≤ _rank h) hs))));
      destruct (Z.ltb_spec (_rank main) 4); simpl; lia. }
  destruct (level_order_rank r) as (lv & Hlv & Hrk); [lia|].
  rewrite Hlv. cbv beta iota delta [mbind option_bind]. exists lv. eexists.
  split; [reflexivity|].
  rewrite <- Hreq. exact Hrk.
Qed.

Lemma max_rank_upper (hs : list hazard) :
  0 ≤ max_rank hs ≤ 4 ∧ Forall (λ h, _rank h ≤ max_rank hs) hs.
Proof.
  unfold max_rank. induction hs as [|h hs [IH1 IH2]]; simpl.
  - split; [lia|constructor].
  - pose proof (rank_range h). split; [lia|].
    constructor; [lia|]. eapply Forall_impl; [exact IH2|]. simpl. intros; lia.
Qed.

Lemma max_rank_perm (hs hs' : list hazard) : hs ≡ₚ hs' → max_rank hs = max_rank hs'.
Proof.
  unfold max_rank. induction 1 as [|x l l' _ IH|x y l|l l' l'' _ IH1 _ IH2]; simpl; lia.
Qed.

Lemma watch_or_more_perm (hs hs' : list hazard) :
  hs ≡ₚ hs' → watch_or_more hs = watch_or_more hs'.
Proof.
  intros H. unfold watch_or_more. f_equal. apply Permutation_length.
  apply filter_Permutation. exact H.
Qed.

(** X14.  The overall level does not depend on the order of the hazards:
    two lists with the same hazards in another order get the same level
    (the comment may differ, as it names the first hazard of greatest
    rank). *)
Theorem overall_level_order_independent (hs hs' : list hazard) :
  hs ≡ₚ hs' →
  fst <$> _calc_overall_level_and_comment hs
  = fst <$> _calc_overall_level_and_comment hs'.
Proof.
  intros Hp. destruct hs as [|h0 rest].
  - apply Permutation_nil_l in Hp. subst hs'. reflexivity.
  - destruct hs' as [|h0' rest'].
    { apply Permutation_nil_r in Hp. discriminate. }
    destruct (calc_overall_rank h0 rest) as (lvl & c & Hrun & Hrk).
    destruct (calc_overall_rank h0' rest') as (lvl' & c' & Hrun' & Hrk').
    rewrite Hrun, Hrun'. simpl. f_equal.
    unfold bump in *. rewrite (max_rank_perm _ _ Hp), (watch_or_more_perm _ _ Hp) in Hrk.
    exact (level_rank_inj _ _ _ Hrk Hrk').
Qed.


Lemma max_rank_cons (h : hazard) (hs : list hazard) :
  max_rank (h :: hs) = Z.max (_rank h) (max_rank hs).
Proof. reflexivity. Qed.

Lemma watch_or_more_cons (h : hazard) (hs : list hazard) :
  watch_or_more hs ≤ watch_or_more (h :: hs).
Proof.
  unfold watch_or_more. rewrite filter_cons. destruct (decide (2 ≤ _rank h)); simpl; lia.
Qed.

(** X15.  One more hazard never lowers the overall level: the rank of the
    level of [h :: hs] is at least the rank of the level of [hs], and at
    least the rank of [h]. *)
Theorem overall_level_grows (h : hazard) (hs : list hazard) :
  ∃ (lvl lvl' c c' : string) (r r' : Z),
    _calc_overall_level_and_comment hs = Some (lvl, c)
    ∧ _calc_overall_level_and_comment (h :: hs) = Some (lvl', c')
    ∧ _LEVEL_RANK !! lvl = Some r
    ∧ _LEVEL_RANK !! lvl' = Some r'
    ∧ r ≤ r' ∧ _rank h ≤ r'.
Proof.
  destruct (calc_overall_rank h hs) as (lvl' & c' & Hrun' & Hrk').
  pose proof (rank_range h) as Hh.
  assert (Hb' : 0 ≤ bump (h :: hs) ≤ 1).
  { unfold bump. destruct (2 <=? watch_or_more (h :: hs)); lia. }
  destruct hs as [|h0 rest].
  - exists "none"%string, lvl'. eexists. exists c', 0, (Z.min 4 (max_rank [h] + bump [h])).
    split; [reflexivity|]. split; [exact Hrun'|].
    split; [rewrite level_rank_lookup; reflexivity|]. split; [exact Hrk'|].
    rewrite max_rank_cons. unfold max_rank at 1. simpl foldr. lia.
  - destruct (calc_overall_rank h0 rest) as (lvl & c & Hrun & Hrk).
    exists lvl, lvl', c, c'. eexists. eexists.
    split; [exact Hrun|]. split; [exact Hrun'|]. split; [exact Hrk|]. split; [exact Hrk'|].
    pose proof (watch_or_more_cons h (h0 :: rest)) as Hw.
    destruct (max_rank_upper (h0 :: rest)) as [Hm _].
    rewrite (max_rank_cons h (h0 :: rest)).
    assert (Hb : bump (h0 :: rest) ≤ bump (h :: h0 :: rest)).
    { unfold bump. destruct (Z.leb_spec 2 (watch_or_more (h0 :: rest)));
        destruct (Z.leb_spec 2 (watch_or_more (h :: h0 :: rest))); lia. }
    assert (0 ≤ bump (h0 :: rest)) by (unfold bump; destruct (2 <=? _); lia).
    lia.
Qed.




End bundle.

Lemma overall_level_order_independent_witness :
  fst <$> views_alerts._calc_overall_level_and_comment
            [views_alerts._make_hazard "rain" "watch" 2 "Mưa vừa" "" [];
             views_alerts._make_hazard "strong_wind" "warning" 3 "Gió mạnh" "" []]
  = fst <$> views_alerts._calc_overall_level_and_comment
              [views_alerts._make_hazard "strong_wind" "warning" 3 "Gió mạnh" "" [];
               views_alerts._make_hazard "rain" "watch" 2 "Mưa vừa" "" []].
Proof.
  apply overall_level_order_independent. apply Permutation_swap.
Defined.


(** ** Coverage of the rain window and the choice of the source *)

Section coverage.

Import views_alerts Spec.
Local Open Scope Z_scope.

Lemma round_half_even_floor (x : Q) :
  Qfloor x ≤ Py.round_half_even x ≤ Qfloor x + 1.
Proof.
  unfold Py.round_half_even.
  destruct (x - inject_Z (Qfloor x) ?= 1 # 2)%Q; [destruct (Z.even _)| |]; lia.
Qed.

Lemma round_half_even_int (k : Z) : Py.round_half_even (inject_Z k) = k.
Proof.
  unfold Py.round_half_even. rewrite Qfloor_Z.
  assert (E : (inject_Z k - inject_Z k == 0)%Q) by ring.
  rewrite E. reflexivity.
Qed.

Lemma round_half_even_comp (x y : Q) :
  (x == y)%Q → Py.round_half_even x = Py.round_half_even y.
Proof.
  intros E. unfold Py.round_half_even. rewrite (Qfloor_comp x y E).
  assert (H : (x - inject_Z (Qfloor y) ?= 1 # 2)%Q = (y - inject_Z (Qfloor y) ?= 1 # 2)%Q).
  { apply Qcompare_comp; [|reflexivity]. apply Qplus_comp; [exact E|reflexivity]. }
  rewrite H. reflexivity.
Qed.

Lemma round_half_even_window (x : Q) :
  (0 <= x)%Q → (x <= 6)%Q → 0 ≤ Py.round_half_even x ≤ 6.
Proof.
  intros H0 H6. pose proof (round_half_even_floor x) as Hr.
  assert (Hf0 : 0 ≤ Qfloor x).
  { change 0 with (Qfloor 0). apply Qfloor_resp_le. exact H0. }
  assert (Hf6 : Qfloor x ≤ 6).
  { change 6 with (Qfloor 6). apply Qfloor_resp_le. exact H6. }
  split; [lia|].
  destruct (Z.eq_dec (Qfloor x) 6) as [E|]; [|lia].
  unfold Py.round_half_even. rewrite E.
  pose proof (Qfloor_le x) as Hle. rewrite E in Hle.
  change (inject_Z 6) with 6%Q in *.
  assert (H : (x - 6 ?= 1 # 2)%Q = Lt) by (apply (proj1 (Qlt_alt _ _)); lra).
  rewrite H. lia.
Qed.

(** The buckets seen after a run, from any accumulator. *)
Lemma have_hours_fold (anchor_ts : Z) (rows : list (option Z * option Q))
    (acc : rain_acc) (b : Z) :
  b ∈ have_hours (foldl (rain_step anchor_ts) acc rows)
  ↔ b ∈ have_hours acc
    ∨ ∃ t p, (Some t, p) ∈ rows
        ∧ (0 <= hours_back anchor_ts t)%Q ∧ (hours_back anchor_ts t <= 6)%Q
        ∧ Py.round_half_even (hours_back anchor_ts t) = b.
Proof.
  revert acc. induction rows as [|r rows IH]; intros acc; simpl.
  - split; [intros H; left; exact H|].
    intros [H|(t & p & Hin & _)]; [exact H|]. inversion Hin.
  - rewrite IH. clear IH. destruct r as [[t|] p]; unfold rain_step; simpl.
    + set (h := hours_back anchor_ts t).
      destruct (Qltb_spec h 0) as [Hneg|Hpos]; simpl.
      { split.
        - intros [H|(t' & p' & Hin & H)]; [left; exact H|].
          right. exists t', p'. split; [right; exact Hin|exact H].
        - intros [H|(t' & p' & Hin & H0 & H6 & Hb)]; [left; exact H|].
          apply elem_of_cons in Hin as [[= <- <-]|Hin].
          + fold h in H0. lra.
          + right. exists t', p'. auto. }
      destruct (Qgtb_spec h 6) as [Hbig|Hsmall]; simpl.
      { split.
        - intros [H|(t' & p' & Hin & H)]; [left; exact H|].
          right. exists t', p'. split; [right; exact Hin|exact H].
        - intros [H|(t' & p' & Hin & H0 & H6 & Hb)]; [left; exact H|].
          apply elem_of_cons in Hin as [[= <- <-]|Hin].
          + fold h in H6. lra.
          + right. exists t', p'. auto. }
      assert (Hhave : ∀ acc' : rain_acc,
                have_hours acc' = {[Py.round_half_even h]} ∪ have_hours acc →
                b ∈ have_hours acc'
                ∨ (∃ t' p', (Some t', p') ∈ rows
                     ∧ (0 <= hours_back anchor_ts t')%Q ∧ (hours_back anchor_ts t' <= 6)%Q
                     ∧ Py.round_half_even (hours_back anchor_ts t') = b)
                ↔ b ∈ have_hours acc
                  ∨ ∃ t' p', (Some t', p') ∈ (Some t, p) :: rows
                      ∧ (0 <= hours_back anchor_ts t')%Q ∧ (hours_back anchor_ts t' <= 6)%Q
                      ∧ Py.round_half_even (hours_back anchor_ts t') = b).
      { intros acc' ->. rewrite elem_of_union, elem_of_singleton. split.
        - intros [[->|H]|(t' & p' & Hin & H)].
          + right. exists t, p. split; [left|]. fold h. auto.
          + left. exact H.
          + right. exists t', p'. split; [right; exact Hin|exact H].
        - intros [H|(t' & p' & Hin & H0 & H6 & Hb)]; [left; right; exact H|].
          apply elem_of_cons in Hin as [[= <- <-]|Hin].
          + left. left. symmetry. exact Hb.
          + right. exists t', p'. auto. }
      destruct (Py.Qleb h 1); [|destruct (Py.Qleb h 3)]; apply Hhave; reflexivity.
    + split.
      * intros [H|(t' & p' & Hin & H)]; [left; exact H|].
        right. exists t', p'. split; [right; exact Hin|exact H].
      * intros [H|(t' & p' & Hin & H)]; [left; exact H|].
        apply elem_of_cons in Hin as [[=]|Hin]. right. exists t', p'. auto.
Qed.

Lemma buckets_size (X : gset Z) : (∀ b, b ∈ X → 0 ≤ b ≤ 6) → (size X ≤ 7)%nat.
Proof.
  intros H.
  assert (Hsub : X ⊆ list_to_set (seqZ 0 7)).
  { intros b Hb. apply elem_of_list_to_set, elem_of_seqZ. specialize (H b Hb). lia. }
  apply subseteq_size in Hsub.
  rewrite size_list_to_set in Hsub by apply NoDup_seqZ.
  rewrite length_seqZ in Hsub. exact Hsub.
Qed.

Lemma coverage_threshold_five (n : nat) :
  Py.Qgeb (inject_Z (Z.of_nat n) / 7) 0.7 = true ↔ (5 ≤ n)%nat.
Proof.
  assert (Hq : (inject_Z (Z.of_nat n) / 7 * 7 == inject_Z (Z.of_nat n))%Q) by field.
  set (q := (inject_Z (Z.of_nat n) / 7)%Q) in *.
  destruct (Qgeb_spec q 0.7) as [H|H].
  - split; [intros _|reflexivity].
    assert (Hlt : (inject_Z 4 < inject_Z (Z.of_nat n))%Q).
    { change (inject_Z 4) with 4%Q. lra. }
    rewrite <- Zlt_Qlt in Hlt. lia.
  - split; [discriminate|]. intros Hc. exfalso.
    assert (H5 : (inject_Z 5 <= inject_Z (Z.of_nat n))%Q) by (rewrite <- Zle_Qle; lia).
    change (inject_Z 5) with 5%Q in H5. lra.
Qed.

(** X16.  The coverage that [_sum_rain_in_window] reports.  The buckets
    it counts are the ages, rounded to whole hours, of the rows inside the
    window of 0 to 6 hours; they lie in 0..6, so there are at most seven
    and the ratio lies in [0, 1].  A row exactly [k] hours before the
    anchor fills bucket [k].  The ratio reaches 0.7 exactly when at least
    five different buckets are filled. *)
Theorem rain_coverage_counts_hours (rows : list (option Z * option Q)) (anchor_ts : Z) :
  let seen := have_hours (foldl (rain_step anchor_ts) rain_acc0 rows) in
  let cov := (_sum_rain_in_window rows anchor_ts).2 in
  (∀ b, b ∈ seen ↔
        ∃ t p, (Some t, p) ∈ rows
          ∧ (0 <= hours_back anchor_ts t)%Q ∧ (hours_back anchor_ts t <= 6)%Q
          ∧ Py.round_half_even (hours_back anchor_ts t) = b)
  ∧ (∀ b, b ∈ seen → 0 ≤ b ≤ 6)
  ∧ (∀ k p, 0 ≤ k ≤ 6 → (Some (anchor_ts - k * 3600), p) ∈ rows → k ∈ seen)
  ∧ (size seen ≤ 7)%nat
  ∧ (cov == inject_Z (Z.of_nat (size seen)) / 7)%Q
  ∧ (0 <= cov)%Q ∧ (cov <= 1)%Q
  ∧ (Py.Qgeb cov 0.7 = true ↔ (5 ≤ size seen)%nat).
Proof.
  cbv zeta. set (seen := have_hours (foldl (rain_step anchor_ts) rain_acc0 rows)).
  assert (Hchar : ∀ b, b ∈ seen ↔
            ∃ t p, (Some t, p) ∈ rows
              ∧ (0 <= hours_back anchor_ts t)%Q ∧ (hours_back anchor_ts t <= 6)%Q
              ∧ Py.round_half_even (hours_back anchor_ts t) = b).
  { intros b. unfold seen. rewrite have_hours_fold. simpl. split.
    - intros [H|H]; [|exact H]. apply elem_of_empty in H. contradiction.
    - intros H. right. exact H. }
  assert (Hrange : ∀ b, b ∈ seen → 0 ≤ b ≤ 6).
  { intros b Hb. apply Hchar in Hb as (t & p & _ & H0 & H6 & <-).
    apply round_half_even_window; assumption. }
  pose proof (buckets_size seen Hrange) as Hsize.
  assert (Hcov : (_sum_rain_in_window rows anchor_ts).2
                 = (inject_Z (Z.of_nat (size seen)) / 7)%Q) by reflexivity.
  rewrite Hcov. set (n := size seen) in *.
  assert (Hn : (0 <= inject_Z (Z.of_nat n))%Q).
  { change 0%Q with (inject_Z 0). rewrite <- Zle_Qle. lia. }
  assert (Hn7 : (inject_Z (Z.of_nat n) <= 7)%Q).
  { change 7%Q with (inject_Z 7). rewrite <- Zle_Qle. lia. }
  split; [exact Hchar|]. split; [exact Hrange|]. split.
  { intros k p Hk Hin. apply Hchar. exists (anchor_ts - k * 3600), p.
    assert (E : (hours_back anchor_ts (anchor_ts - k * 3600) == inject_Z k)%Q).
    { unfold hours_back. replace (anchor_ts - (anchor_ts - k * 3600)) with (k * 3600) by lia.
      rewrite inject_Z_mult. field. }
    assert (Hk0 : (0 <= inject_Z k)%Q) by (change 0%Q with (inject_Z 0); rewrite <- Zle_Qle; lia).
    assert (Hk6 : (inject_Z k <= 6)%Q) by (change 6%Q with (inject_Z 6); rewrite <- Zle_Qle; lia).
    split; [exact Hin|]. split; [lra|]. split; [lra|].
    rewrite (round_half_even_comp _ _ E). apply round_half_even_int. }
  assert (Hq : (inject_Z (Z.of_nat n) / 7 * 7 == inject_Z (Z.of_nat n))%Q) by field.
  set (q := (inject_Z (Z.of_nat n) / 7)%Q) in *.
  split; [exact Hsize|]. split; [reflexivity|].
  split; [lra|]. split; [lra|].
  apply coverage_threshold_five.
Qed.

(** The three sums of a run over non-negative readings. *)
Lemma sum_rain_nonneg_nested (rows : list (option Z * option Q)) (anchor_ts : Z) :
  readings_nonneg rows →
  let out := (_sum_rain_in_window rows anchor_ts).1 in
  (0 <= out.1.1)%Q ∧ (out.1.1 <= out.1.2)%Q ∧ (out.1.2 <= out.2)%Q.
Proof.
  intros Hnn. unfold _sum_rain_in_window. cbv zeta. simpl.
  destruct (rain_fold_sums anchor_ts rows rain_acc0) as (H1 & H3 & H6).
  simpl in H1, H3, H6.
  pose proof (precip_where_split anchor_ts 1 3 rows ltac:(lra) ltac:(lra)) as S13.
  pose proof (precip_where_split anchor_ts 3 6 rows ltac:(lra) ltac:(lra)) as S36.
  pose proof (precip_where_nonneg anchor_ts (within 1) rows Hnn).
  pose proof (precip_where_nonneg anchor_ts (aged 1 3) rows Hnn).
  pose proof (precip_where_nonneg anchor_ts (aged 3 6) rows Hnn).
  split; [lra|]. split; lra.
Qed.

(** X17.  Which source [_fetch_rain_accums] answers from, with the
    threshold 0.7 of its caller.  Without an anchor the sums are 0.  With
    one, the sums are those of the observation rows when these fill at least
    five of the seven hourly buckets, and those of the forecast rows
    otherwise (all 0 when there are none); the tests for empty row lists
    change nothing.  When no reading of either source is negative, the
    sums returned satisfy [0 <= rain_1h <= rain_3h <= rain_6h]. *)
Theorem fetch_rain_accums_policy (obs_rows fcst_rows : list (option Z * option Q))
    (anchor_ts : Z) :
  let seen := have_hours (foldl (rain_step anchor_ts) rain_acc0 obs_rows) in
  let out := _fetch_rain_accums obs_rows fcst_rows (Some anchor_ts) 0.7 in
  _fetch_rain_accums obs_rows fcst_rows None 0.7 = (0, 0, 0)%Q
  ∧ ((5 ≤ size seen)%nat → out = (_sum_rain_in_window obs_rows anchor_ts).1)
  ∧ ((size seen < 5)%nat → out = (_sum_rain_in_window fcst_rows anchor_ts).1)
  ∧ (readings_nonneg obs_rows → readings_nonneg fcst_rows →
       (0 <= out.1.1)%Q ∧ (out.1.1 <= out.1.2)%Q ∧ (out.1.2 <= out.2)%Q).
Proof.
  cbv zeta.
  assert (Hf : match fcst_rows with
               | [] => (0, 0, 0)%Q
               | _ => let '(r1, r3, r6, _) := _sum_rain_in_window fcst_rows anchor_ts in
                      (r1, r3, r6)
               end = (_sum_rain_in_window fcst_rows anchor_ts).1).
  { destruct fcst_rows; reflexivity. }
  assert (Hrun : _fetch_rain_accums obs_rows fcst_rows (Some anchor_ts) 0.7
                 = if Py.Qgeb (_sum_rain_in_window obs_rows anchor_ts).2 0.7
                   then (_sum_rain_in_window obs_rows anchor_ts).1
                   else (_sum_rain_in_window fcst_rows anchor_ts).1).
  { unfold _fetch_rain_accums. rewrite Hf. destruct obs_rows as [|r obs_rows].
    - assert (E : Py.Qgeb (_sum_rain_in_window [] anchor_ts).2 0.7 = false)
        by (vm_compute; reflexivity).
      rewrite E. reflexivity.
    - set (o := r :: obs_rows). unfold _sum_rain_in_window. cbv zeta. reflexivity. }
  rewrite Hrun. clear Hrun Hf.
  pose proof (coverage_threshold_five
                (size (have_hours (foldl (rain_step anchor_ts) rain_acc0 obs_rows)))) as Hcov.
  change (inject_Z (Z.of_nat (size (have_hours (foldl (rain_step anchor_ts) rain_acc0 obs_rows)))) / 7)%Q
    with (_sum_rain_in_window obs_rows anchor_ts).2 in Hcov.
  split; [reflexivity|]. split; [|split].
  - intros H. apply Hcov in H. rewrite H. reflexivity.
  - intros H. destruct (Py.Qgeb _ 0.7); [|reflexivity].
    pose proof (proj1 Hcov eq_refl). lia.
  - intros Ho Hfc. destruct (Py.Qgeb _ 0.7).
    + apply (sum_rain_nonneg_nested obs_rows anchor_ts Ho).
    + apply (sum_rain_nonneg_nested fcst_rows anchor_ts Hfc).
Qed.

End coverage.

Lemma rain_coverage_counts_hours_witness :
  1 ∈ views_alerts.have_hours
        (foldl (views_alerts.rain_step 1762174800) views_alerts.rain_acc0
           [(Some 1762171200, Some 2%Q)]).
Proof.
  destruct (rain_coverage_counts_hours [(Some 1762171200, Some 2%Q)] 1762174800)
    as (_ & _ & H & _).
  apply (H 1 (Some 2%Q)); [lia|]. apply list_elem_of_here.
Defined.

Lemma fetch_rain_accums_policy_witness :
  views_alerts._fetch_rain_accums
    [(Some 1762171200, Some 2%Q)] [(Some 1762171200, Some 3%Q)] (Some 1762174800) 0.7
  = (views_alerts._sum_rain_in_window [(Some 1762171200, Some 3%Q)] 1762174800).1.
Proof.
  destruct (fetch_rain_accums_policy
              [(Some 1762171200, Some 2%Q)] [(Some 1762171200, Some 3%Q)] 1762174800)
    as (_ & _ & H & _).
  apply H. vm_compute. lia.
Defined.

(** ** The maps of the merged series and the endpoint as a whole *)

Section series_maps.

Import views_obs Spec.
Local Open Scope Z_scope.

Lemma rows_fold_lookup (rows : list row) (m : gmap Z weather_rec) (t : Z) :
  foldl (λ m r, <[ r.1 := r.2 ]> m) m rows !! t
  = match last (filter (λ r : row, r.1 = t) rows) with
    | Some r => Some r.2
    | None => m !! t
    end.
Proof.
  revert m. induction rows as [|r rows IH]; intros m; simpl; [reflexivity|].
  rewrite IH. rewrite filter_cons. destruct (decide (r.1 = t)) as [E|E].
  - destruct (filter (λ r0 : row, r0.1 = t) rows) as [|r' l] eqn:Hf.
    + simpl. rewrite E, lookup_insert_eq. reflexivity.
    + rewrite last_cons_cons. destruct (last (r' :: l)) eqn:Hl; [reflexivity|].
      apply last_None in Hl. discriminate.
  - destruct (last (filter (λ r0 : row, r0.1 = t) rows)); [reflexivity|].
    apply lookup_insert_ne. exact E.
Qed.

Lemma nodup_fst_unique {A B : Type} (l : list (A * B)) (x : A) (y1 y2 : B) :
  NoDup l.*1 → (x, y1) ∈ l → (x, y2) ∈ l → y1 = y2.
Proof.
  induction l as [|[a b] l IH]; intros Hnd H1 H2; [inversion H1|].
  rewrite fmap_cons in Hnd. apply NoDup_cons in Hnd as [Hni Hnd]. simpl in Hni.
  apply elem_of_cons in H1 as [H1|H1]; apply elem_of_cons in H2 as [H2|H2].
  - congruence.
  - injection H1 as -> ->. exfalso. apply Hni. apply list_elem_of_fmap.
    exists (a, y2). split; [reflexivity|exact H2].
  - injection H2 as -> ->. exfalso. apply Hni. apply list_elem_of_fmap.
    exists (a, y1). split; [reflexivity|exact H1].
  - apply IH; assumption.
Qed.

(** X18.  The dict that [merged_timeseries] builds from the rows of a
    query holds, at each instant, the columns of the last row with that
    instant: a later row replaces an earlier one.  Its keys are the
    instants of the rows; when these are all different, the dict holds
    exactly the rows. *)
Theorem rows_to_map_last_wins (rows : list row) (t : Z) :
  rows_to_map rows !! t = snd <$> last (filter (λ r : row, r.1 = t) rows)
  ∧ (is_Some (rows_to_map rows !! t) ↔ t ∈ rows.*1)
  ∧ (NoDup rows.*1 → ∀ rec, rows_to_map rows !! t = Some rec ↔ (t, rec) ∈ rows).
Proof.
  assert (H1 : rows_to_map rows !! t = snd <$> last (filter (λ r : row, r.1 = t) rows)).
  { unfold rows_to_map. rewrite rows_fold_lookup.
    destruct (last _); [reflexivity|apply lookup_empty]. }
  split; [exact H1|]. rewrite H1. split.
  - split.
    + intros [rec Hrec]. destruct (last _) as [r|] eqn:Hl; [|discriminate].
      apply last_Some_elem_of, list_elem_of_filter in Hl as [<- Hin].
      apply list_elem_of_fmap. exists r. split; [reflexivity|exact Hin].
    + intros Hin. apply list_elem_of_fmap in Hin as (r & -> & Hin).
      assert (Hf : r ∈ filter (λ r0 : row, r0.1 = r.1) rows)
        by (apply list_elem_of_filter; split; [reflexivity|exact Hin]).
      destruct (last (filter (λ r0 : row, r0.1 = r.1) rows)) as [r'|] eqn:Hl.
      * eexists. reflexivity.
      * apply last_None in Hl. rewrite Hl in Hf. inversion Hf.
  - intros Hnd rec. split.
    + destruct (last _) as [r|] eqn:Hl; [|discriminate].
      apply last_Some_elem_of, list_elem_of_filter in Hl as [<- Hin].
      simpl. intros [= <-]. destruct r; exact Hin.
    + intros Hin.
      assert (Hf : (t, rec) ∈ filter (λ r0 : row, r0.1 = t) rows)
        by (apply list_elem_of_filter; split; [reflexivity|exact Hin]).
      destruct (last (filter (λ r0 : row, r0.1 = t) rows)) as [r'|] eqn:Hl.
      * apply last_Some_elem_of, list_elem_of_filter in Hl as [E Hin'].
        simpl. f_equal.
        assert (Heq : r' = (t, rec)).
        { destruct r' as [t' rec']. simpl in E. subst t'.
          f_equal. exact (nodup_fst_unique rows t rec' rec Hnd Hin' Hin). }
        rewrite Heq. reflexivity.
      * apply last_None in Hl. rewrite Hl in Hf. inversion Hf.
Qed.

End series_maps.

Section endpoint_axis.

Import views_obs Spec.
Local Open Scope Z_scope.

(** X19.  [merged_timeseries] as a whole.  An id that is not a UUID is
    answered with status 400, and an unknown location with
    [{"found": False}] and status 200, whatever the parameters.  Otherwise
    the answer, with status 200, carries the location found and the
    provider "ML"; its base time is the current hour (a multiple of an hour,
    at most the clock, less than an hour behind it); step [i] is at
    [base + (i - back) hours], so the step at index [back] is the base hour
    itself; and every step is merged, observation first, from the rows the
    two queries return for the range from [base - back h] to
    [base + forward h]. *)
Theorem merged_timeseries_axis (fuel : nat) (rq : request) :
  (uuid_ok rq = false →
     merged_timeseries fuel rq = Some (BadRequest "invalid location_id")
     ∧ status_code <$> merged_timeseries fuel rq = Some 400)
  ∧ (uuid_ok rq = true → loc_row rq = None →
       merged_timeseries fuel rq = Some FoundFalse
       ∧ status_code <$> merged_timeseries fuel rq = Some 200)
  ∧ (uuid_ok rq = true → (337 ≤ fuel)%nat → ∀ loc, loc_row rq = Some loc →
       ∃ body : timeseries,
         merged_timeseries fuel rq = Some (Found body)
         ∧ status_code <$> merged_timeseries fuel rq = Some 200
         ∧ ts_location body = loc
         ∧ ts_provider body = "ML"%string
         ∧ ts_base_time body `mod` HOUR = 0
         ∧ ts_base_time body ≤ now_utc rq < ts_base_time body + HOUR
         ∧ (∀ (i : nat) (s : step), ts_steps body !! i = Some s →
              s_valid_at s = ts_base_time body + (Z.of_nat i - ts_back_hours body) * HOUR)
         ∧ (∃ s : step, ts_steps body !! Z.to_nat (ts_back_hours body) = Some s
              ∧ s_valid_at s = ts_base_time body)
         ∧ Forall
             (merged_as_specified
                (rows_to_map
                   (query_obs rq (ts_base_time body - ts_back_hours body * HOUR)
                      (ts_base_time body + ts_forward_hours body * HOUR)))
                (rows_to_map
                   (query_fcst rq (ts_base_time body - ts_back_hours body * HOUR)
                      (ts_base_time body + ts_forward_hours body * HOUR))))
             (ts_steps body)).
Proof.
  split; [|split].
  - intros Hu. unfold merged_timeseries. rewrite Hu. split; reflexivity.
  - intros Hu Hl. unfold merged_timeseries. rewrite Hu, Hl. split; reflexivity.
  - intros Hu Hfuel loc Hl. unfold merged_timeseries. rewrite Hu, Hl. simpl.
    set (back := clamp_hours (hours_param (get_back rq) 48)).
    set (fwd := clamp_hours (hours_param (get_fwd rq) 96)).
    pose proof (clamp_hours_range (hours_param (get_back rq) 48)) as Hb.
    pose proof (clamp_hours_range (hours_param (get_fwd rq) 96)) as Hf.
    fold back in Hb. fold fwd in Hf.
    set (base := now_utc rq - now_utc rq `mod` HOUR).
    assert (Hn : hours_between (base - back * HOUR) (base + fwd * HOUR) = back + fwd + 1).
    { unfold hours_between, HOUR.
      replace (base + fwd * 3600 - (base - back * 3600)) with ((back + fwd) * 3600) by lia.
      rewrite Z.div_mul by lia. reflexivity. }
    set (obs_map := rows_to_map (query_obs rq (base - back * HOUR) (base + fwd * HOUR))).
    set (fcst_map := rows_to_map (query_fcst rq (base - back * HOUR) (base + fwd * HOUR))).
    unfold merge_steps. rewrite merge_loop_unfold by (rewrite Hn; lia).
    rewrite Hn. simpl. eexists. split; [reflexivity|]. split; [reflexivity|].
    cbv beta iota delta [ts_location ts_provider ts_base_time ts_steps ts_back_hours
                         ts_forward_hours].
    pose proof (Z.mod_pos_bound (now_utc rq) HOUR ltac:(unfold HOUR; lia)) as Hmod.
    split; [reflexivity|]. split; [reflexivity|].
    split.
    { unfold base. unfold HOUR in *.
      rewrite Zminus_mod, Zmod_mod, Z.sub_diag. reflexivity. }
    split; [unfold base; unfold HOUR in *; lia|].
    assert (Hstep : ∀ (i : nat) (s : step),
              ((λ k, merge_at obs_map fcst_map (base - back * HOUR + HOUR * k))
                 <$> seqZ 0 (back + fwd + 1)) !! i = Some s →
              Z.of_nat i < back + fwd + 1
              ∧ s = merge_at obs_map fcst_map (base - back * HOUR + HOUR * Z.of_nat i)).
    { intros i s. rewrite list_lookup_fmap.
      destruct (seqZ 0 (back + fwd + 1) !! i) as [k|] eqn:Hk; [|discriminate].
      apply lookup_seqZ in Hk as [-> Hk]. simpl. intros [= <-]. split; [lia|reflexivity]. }
    split.
    { intros i s Hs. apply Hstep in Hs as [_ ->]. rewrite merge_at_valid_at. unfold HOUR. lia. }
    split.
    { exists (merge_at obs_map fcst_map base). split; [|apply merge_at_valid_at].
      rewrite list_lookup_fmap.
      assert (Hk : seqZ 0 (back + fwd + 1) !! Z.to_nat back = Some (0 + Z.of_nat (Z.to_nat back)))
        by (apply lookup_seqZ; lia).
      rewrite Hk. simpl. f_equal. f_equal. unfold HOUR. lia. }
    apply Forall_fmap, Forall_forall. intros k _. simpl. apply merge_at_as_specified.
Qed.

End endpoint_axis.

Lemma rows_to_map_last_wins_witness :
  views_obs.rows_to_map
    [(0, views_obs.mk_weather_rec (Some 25.5%Q) None None None None None None);
     (3600, views_obs.mk_weather_rec (Some 26%Q) None None None None None None)]
  !! 3600
  = Some (views_obs.mk_weather_rec (Some 26%Q) None None None None None None).
Proof.
  destruct (rows_to_map_last_wins
              [(0, views_obs.mk_weather_rec (Some 25.5%Q) None None None None None None);
               (3600, views_obs.mk_weather_rec (Some 26%Q) None None None None None None)]
              3600) as (_ & _ & H).
  apply H.
  - apply NoDup_cons. split; [|apply NoDup_singleton].
    intros Hin. apply list_elem_of_singleton in Hin. discriminate Hin.
  - apply elem_of_cons. right. apply list_elem_of_here.
Defined.

Lemma merged_timeseries_axis_witness :
  views_obs.merged_timeseries 0
    (views_obs.mk_request false None (Some "24"%string) None 1762176000
       (λ _ _, []) (λ _ _, []))
  = Some (views_obs.BadRequest "invalid location_id")
  ∧ views_obs.status_code
      <$> views_obs.merged_timeseries 0
            (views_obs.mk_request true None (Some "24"%string) None 1762176000
               (λ _ _, []) (λ _ _, []))
    = Some 200
  ∧ ∃ body : views_obs.timeseries,
      views_obs.merged_timeseries 337
        (views_obs.mk_request true
           (Some (views_obs.mk_location "7b1c" "Ha Noi" 21.03%Q 105.85%Q))
           (Some "2"%string) (Some "1"%string) 1762176125
           (λ _ _, []) (λ _ _, []))
      = Some (views_obs.Found body)
      ∧ views_obs.ts_base_time body `mod` views_obs.HOUR = 0
      ∧ ∃ s : views_obs.step,
          views_obs.ts_steps body !! Z.to_nat (views_obs.ts_back_hours body) = Some s
          ∧ views_obs.s_valid_at s = views_obs.ts_base_time body.
Proof.
  split; [|split].
  - destruct (merged_timeseries_axis 0
                (views_obs.mk_request false None (Some "24"%string) None 1762176000
                   (λ _ _, []) (λ _ _, []))) as (H & _).
    apply (H eq_refl).
  - destruct (merged_timeseries_axis 0
                (views_obs.mk_request true None (Some "24"%string) None 1762176000
                   (λ _ _, []) (λ _ _, []))) as (_ & H & _).
    apply (H eq_refl eq_refl).
  - destruct (merged_timeseries_axis 337
                (views_obs.mk_request true
                   (Some (views_obs.mk_location "7b1c" "Ha Noi" 21.03%Q 105.85%Q))
                   (Some "2"%string) (Some "1"%string) 1762176125
                   (λ _ _, []) (λ _ _, []))) as (_ & _ & H).
    destruct (H eq_refl ltac:(lia) _ eq_refl)
      as (body & Hrun & _ & _ & _ & Hbase & _ & _ & Hat & _).
    exists body. split; [exact Hrun|]. split; [exact Hbase|exact Hat].
Defined.

(** ** Batches of the loader *)

Section batches.

Import fetch_openmeteo_hourly_obs.
Local Open Scope Z_scope.

Context {A : Type}.

(** Consecutive blocks of [N] elements that cover a list make it up. *)
Lemma concat_blocks (N : nat) (m : nat) (lst : list A) :
  (length lst ≤ m * N)%nat →
  concat ((λ k : nat, take N (drop (k * N) lst)) <$> seq 0 m) = lst.
Proof.
  revert lst. induction m as [|m IH]; intros lst Hlen.
  - destruct lst; [reflexivity|simpl in Hlen; lia].
  - rewrite <- cons_seq, <- fmap_S_seq, fmap_cons, <- list_fmap_compose. simpl concat.
    rewrite drop_0. transitivity (take N lst ++ drop N lst)%list; [|apply take_drop].
    f_equal.
    rewrite <- (IH (drop N lst)) by (rewrite length_drop; lia).
    f_equal. apply list_fmap_ext. intros _ k _. simpl.
    rewrite drop_drop. reflexivity.
Qed.

(** The generator for a positive size, block by block. *)
Lemma chunks_blocks (lst : list A) (n : Z) :
  0 < n →
  chunks lst n
  = inr ((λ k : nat, take (Z.to_nat n) (drop (k * Z.to_nat n) lst))
           <$> seq 0 (Z.to_nat ((Z.of_nat (length lst) + n - 1) `div` n))).
Proof.
  intros Hn. unfold chunks, range.
  replace (n =? 0) with false by lia. replace (0 <? n) with true by lia.
  simpl. f_equal. unfold seqZ. rewrite <- !list_fmap_compose.
  rewrite Z.sub_0_r. apply list_fmap_ext. intros _ k _. simpl. unfold slice.
  f_equal; [f_equal; lia|]. f_equal.
  replace (0 + (Z.of_nat k + 0) * n) with (Z.of_nat k * n) by lia.
  rewrite Z2Nat.inj_mul, Nat2Z.id by lia. reflexivity.
Qed.

(** X20.  [chunks(lst, n)] for a positive [n] cuts the list into
    consecutive pieces: joined in order they give the list back, none is
    empty or longer than [n], all but the last have exactly [n] elements,
    and there are [ceil(len(lst) / n)] of them.  For [n = 0] the generator
    raises; for a negative [n] it yields nothing, whatever the list. *)
Theorem chunks_partition (lst : list A) (n : Z) :
  (0 < n →
   ∃ cs : list (list A),
     chunks lst n = inr cs
     ∧ concat cs = lst
     ∧ Z.of_nat (length cs) = (Z.of_nat (length lst) + n - 1) `div` n
     ∧ Forall (λ c, 1 ≤ Z.of_nat (length c) ≤ n) cs
     ∧ (∀ (i : nat) (c : list A), cs !! i = Some c → (S i < length cs)%nat →
          Z.of_nat (length c) = n))
  ∧ (n = 0 → ∃ e, chunks lst n = inl e)
  ∧ (n < 0 → chunks lst n = inr []).
Proof.
  split; [|split].
  - intros Hn. rewrite (chunks_blocks lst n Hn). eexists. split; [reflexivity|].
    set (len := Z.of_nat (length lst)).
    set (c := (len + n - 1) `div` n).
    assert (Hc : n * (c - 1) < len ∧ len ≤ n * c ∧ 0 ≤ c).
    { pose proof (Z.div_mod (len + n - 1) n ltac:(lia)) as Hdm.
      pose proof (Z.mod_pos_bound (len + n - 1) n Hn) as Hmb.
      fold c in Hdm. assert (0 ≤ c) by (apply Z.div_pos; lia). nia. }
    destruct Hc as (Hc1 & Hc2 & Hc0).
    split.
    { apply concat_blocks. nia. }
    split.
    { rewrite length_fmap, length_seq. lia. }
    assert (Hblock : ∀ (i : nat) (b : list A),
              ((λ k : nat, take (Z.to_nat n) (drop (k * Z.to_nat n) lst))
                 <$> seq 0 (Z.to_nat c)) !! i = Some b →
              (i < Z.to_nat c)%nat
              ∧ Z.of_nat (length b) = Z.min n (len - Z.of_nat i * n)).
    { intros i b. rewrite list_lookup_fmap.
      destruct (seq 0 (Z.to_nat c) !! i) as [k|] eqn:Hk; [|discriminate].
      apply lookup_seq in Hk as [-> Hk]. simpl. intros [= <-]. split; [exact Hk|].
      rewrite length_take, length_drop. unfold len. nia. }
    split.
    { apply Forall_forall. intros b Hb. apply list_elem_of_lookup in Hb as [i Hi].
      apply Hblock in Hi as [Hi ->]. nia. }
    intros i b Hi Hlast. rewrite length_fmap, length_seq in Hlast.
    apply Hblock in Hi as [_ ->]. nia.
  - intros ->. unfold chunks, range. simpl. eexists. reflexivity.
  - intros Hn. unfold chunks, range.
    replace (n =? 0) with false by lia. replace (0 <? n) with false by lia.
    assert (Hcount : (0 - Z.of_nat (length lst) - n - 1) `div` (- n) ≤ 0).
    { assert ((0 - Z.of_nat (length lst) - n - 1) `div` (- n) < 1); [|lia].
      apply Z.div_lt_upper_bound; lia. }
    unfold seqZ. replace (Z.to_nat _) with 0%nat by lia. reflexivity.
Qed.

End batches.

Lemma chunks_partition_witness :
  ∃ cs : list (list Z),
    fetch_openmeteo_hourly_obs.chunks [1; 2; 3; 4; 5; 6; 7] 3 = inr cs
    ∧ concat cs = [1; 2; 3; 4; 5; 6; 7]
    ∧ Z.of_nat (length cs) = 3.
Proof.
  destruct (chunks_partition [1; 2; 3; 4; 5; 6; 7] 3) as (H & _).
  destruct (H ltac:(lia)) as (cs & Hrun & Hcat & Hlen & _).
  exists cs. split; [exact Hrun|]. split; [exact Hcat|exact Hlen].
Defined.

(** ** The rain frames *)

Section frames.

Import views_obs Spec.
Local Open Scope Z_scope.

(** The grouping loop appends the cells of each instant in row order. *)
Lemma frames_fold_lookup (rows : list frame_row) (m : gmap Z (list cell)) (t : Z) :
  default [] (foldl frames_add m rows !! t) = default [] (m !! t) ++ cells_at rows t.
Proof.
  revert m. induction rows as [|r rows IH]; intros m; simpl.
  - rewrite app_nil_r. reflexivity.
  - rewrite IH. clear IH. destruct r as [[[valid_at lat] lon] precip].
    unfold cells_at. simpl. destruct precip as [|p|]; try reflexivity.
    destruct (decide (valid_at = t)) as [->|Hne].
    + rewrite lookup_insert_eq. simpl. rewrite <- app_assoc. reflexivity.
    + rewrite lookup_insert_ne by exact Hne. reflexivity.
Qed.

(** The loop, run with enough fuel from [ts], appends the frame of every
    instant [ts + k * 1h] up to [end_utc]. *)
Lemma frames_loop_unfold (frames_map : gmap Z (list cell)) (fuel : nat)
    (ts end_utc : Z) (frames : list frame) :
  (Z.to_nat (hours_between ts end_utc) ≤ fuel)%nat →
  frames_loop fuel frames_map ts end_utc frames
  = Some (frames ++ ((λ k, mk_frame (ts + HOUR * k)
                              (default [] (frames_map !! (ts + HOUR * k))))
                       <$> seqZ 0 (hours_between ts end_utc))).
Proof.
  revert ts frames. unfold hours_between, HOUR.
  induction fuel as [|fuel IH]; intros ts frames Hfuel.
  - assert (Hn : (end_utc - ts) `div` 3600 + 1 ≤ 0) by lia.
    assert (Hlt : end_utc < ts).
    { destruct (Z_lt_le_dec end_utc ts) as [|Hle]; [lia|].
      pose proof (Z.div_pos (end_utc - ts) 3600). lia. }
    simpl. replace (ts <=? end_utc) with false by lia.
    unfold seqZ. replace (Z.to_nat _) with 0%nat by lia.
    simpl. rewrite app_nil_r. reflexivity.
  - simpl. destruct (Z.leb_spec ts end_utc) as [Hle|Hlt].
    + assert (Hdiv : (end_utc - (ts + 3600)) `div` 3600 = (end_utc - ts) `div` 3600 - 1).
      { replace (end_utc - (ts + 3600)) with ((end_utc - ts) + (-1) * 3600) by lia.
        rewrite Z.div_add by lia. lia. }
      pose proof (Z.div_pos (end_utc - ts) 3600 ltac:(lia) ltac:(lia)) as Hpos.
      unfold HOUR in *. rewrite IH; [|rewrite Hdiv; lia].
      rewrite Hdiv. set (n := (end_utc - ts) `div` 3600) in *.
      f_equal. rewrite <- app_assoc. f_equal. simpl.
      replace (n + 1) with (Z.succ n) by lia.
      rewrite (seqZ_cons 0 (Z.succ n)) by lia. rewrite fmap_cons.
      replace (ts + 3600 * 0) with ts by lia.
      f_equal.
      replace (Z.pred (Z.succ n)) with (n - 1 + 1) by lia.
      rewrite <- (fmap_add_seqZ 1 0), <- list_fmap_compose.
      apply list_fmap_ext. intros i k _. simpl.
      replace (ts + 3600 + 3600 * k) with (ts + 3600 * (1 + k)) by lia. reflexivity.
    + assert ((end_utc - ts) `div` 3600 + 1 ≤ 0).
      { pose proof (Z.div_lt_upper_bound (end_utc - ts) 3600 0). lia. }
      unfold seqZ. replace (Z.to_nat _) with 0%nat by lia.
      simpl. rewrite app_nil_r. reflexivity.
Qed.

(** X21.  [rain_frames] always answers with twelve frames (given fuel for
    twelve iterations): frame [i] is at [base + (i - 5) hours], from five
    hours before the current hour to six hours after it, so frame 5 is the
    current hour.  The cells of a frame are those of the rows of the query
    at the frame's instant whose precipitation is a number, in the order of
    the rows; a frame without such a row is there with no cells.  The
    cut to twelve frames at the end never removes one. *)
Theorem rain_frames_axis (fuel : nat) (now_utc : Z)
    (query : Z → Z → string → list frame_row) :
  (12 ≤ fuel)%nat →
  ∃ resp : frames_response,
    rain_frames fuel now_utc query = Some resp
    ∧ fr_base_utc resp `mod` HOUR = 0
    ∧ fr_base_utc resp ≤ now_utc < fr_base_utc resp + HOUR
    ∧ fr_frame_count resp = 12
    ∧ length (fr_frames resp) = 12%nat
    ∧ frames_loop fuel
        (foldl frames_add ∅
           (query (fr_base_utc resp - 5 * HOUR) (fr_base_utc resp + 6 * HOUR) "ML"%string))
        (fr_base_utc resp - 5 * HOUR) (fr_base_utc resp + 6 * HOUR) []
      = Some (fr_frames resp)
    ∧ (∀ (i : nat) (f : frame), fr_frames resp !! i = Some f →
         f_valid_at f = fr_base_utc resp + (Z.of_nat i - 5) * HOUR
         ∧ cells f
           = cells_at
               (query (fr_base_utc resp - 5 * HOUR) (fr_base_utc resp + 6 * HOUR)
                  "ML"%string)
               (f_valid_at f))
    ∧ (∃ f : frame, fr_frames resp !! 5%nat = Some f ∧ f_valid_at f = fr_base_utc resp).
Proof.
  intros Hfuel. unfold rain_frames.
  change ((PAST_FRAMES_INCL_BASE - 1) * HOUR) with (5 * HOUR).
  change (FUTURE_FRAMES * HOUR) with (6 * HOUR).
  change FCST_PROVIDER with "ML"%string.
  set (base := now_utc - now_utc `mod` HOUR).
  set (rows := query (base - 5 * HOUR) (base + 6 * HOUR) "ML"%string).
  assert (Hn : hours_between (base - 5 * HOUR) (base + 6 * HOUR) = 12).
  { unfold hours_between, HOUR.
    replace (base + 6 * 3600 - (base - 5 * 3600)) with (11 * 3600) by lia.
    rewrite Z.div_mul by lia. reflexivity. }
  rewrite frames_loop_unfold by (rewrite Hn; lia).
  rewrite Hn, app_nil_l. cbv beta iota delta [mbind option_bind].
  set (frames := (λ k, mk_frame (base - 5 * HOUR + HOUR * k)
                         (default [] (foldl frames_add ∅ rows !! (base - 5 * HOUR + HOUR * k))))
                   <$> seqZ 0 12).
  assert (Hlen : length frames = 12%nat) by (unfold frames; rewrite length_fmap; reflexivity).
  rewrite Hlen. change (negb (Z.of_nat 12 =? TOTAL_FRAMES)) with false.
  cbv beta iota. eexists. split; [reflexivity|].
  cbv beta iota delta [fr_base_utc fr_frame_count fr_frames].
  pose proof (Z.mod_pos_bound now_utc HOUR ltac:(unfold HOUR; lia)) as Hmod.
  split.
  { unfold base. unfold HOUR in *.
    rewrite Zminus_mod, Zmod_mod, Z.sub_diag. reflexivity. }
  split; [unfold base; unfold HOUR in *; lia|].
  split; [rewrite Hlen; reflexivity|]. split; [exact Hlen|].
  split.
  { rewrite frames_loop_unfold by (rewrite Hn; lia). rewrite Hn. reflexivity. }
  assert (Hframe : ∀ (i : nat) (f : frame), frames !! i = Some f →
            (i < 12)%nat
            ∧ f = mk_frame (base - 5 * HOUR + HOUR * Z.of_nat i)
                    (default [] (foldl frames_add ∅ rows
                                   !! (base - 5 * HOUR + HOUR * Z.of_nat i)))).
  { intros i f. unfold frames. rewrite list_lookup_fmap.
    destruct (seqZ 0 12 !! i) as [k|] eqn:Hk; [|discriminate].
    apply lookup_seqZ in Hk as [-> Hk]. simpl. intros [= <-]. split; [lia|reflexivity]. }
  split.
  - intros i f Hf. apply Hframe in Hf as [_ ->]. simpl. split; [unfold HOUR; lia|].
    rewrite frames_fold_lookup, lookup_empty. reflexivity.
  - eexists. split; [unfold frames; reflexivity|]. simpl. unfold HOUR. lia.
Qed.

End frames.

Lemma rain_frames_axis_witness :
  ∃ resp : views_obs.frames_response,
    views_obs.rain_frames 12 1762176125
      (λ start_utc end_utc _,
         [(start_utc, 21.03%Q, 105.85%Q, Py.ANum 1.5%Q);
          (start_utc, 10.78%Q, 106.7%Q, Py.AOther);
          (end_utc, 10.78%Q, 106.7%Q, Py.ANum 0%Q)])
    = Some resp
    ∧ views_obs.fr_frame_count resp = 12
    ∧ views_obs.fr_base_utc resp = 1762174800.
Proof.
  destruct (rain_frames_axis 12 1762176125
              (λ start_utc end_utc _,
                 [(start_utc, 21.03%Q, 105.85%Q, Py.ANum 1.5%Q);
                  (start_utc, 10.78%Q, 106.7%Q, Py.AOther);
                  (end_utc, 10.78%Q, 106.7%Q, Py.ANum 0%Q)]))
    as (resp & Hrun & _ & _ & Hcount & _); [lia|].
  exists resp. split; [exact Hrun|]. split; [exact Hcount|].
  vm_compute in Hrun. injection Hrun as <-. reflexivity.
Defined.

(** ** The texts of the summary *)

Section current_text.

Import views_alerts Spec.
Local Open Scope Q_scope.

Lemma wind_hazard_raised (fmt0 : Q → string) (w : Q) :
  is_Some (_build_wind_hazard fmt0 (Some w)) ↔ 20 <= w * 3.6.
Proof.
  unfold _build_wind_hazard. cbv zeta. destruct (Qltb_spec (w * 3.6) 20) as [H|H].
  - split; [intros [h Hh]; discriminate Hh|lra].
  - split; [intros _; exact H|]. intros _.
    destruct (Py.Qltb (w * 3.6) 30); [|destruct (Py.Qltb (w * 3.6) 50)];
      eexists; reflexivity.
Qed.

(** The three pieces, by what they can be. *)
Lemma current_pieces_cases (fmt1 : Q → string) (temp_c wind_ms : option Q)
    (precip_mm : Py.arg) :
  ∃ tp wp rp : list string,
    current_pieces fmt1 temp_c wind_ms precip_mm = (tp ++ wp ++ rp)%list
    ∧ length tp = match temp_c with Some _ => 1%nat | None => 0%nat end
    ∧ length wp = match wind_ms with Some _ => 1%nat | None => 0%nat end
    ∧ length rp = match precip_mm with Py.ANum _ => 1%nat | _ => 0%nat end
    ∧ (∀ s, s ∈ tp → ∃ rest, s = String "N" rest)
    ∧ (∀ s, s ∈ wp → ∃ rest, s = String "g" rest)
    ∧ (∀ s, s ∈ rp → s = "có mưa"%string ∨ s = "không mưa"%string)
    ∧ (∀ fmt0, "gió khá mạnh"%string ∈ wp ↔ is_Some (_build_wind_hazard fmt0 wind_ms))
    ∧ ("có mưa"%string ∈ rp ↔ ∃ p, precip_mm = Py.ANum p ∧ 0.1 <= p).
Proof.
  unfold current_pieces. cbv zeta. do 3 eexists. split; [reflexivity|].
  split; [destruct temp_c; reflexivity|]. split; [destruct wind_ms; reflexivity|].
  split; [destruct precip_mm; reflexivity|].
  split; [|split; [|split; [|split]]].
  - intros s. destruct temp_c as [t|]; [|intros H; inversion H].
    intros H. apply list_elem_of_singleton in H as ->. simpl. eexists. reflexivity.
  - intros s. destruct wind_ms as [w|]; [|intros H; inversion H].
    intros H. apply list_elem_of_singleton in H as ->.
    destruct (Py.Qltb (w * 3.6) 5); [|destruct (Py.Qltb (w * 3.6) 20)];
      eexists; reflexivity.
  - intros s. destruct precip_mm as [|p|]; try (intros H; inversion H; fail).
    intros H. apply list_elem_of_singleton in H as ->. destruct (Py.Qgeb p 0.1); auto.
  - intros fmt0. destruct wind_ms as [w|].
    + rewrite wind_hazard_raised, list_elem_of_singleton.
      destruct (Qltb_spec (w * 3.6) 5); [split; [discriminate|lra]|].
      destruct (Qltb_spec (w * 3.6) 20); [split; [discriminate|lra]|].
      split; [intros _; assumption|reflexivity].
    + split; [intros H; inversion H|intros [h Hh]; discriminate Hh].
  - destruct precip_mm as [|p|].
    + split; [intros H; inversion H|intros (p & Hp & _); discriminate Hp].
    + rewrite list_elem_of_singleton. destruct (Qgeb_spec p 0.1) as [H|H].
      * split; [intros _; exists p; auto|reflexivity].
      * split; [discriminate|]. intros (p' & [= <-] & Hp). lra.
    + split; [intros H; inversion H|intros (p & Hp & _); discriminate Hp].
Qed.

(** The comment names a fairly strong wind exactly when the wind rule
    raises a hazard. *)
Lemma strong_wind_piece (fmt1 fmt0 : Q → string) (temp_c wind_ms : option Q)
    (precip_mm : Py.arg) :
  "gió khá mạnh"%string ∈ current_pieces fmt1 temp_c wind_ms precip_mm
  ↔ is_Some (_build_wind_hazard fmt0 wind_ms).
Proof.
  destruct (current_pieces_cases fmt1 temp_c wind_ms precip_mm)
    as (tp & wp & rp & -> & _ & _ & _ & Htp & _ & Hrp & Hwp & _).
  rewrite !elem_of_app, <- (Hwp fmt0). split; [|auto].
  intros [H|[H|H]]; [|exact H|].
  - apply Htp in H as [rest H]. discriminate H.
  - apply Hrp in H as [H|H]; discriminate H.
Qed.

(** X22.  [_build_current_comment] names one piece per reading it is
    given, in the order temperature, wind, rain, and says that data is
    missing only when it is given none.  It agrees with the alert rules
    on the same snapshot: it calls the wind fairly strong exactly when
    [_build_wind_hazard] raises a hazard (from 20 km/h on), and it says
    that it rains exactly from 0.1 mm on, the amount from which
    [_build_rain_hazard] reports light rain. *)
Theorem current_comment_agrees_with_alerts (fmt1 fmt0 : Q → string)
    (temp_c wind_ms : option Q) (precip_mm : Py.arg) :
  let pieces := current_pieces fmt1 temp_c wind_ms precip_mm in
  length pieces
  = ((match temp_c with Some _ => 1 | None => 0 end)
     + (match wind_ms with Some _ => 1 | None => 0 end)
     + (match precip_mm with Py.ANum _ => 1 | _ => 0 end))%nat
  ∧ ("gió khá mạnh"%string ∈ pieces ↔ is_Some (_build_wind_hazard fmt0 wind_ms))
  ∧ ("có mưa"%string ∈ pieces ↔ ∃ p, precip_mm = Py.ANum p ∧ 0.1 <= p)
  ∧ (_build_current_comment fmt1 temp_c wind_ms precip_mm
     = "Chưa đủ dữ liệu để mô tả thời tiết hiện tại."%string
     ↔ pieces = []).
Proof.
  cbv zeta. split; [|split; [apply strong_wind_piece|split]].
  - destruct (current_pieces_cases fmt1 temp_c wind_ms precip_mm)
      as (tp & wp & rp & -> & Lt & Lw & Lr & _).
    rewrite !length_app, Lt, Lw, Lr. lia.
  - destruct (current_pieces_cases fmt1 temp_c wind_ms precip_mm)
      as (tp & wp & rp & -> & _ & _ & _ & Htp & Hwp & _ & _ & Hrp).
    rewrite !elem_of_app, <- Hrp. split; [|auto].
    intros [H|[H|H]]; [| |exact H].
    + apply Htp in H as [rest H]. discriminate H.
    + apply Hwp in H as [rest H]. discriminate H.
  - unfold _build_current_comment.
    destruct (current_pieces_cases fmt1 temp_c wind_ms precip_mm)
      as (tp & wp & rp & -> & _ & _ & _ & Htp & Hwp & Hrp & _).
    destruct (tp ++ wp ++ rp)%list as [|x rest] eqn:E; [split; reflexivity|].
    split; [|discriminate]. intros Hj. exfalso.
    assert (Hx : x ∈ (tp ++ wp ++ rp)%list) by (rewrite E; left).
    assert (Hhead : ∃ rest', join_comma (x :: rest) = String "N" rest'
                             ∨ join_comma (x :: rest) = String "g" rest'
                             ∨ join_comma (x :: rest) = String "c" rest'
                             ∨ join_comma (x :: rest) = String "k" rest').
    { rewrite !elem_of_app in Hx. destruct Hx as [H|[H|H]].
      - apply Htp in H as [r ->]. destruct rest; simpl; eexists; left; reflexivity.
      - apply Hwp in H as [r ->]. destruct rest; simpl; eexists; right; left; reflexivity.
      - apply Hrp in H as [->| ->]; destruct rest; simpl; eexists;
          [right; right; left|right; right; left|right; right; right|right; right; right];
          reflexivity. }
    destruct Hhead as (r & [H|[H|[H|H]]]); rewrite H in Hj; discriminate Hj.
Qed.

End current_text.

Lemma current_comment_agrees_with_alerts_witness :
  "gió khá mạnh"%string
  ∈ views_alerts.current_pieces (λ _, ""%string) (Some 30%Q) (Some 10%Q) (Py.ANum 0%Q).
Proof.
  destruct (current_comment_agrees_with_alerts (λ _, ""%string) (λ _, ""%string)
              (Some 30%Q) (Some 10%Q) (Py.ANum 0%Q)) as (_ & Hw & _).
  apply Hw. eexists. vm_compute. reflexivity.
Defined.

Section today_text.

Import views_alerts Spec.
Local Open Scope Z_scope.

Variables obs_map fcst_map : gmap Z hour_rec.

Lemma day_step_consistent (st : day_stats) (n h : Z) :
  day_consistent st n → day_consistent (day_step obs_map fcst_map st h) (n + 1).
Proof.
  unfold day_consistent, day_step.
  intros (H1 & H2 & H3 & H4 & H5 & H6 & H7 & H8 & H9 & H10 & H11 & H12 & H13).
  destruct (hour_pick obs_map fcst_map h) as [[rec is_obs]|]; simpl.
  2: { repeat (split; [first [assumption|lia]|]). lia. }
  rewrite !length_app.
  assert (Hl : ∀ o : option Q, (length (option_list o) ≤ 1)%nat)
    by (intros [?|]; simpl; lia).
  pose proof (Hl (hr_temp_c rec)). pose proof (Hl (hr_wind_ms rec)).
  pose proof (Hl (hr_cloudcover_pct rec)).
  split; [destruct is_obs; lia|]. split; [destruct is_obs; lia|].
  split; [destruct is_obs; lia|]. split; [lia|].
  destruct (hr_precip_mm rec) as [pv|].
  - destruct H9 as [H9a H9b].
    destruct (py_max_spec 0 pv) as [[Hm Em]|[Hm Em]]; rewrite Em;
      destruct (Qgtb_spec pv 0); destruct (Qgeb_spec pv 5); try lra;
      rewrite ?inject_Z_plus; change (inject_Z 1) with 1%Q;
      (split; [lia|]); (split; [lia|]); (split; [lia|]); (split; [lra|]);
      (split;
         [split;
            [intros Hp; first [lia|apply H9a; lra]
            |intros Hr; first [lra|assert (0 < precip_sum st)%Q by (apply H9b; lia); lra]]
         |]);
      (split; [lra|]); (split; [lia|]); (split; lia).
  - split; [lia|]. split; [lia|]. split; [lia|]. split; [exact H8|].
    split; [exact H9|]. split; [exact H10|]. split; [lia|]. split; lia.
Qed.

Lemma day_fold_consistent (hs : list Z) (st : day_stats) (n : Z) :
  day_consistent st n →
  day_consistent (foldl (day_step obs_map fcst_map) st hs) (n + Z.of_nat (length hs)).
Proof.
  revert st n. induction hs as [|h hs IH]; intros st n H; simpl.
  - replace (n + Z.of_nat 0) with n by lia. exact H.
  - replace (n + Z.of_nat (S (length hs))) with (n + 1 + Z.of_nat (length hs)) by lia.
    apply IH, day_step_consistent, H.
Qed.

(** The hours used, observed and forecast after a run, from any state. *)
Lemma day_fold_hours (hs : list Z) (st : day_stats) :
  let st' := foldl (day_step obs_map fcst_map) st hs in
  obs_hours st'
  = obs_hours st + Z.of_nat (length (filter (λ h, is_Some (obs_map !! h)) hs))
  ∧ fcst_hours st'
    = fcst_hours st
      + Z.of_nat (length (filter (λ h, obs_map !! h = None ∧ is_Some (fcst_map !! h)) hs)).
Proof.
  revert st. induction hs as [|h hs IH]; intros st; simpl.
  - split; lia.
  - destruct (IH (day_step obs_map fcst_map st h)) as [I1 I2]. rewrite I1, I2. clear IH I1 I2.
    rewrite !filter_cons. unfold day_step, hour_pick.
    destruct (obs_map !! h) as [ro|] eqn:Ho.
    + destruct (decide (is_Some (Some ro))) as [_|Hn]; [|exfalso; apply Hn; eexists; reflexivity].
      destruct (decide (Some ro = None ∧ is_Some (fcst_map !! h))) as [[Hd _]|_];
        [discriminate Hd|]. simpl. split; lia.
    + destruct (decide (is_Some (@None hour_rec))) as [[x Hx]|_]; [discriminate Hx|].
      destruct (fcst_map !! h) as [rf|] eqn:Hf.
      * destruct (decide (None = None ∧ is_Some (Some rf))) as [_|Hn];
          [|exfalso; apply Hn; split; [reflexivity|eexists; reflexivity]].
        simpl. split; lia.
      * destruct (decide (None = None ∧ is_Some (@None hour_rec))) as [[_ [x Hx]]|_];
          [discriminate Hx|]. simpl. split; lia.
Qed.

(** X23.  The counters of [_build_today_summary_text] after the merge of
    the 24 local hours.  The observed hours are the hours with an
    observation, the forecast hours those with a forecast and no
    observation; the hours used are their sum, at most 24, and 0 exactly
    when no hour has a record.  Heavy-rain hours are rain hours, rain hours
    are used hours; the rain total is non-negative, positive exactly when
    some hour counts as rain, and at least 5 mm per heavy-rain hour; no
    list of values is longer than the number of hours used. *)
Theorem day_stats_consistent :
  let st := day_stats_of obs_map fcst_map in
  day_consistent st 24
  ∧ obs_hours st = Z.of_nat (length (filter (λ h, is_Some (obs_map !! h)) (seqZ 0 24)))
  ∧ fcst_hours st
    = Z.of_nat (length (filter (λ h, obs_map !! h = None ∧ is_Some (fcst_map !! h))
                          (seqZ 0 24)))
  ∧ (used_hours st = 0
     ↔ ∀ h, 0 ≤ h < 24 → obs_map !! h = None ∧ fcst_map !! h = None).
Proof.
  cbv zeta. unfold day_stats_of.
  assert (H0 : day_consistent day_stats0 0).
  { unfold day_consistent, day_stats0. simpl.
    do 7 (split; [lia|]). split; [lra|].
    split; [split; intros; [lra|lia]|].
    split; [change (inject_Z 0) with 0%Q; lra|]. split; [lia|]. split; lia. }
  pose proof (day_fold_consistent (seqZ 0 24) day_stats0 0 H0) as Hc.
  rewrite length_seqZ in Hc. change (0 + Z.of_nat (Z.to_nat 24)) with 24 in Hc.
  destruct (day_fold_hours (seqZ 0 24) day_stats0) as [Ho Hf].
  cbv zeta in Ho, Hf. simpl obs_hours in Ho at 2. simpl fcst_hours in Hf at 2.
  rewrite Z.add_0_l in Ho, Hf.
  split; [exact Hc|]. split; [exact Ho|]. split; [exact Hf|].
  destruct Hc as (Hu & _). rewrite Hu, Ho, Hf.
  set (fo := filter (λ h, is_Some (obs_map !! h)) (seqZ 0 24)).
  set (ff := filter (λ h, obs_map !! h = None ∧ is_Some (fcst_map !! h)) (seqZ 0 24)).
  split.
  - intros Hz h Hh.
    assert (Hfo : fo = []) by (apply length_zero_iff_nil; lia).
    assert (Hff : ff = []) by (apply length_zero_iff_nil; lia).
    assert (Hin : h ∈ seqZ 0 24) by (apply elem_of_seqZ; lia).
    assert (Hno : obs_map !! h = None).
    { destruct (obs_map !! h) as [r|] eqn:E; [|reflexivity]. exfalso.
      assert (Hm : h ∈ fo).
      { apply list_elem_of_filter. split; [rewrite E; eexists; reflexivity|exact Hin]. }
      rewrite Hfo in Hm. inversion Hm. }
    split; [exact Hno|].
    destruct (fcst_map !! h) as [r|] eqn:E; [|reflexivity]. exfalso.
    assert (Hm : h ∈ ff).
    { apply list_elem_of_filter.
      split; [split; [exact Hno|rewrite E; eexists; reflexivity]|exact Hin]. }
    rewrite Hff in Hm. inversion Hm.
  - intros Hnone.
    assert (Hfo : fo = []).
    { destruct fo as [|h l] eqn:E; [reflexivity|exfalso].
      assert (Hm : h ∈ fo) by (rewrite E; left).
      apply list_elem_of_filter in Hm as [[r Hr] Hin]. apply elem_of_seqZ in Hin.
      destruct (Hnone h ltac:(lia)) as [Hn _]. congruence. }
    assert (Hff : ff = []).
    { destruct ff as [|h l] eqn:E; [reflexivity|exfalso].
      assert (Hm : h ∈ ff) by (rewrite E; left).
      apply list_elem_of_filter in Hm as [[_ [r Hr]] Hin]. apply elem_of_seqZ in Hin.
      destruct (Hnone h ltac:(lia)) as [_ Hn]. congruence. }
    rewrite Hfo, Hff. reflexivity.
Qed.

Lemma temp_stats_defined (xs : list Q) :
  (xs = [] ∧ min_list xs = None ∧ Py.max_list xs = None ∧ mean xs = None)
  ∨ (xs ≠ [] ∧ ∃ lo hi m, min_list xs = Some lo ∧ Py.max_list xs = Some hi
                          ∧ mean xs = Some m).
Proof.
  destruct xs as [|x xs]; [left; repeat split|right].
  split; [discriminate|]. do 3 eexists. repeat split.
Qed.

Lemma data_part_head (str : Z → string) (st : day_stats) (s : string) :
  s ∈ today_data_part str st → ∃ rest, s = ("Tổng h" ++ rest)%string.
Proof.
  unfold today_data_part. intros H. apply list_elem_of_singleton in H as ->.
  destruct ((0 <? fcst_hours st) && (0 <? obs_hours st)); [|destruct (0 <? obs_hours st)];
    eexists; reflexivity.
Qed.

Lemma temp_part_head (fmt1 : Q → string) (st : day_stats) (s : string) :
  s ∈ today_temp_part fmt1 st → ∃ rest, s = ("Nhiệt độ dao" ++ rest)%string.
Proof.
  unfold today_temp_part. cbv zeta.
  destruct (temp_stats_defined (temp_vals st))
    as [(_ & E1 & E2 & E3)|(_ & lo & hi & m & E1 & E2 & E3)];
    rewrite E1, ?E2, ?E3.
  - intros H. inversion H.
  - intros H. apply list_elem_of_singleton in H as ->. eexists. reflexivity.
Qed.

Lemma cloud_part_head (st : day_stats) (s : string) :
  s ∈ today_cloud_part st →
  ∃ rest, s = ("Tr" ++ rest)%string ∨ s = String "M" rest ∨ s = ("Nhiều" ++ rest)%string.
Proof.
  unfold today_cloud_part. destruct (mean (cloud_vals st)) as [c|]; [|intros H; inversion H].
  intros H. apply list_elem_of_singleton in H as ->.
  destruct (Py.Qltb c 20); [|destruct (Py.Qltb c 60); [|destruct (Py.Qltb c 85)]];
    eexists; [left|right; left|right; right|left]; reflexivity.
Qed.

Lemma wind_part_head (st : day_stats) (s : string) :
  s ∈ today_wind_part st → ∃ rest, s = String "G" rest.
Proof.
  unfold today_wind_part. destruct (mean (wind_vals st)) as [w|]; [|intros H; inversion H].
  cbv zeta. intros H. apply list_elem_of_singleton in H as ->.
  destruct (Py.Qltb (w * 3.6) 10); [|destruct (Py.Qltb (w * 3.6) 25)];
    eexists; reflexivity.
Qed.

(** The rain paragraph is decided by the number of rain hours alone. *)
Lemma rain_part_cases (fmt1 : Q → string) (str : Z → string) (st : day_stats) (n : Z) :
  day_consistent st n →
  (raining_hours st = 0
   ∧ today_rain_part fmt1 str st
     = ["Hôm nay nhìn chung ít mưa hoặc không mưa đáng kể."%string])
  ∨ (0 < raining_hours st
     ∧ ∃ tail : list string,
         today_rain_part fmt1 str st
         = ("Tổng lượng mưa trong ngày khoảng " ++ fmt1 (precip_sum st) ++ " mm.")%string
           :: tail
         ∧ ∀ s, s ∈ tail → ∃ rest, s = String "C" rest).
Proof.
  unfold day_consistent, today_rain_part.
  intros (_ & _ & _ & _ & H5 & H6 & _ & H8 & [H9a H9b] & _).
  destruct (Z.eqb_spec (raining_hours st) 0) as [E|E].
  - left. split; [exact E|].
    destruct (Qleb_spec (precip_sum st) 0.05) as [_|Hbig]; [reflexivity|].
    exfalso. assert (0 < raining_hours st) by (apply H9a; lra). lia.
  - right. split; [lia|]. rewrite andb_false_r. eexists. split; [reflexivity|].
    intros s. destruct (0 <? heavy_rain_hours st); [|destruct (0 <? raining_hours st)].
    + intros H. apply list_elem_of_singleton in H as ->. eexists. reflexivity.
    + intros H. apply list_elem_of_singleton in H as ->. eexists. reflexivity.
    + intros H. inversion H.
Qed.

(** X24.  The rain and temperature sentences of today's text.  The text
    says that there is little or no rain exactly when no hour counts as a
    rain hour, and gives the total otherwise: the test of the total against
    0.05 mm never decides.  The sentence that gives only a mean temperature
    never occurs; when at least one hour has a temperature, the text gives
    the range with the mean. *)
Theorem today_rain_sentence (fmt1 : Q → string) (str : Z → string) :
  let st := day_stats_of obs_map fcst_map in
  let parts := today_parts fmt1 str st in
  ("Hôm nay nhìn chung ít mưa hoặc không mưa đáng kể."%string ∈ parts
   ↔ raining_hours st = 0)
  ∧ (("Tổng lượng mưa trong ngày khoảng " ++ fmt1 (precip_sum st) ++ " mm.")%string ∈ parts
     ↔ 0 < raining_hours st)
  ∧ (∀ m, ("Nhiệt độ trung bình khoảng " ++ fmt1 m ++ "°C.")%string ∉ parts)
  ∧ (temp_vals st ≠ [] →
     ∃ lo hi m,
       min_list (temp_vals st) = Some lo
       ∧ Py.max_list (temp_vals st) = Some hi
       ∧ mean (temp_vals st) = Some m
       ∧ ("Nhiệt độ dao động khoảng " ++ fmt1 lo ++ "–" ++ fmt1 hi
          ++ "°C (trung bình " ++ fmt1 m ++ "°C).")%string ∈ parts).
Proof.
  cbv zeta.
  assert (Hc : day_consistent (day_stats_of obs_map fcst_map) 24).
  { unfold day_stats_of.
    assert (H0 : day_consistent day_stats0 0).
    { unfold day_consistent, day_stats0. simpl.
      do 7 (split; [lia|]). split; [lra|].
      split; [split; intros; [lra|lia]|].
      split; [change (inject_Z 0) with 0%Q; lra|]. split; [lia|]. split; lia. }
    pose proof (day_fold_consistent (seqZ 0 24) day_stats0 0 H0) as Hc.
    rewrite length_seqZ in Hc. exact Hc. }
  set (st := day_stats_of obs_map fcst_map) in *.
  unfold today_parts.
  assert (Hother : ∀ s,
            s ∈ today_data_part str st ∨ s ∈ today_temp_part fmt1 st
            ∨ s ∈ today_cloud_part st ∨ s ∈ today_wind_part st →
            ∃ rest, s = ("Tổng h" ++ rest)%string ∨ s = ("Nhiệt độ dao" ++ rest)%string
                    ∨ s = ("Tr" ++ rest)%string ∨ s = String "M" rest
                    ∨ s = ("Nhiều" ++ rest)%string ∨ s = String "G" rest).
  { intros s [H|[H|[H|H]]].
    - apply data_part_head in H as [r H]. exists r. tauto.
    - apply temp_part_head in H as [r H]. exists r. tauto.
    - apply cloud_part_head in H as [r [H|[H|H]]]; exists r; tauto.
    - apply wind_part_head in H as [r H]. exists r. tauto. }
  assert (Hsplit : ∀ s,
            s ∈ (today_data_part str st ++ today_temp_part fmt1 st
                 ++ today_rain_part fmt1 str st ++ today_cloud_part st
                 ++ today_wind_part st)%list
            ↔ s ∈ today_rain_part fmt1 str st
              ∨ (s ∈ today_data_part str st ∨ s ∈ today_temp_part fmt1 st
                 ∨ s ∈ today_cloud_part st ∨ s ∈ today_wind_part st)).
  { intros s. rewrite !elem_of_app. tauto. }
  split; [|split; [|split]].
  - rewrite Hsplit. split.
    + intros [H|H].
      * destruct (rain_part_cases fmt1 str st 24 Hc)
          as [[E _]|(_ & tail & Et & Htail)]; [exact E|exfalso].
        rewrite Et in H. apply elem_of_cons in H as [H|H]; [discriminate H|].
        apply Htail in H as [r H]. discriminate H.
      * exfalso. apply Hother in H as [r [H|[H|[H|[H|[H|H]]]]]]; discriminate H.
    + intros E. left.
      destruct (rain_part_cases fmt1 str st 24 Hc) as [[_ Er]|[Hpos _]]; [|lia].
      rewrite Er. left.
  - rewrite Hsplit. split.
    + intros [H|H].
      * destruct (rain_part_cases fmt1 str st 24 Hc) as [[_ Er]|[Hpos _]]; [|exact Hpos].
        exfalso. rewrite Er in H. apply list_elem_of_singleton in H. discriminate H.
      * exfalso. apply Hother in H as [r [H|[H|[H|[H|[H|H]]]]]]; discriminate H.
    + intros Hpos. left.
      destruct (rain_part_cases fmt1 str st 24 Hc)
        as [[E _]|(_ & tail & Et & _)]; [lia|].
      rewrite Et. left.
  - intros m Hin. apply Hsplit in Hin as [H|H].
    + destruct (rain_part_cases fmt1 str st 24 Hc)
        as [[_ Er]|(_ & tail & Et & Htail)].
      * rewrite Er in H. apply list_elem_of_singleton in H. discriminate H.
      * rewrite Et in H. apply elem_of_cons in H as [H|H]; [discriminate H|].
        apply Htail in H as [r H]. discriminate H.
    + apply Hother in H as [r [H|[H|[H|[H|[H|H]]]]]]; discriminate H.
  - intros Hne.
    destruct (temp_stats_defined (temp_vals st))
      as [(E & _)|(_ & lo & hi & m & E1 & E2 & E3)]; [contradiction|].
    exists lo, hi, m. split; [exact E1|]. split; [exact E2|]. split; [exact E3|].
    apply Hsplit. right. right. left.
    unfold today_temp_part. cbv zeta. rewrite E1, E2, E3. left.
Qed.

(** X25.  The day that [_build_today_summary_text] sums up.  The range
    queried starts at local midnight (UTC+7) of the local day of the base
    time and ends at 23:00 local; the base time lies in that day.  The key
    of a row is its local hour, in 0..23, and the 24 hours of the range
    have the 24 different keys: the hour [k] hours after the start has
    key [k]. *)
Theorem today_window (base_utc : Z) :
  (today_start_utc base_utc + TZ_OFFSET) `mod` DAY = 0
  ∧ today_start_utc base_utc ≤ base_utc < today_start_utc base_utc + DAY
  ∧ today_end_utc base_utc = today_start_utc base_utc + 23 * 3600
  ∧ (∀ t, 0 ≤ local_hour t ≤ 23)
  ∧ (∀ k, 0 ≤ k ≤ 23 → local_hour (today_start_utc base_utc + k * 3600) = k)
  ∧ (∀ t, today_start_utc base_utc ≤ t ≤ today_end_utc base_utc →
       t = today_start_utc base_utc + local_hour t * 3600 + t `mod` 3600).
Proof.
  unfold today_end_utc, today_start_utc, local_hour, TZ_OFFSET, DAY.
  change (24 * 3600) with 86400. change (7 * 3600) with 25200.
  pose proof (Z.mod_pos_bound (base_utc + 25200) 86400 ltac:(lia)) as Hm.
  pose proof (Z.div_mod (base_utc + 25200) 86400 ltac:(lia)) as Hd.
  set (r := (base_utc + 25200) `mod` 86400) in *.
  set (q := (base_utc + 25200) `div` 86400) in *.
  assert (Hstart : base_utc - r + 25200 = 86400 * q) by lia.
  split.
  { rewrite Hstart, Z.mul_comm. apply Z_mod_mult. }
  split; [lia|]. split; [reflexivity|].
  split.
  { intros t. pose proof (Z.mod_pos_bound (t + 25200) 86400 ltac:(lia)) as Ht.
    split; [apply Z.div_pos; lia|].
    assert (((t + 25200) `mod` 86400) `div` 3600 < 24); [|lia].
    apply Z.div_lt_upper_bound; lia. }
  split.
  { intros k Hk.
    replace (base_utc - r + k * 3600 + 25200) with (k * 3600 + q * 86400) by lia.
    rewrite Z_mod_plus_full, Z.mod_small by lia.
    apply Z.div_mul. lia. }
  intros t Ht.
  replace (t + 25200) with ((t - (base_utc - r)) + q * 86400) by lia.
  rewrite Z_mod_plus_full, Z.mod_small by lia.
  pose proof (Z.div_mod (t - (base_utc - r)) 3600 ltac:(lia)) as Hdt.
  assert (Hmod : t `mod` 3600 = (t - (base_utc - r)) `mod` 3600).
  { replace t with ((t - (base_utc - r)) + (24 * q - 7) * 3600) at 1 by lia.
    apply Z_mod_plus_full. }
  lia.
Qed.

End today_text.

Lemma day_stats_consistent_witness :
  views_alerts.used_hours (views_alerts.day_stats_of ∅ ∅) = 0.
Proof.
  destruct (day_stats_consistent ∅ ∅) as (_ & _ & _ & H).
  apply H. intros h _. split; apply lookup_empty.
Defined.

Lemma today_rain_sentence_witness :
  "Hôm nay nhìn chung ít mưa hoặc không mưa đáng kể."%string
  ∈ views_alerts.today_parts (λ _, ""%string) (λ _, ""%string)
      (views_alerts.day_stats_of
         {[ 7 := views_alerts.mk_hour_rec (Some 30%Q) None (Some 0%Q) None ]} ∅).
Proof.
  destruct (today_rain_sentence
              {[ 7 := views_alerts.mk_hour_rec (Some 30%Q) None (Some 0%Q) None ]} ∅
              (λ _, ""%string) (λ _, ""%string)) as (H & _).
  apply H. vm_compute. reflexivity.
Defined.

Lemma today_window_witness :
  views_alerts.local_hour (views_alerts.today_start_utc 1762176125 + 9 * 3600) = 9.
Proof.
  destruct (today_window 1762176125) as (_ & _ & _ & _ & H & _).
  apply H. lia.
Defined.

(** ** The summary endpoint *)

Section summary_endpoint.

Import views_alerts Spec.
Local Open Scope Z_scope.

Variable pow016 : Q → Q.
Variables fmt1 fmt0 : Q → string.
Variable str : Z → string.



End summary_endpoint.


(** ** Effective rain on consistent sums *)

Section effective_rain_sums.

Import views_flood Spec.
Local Open Scope Q_scope.

(** On sums that are non-negative the clamps of [_effective_rain_6h] do
    nothing. *)
Lemma effective_rain_6h_plain (r1 r3 r6 : Q) :
  0 <= r1 → 0 <= r3 → 0 <= r6 →
  _effective_rain_6h (Py.ANum r1) (Py.ANum r3) (Py.ANum r6)
  == r1 + 0.6 * Qmax 0 (r3 - r1) + 0.4 * Qmax 0 (r6 - r3)
  ∧ _effective_rain_3h (Py.ANum r1) (Py.ANum r3) == r1 + 0.6 * Qmax 0 (r3 - r1).
Proof.
  intros H1 H3 H6.
  destruct (effective_rain_unfold (Py.ANum r1) (Py.ANum r3) (Py.ANum r6)) as (_ & E3 & E).
  unfold given in E, E3.
  pose proof (Q.max_r 0 r1 H1) as G1. pose proof (Q.max_r 0 r3 H3) as G3.
  pose proof (Q.max_r 0 r6 H6) as G6.
  set (g1 := Qmax 0 r1) in *. set (g3 := Qmax 0 r3) in *. set (g6 := Qmax 0 r6) in *.
  clearbody g1 g3 g6.
  destruct (Q.max_spec 0 (g3 - g1)) as [[? Ea]|[? Ea]];
    destruct (Q.max_spec 0 (g6 - g3)) as [[? Eb]|[? Eb]];
    destruct (Q.max_spec 0 (r3 - r1)) as [[? Ec]|[? Ec]];
    destruct (Q.max_spec 0 (r6 - r3)) as [[? Ed]|[? Ed]];
    set (ma := Qmax 0 (g3 - g1)) in *; set (mb := Qmax 0 (g6 - g3)) in *;
    set (mc := Qmax 0 (r3 - r1)) in *; set (md := Qmax 0 (r6 - r3)) in *;
    clearbody ma mb mc md; split; lra.
Qed.

Lemma effective_rain_6h_nested (r1 r3 r6 : Q) :
  0 <= r1 → r1 <= r3 → r3 <= r6 →
  _effective_rain_6h (Py.ANum r1) (Py.ANum r3) (Py.ANum r6)
  == 0.4 * r1 + 0.2 * r3 + 0.4 * r6
  ∧ _effective_rain_3h (Py.ANum r1) (Py.ANum r3) == 0.4 * r1 + 0.6 * r3.
Proof.
  intros H1 H3 H6.
  destruct (effective_rain_6h_plain r1 r3 r6) as [E6 E3]; [lra|lra|lra|].
  pose proof (Q.max_r 0 (r3 - r1) ltac:(lra)) as Ma.
  pose proof (Q.max_r 0 (r6 - r3) ltac:(lra)) as Mb.
  set (ma := Qmax 0 (r3 - r1)) in *. set (mb := Qmax 0 (r6 - r3)) in *.
  clearbody ma mb. split; lra.
Qed.

(** The alert rules' sum on exact values is the formula of the
    specification. *)
Lemma rain_eff_as_specified (r1 r3 r6 : option Q) :
  views_alerts.rain_eff r1 r3 r6 == rain_eff_formula r1 r3 r6.
Proof.
  unfold views_alerts.rain_eff, rain_eff_formula, views_alerts.float_or_zero.
  rewrite !py_max_Qmax. reflexivity.
Qed.

(** X27.  The effective 6-hour rain on the sums the queries produce.  For
    non-negative sums the flood view and the alert rules compute the same
    value.  For nested sums [0 <= r1 <= r3 <= r6] it is the weighted mean
    [0.4 r1 + 0.2 r3 + 0.4 r6], so it lies between the 1-hour and the
    6-hour sum; the effective 3-hour rain is [0.4 r1 + 0.6 r3]. *)
Theorem effective_rain_weighted_mean (r1 r3 r6 : Q) :
  0 <= r1 → 0 <= r3 → 0 <= r6 →
  let eff := _effective_rain_6h (Py.ANum r1) (Py.ANum r3) (Py.ANum r6) in
  views_alerts.rain_eff (Some r1) (Some r3) (Some r6) == eff
  ∧ (r1 <= r3 → r3 <= r6 →
     eff == 0.4 * r1 + 0.2 * r3 + 0.4 * r6
     ∧ r1 <= eff ∧ eff <= r6
     ∧ _effective_rain_3h (Py.ANum r1) (Py.ANum r3) == 0.4 * r1 + 0.6 * r3).
Proof.
  intros H1 H3 H6. cbv zeta. split.
  - destruct (effective_rain_6h_plain r1 r3 r6 H1 H3 H6) as [E _].
    rewrite rain_eff_as_specified, E. reflexivity.
  - intros H13 H36.
    destruct (effective_rain_6h_nested r1 r3 r6 H1 H13 H36) as [E E3].
    split; [exact E|]. split; [rewrite E; lra|]. split; [rewrite E; lra|exact E3].
Qed.

End effective_rain_sums.

Lemma effective_rain_weighted_mean_witness :
  (views_flood._effective_rain_6h (Py.ANum 2) (Py.ANum 8) (Py.ANum 10)
   == 0.4 * 2 + 0.2 * 8 + 0.4 * 10)%Q.
Proof.
  destruct (effective_rain_weighted_mean 2 8 10) as (_ & H); [lra|lra|lra|].
  destruct H as (E & _); [lra|lra|]. exact E.
Defined.

(** ** The locations the loader keeps *)

Section selection.

Import fetch_openmeteo_hourly_obs.
Local Open Scope Z_scope.

Context {A : Type}.

Lemma omap_seq_lookup (f : nat → option A) (m i : nat) :
  (∀ j, (j < m)%nat → is_Some (f j)) →
  omap f (seq 0 m) !! i = if decide (i < m)%nat then f i else None.
Proof.
  intros Hf. induction m as [|m IH].
  - destruct (decide (i < 0)%nat); [lia|reflexivity].
  - rewrite seq_S, omap_app. simpl.
    assert (Hlen : length (omap f (seq 0 m)) = m).
    { clear IH. assert (H : ∀ n, (n ≤ m)%nat → length (omap f (seq 0 n)) = n).
      { induction n as [|n IHn]; intros Hn; [reflexivity|].
        rewrite seq_S, omap_app, length_app, IHn by lia. simpl.
        destruct (Hf n ltac:(lia)) as [x ->]. simpl. lia. }
      apply H. lia. }
    destruct (Hf m ltac:(lia)) as [x Hx]. rewrite Hx. simpl.
    destruct (decide (i < m)%nat) as [Hi|Hi].
    + rewrite lookup_app_l by lia. rewrite IH by (intros; apply Hf; lia).
      destruct (decide (i < m)%nat); [|lia]. destruct (decide (i < S m)%nat); [reflexivity|lia].
    + rewrite lookup_app_r by lia. rewrite Hlen.
      destruct (decide (i < S m)%nat) as [Hi'|Hi'].
      * replace (i - m)%nat with 0%nat by lia. simpl. replace i with m by lia.
        symmetry. exact Hx.
      * destruct (i - m)%nat as [|d] eqn:E; [lia|]. reflexivity.
Qed.

(** [lst[::k]] by index. *)
Lemma slice_step_lookup (lst : list A) (k : Z) (i : nat) :
  1 ≤ k → slice_step lst k !! i = lst !! (i * Z.to_nat k)%nat.
Proof.
  intros Hk. unfold slice_step.
  set (len := Z.of_nat (length lst)). set (c := (len + k - 1) `div` k).
  assert (Hc : k * (c - 1) < len ∧ len ≤ k * c ∧ 0 ≤ c).
  { pose proof (Z.div_mod (len + k - 1) k ltac:(lia)) as Hdm.
    pose proof (Z.mod_pos_bound (len + k - 1) k ltac:(lia)) as Hmb.
    fold c in Hdm. assert (0 ≤ c) by (apply Z.div_pos; lia). nia. }
  destruct Hc as (Hc1 & Hc2 & Hc0).
  rewrite omap_seq_lookup.
  - destruct (decide (i < Z.to_nat c)%nat) as [Hi|Hi]; [reflexivity|].
    symmetry. apply lookup_ge_None. unfold len in *. nia.
  - intros j Hj. apply lookup_lt_is_Some. unfold len in *. nia.
Qed.

(** X29.  The locations [handle] keeps, by index.  With the stride made
    at least 1 and the offset at least 0, element [j] of the selection is
    the row at index [(offset + j) * stride] of the query, for the [j] below
    the limit (when it is positive) and below [--max] (when it is
    positive); so the selection is taken in order, without repetition, and
    a stride, offset, limit or maximum of 0 or less, where it applies, leaves
    the rows as they are. *)
Theorem select_locations_lookup (locs : list A) (o_stride o_offset o_limit o_max : Z)
    (j : nat) :
  select_locations locs o_stride o_offset o_limit o_max !! j
  = if decide ((0 < o_limit ∧ o_limit ≤ Z.of_nat j) ∨ (0 < o_max ∧ o_max ≤ Z.of_nat j))
    then None
    else locs !! Z.to_nat ((Z.max 0 o_offset + Z.of_nat j) * Z.max 1 o_stride).
Proof.
  unfold select_locations, int_or. cbv zeta.
  assert (Es : Z.max 1 (if o_stride =? 0 then 1 else o_stride) = Z.max 1 o_stride).
  { destruct (Z.eqb_spec o_stride 0); lia. }
  assert (Eo : Z.max 0 (if o_offset =? 0 then 0 else o_offset) = Z.max 0 o_offset).
  { destruct (Z.eqb_spec o_offset 0); lia. }
  assert (El : (if o_limit =? 0 then 0 else o_limit) = o_limit).
  { destruct (Z.eqb_spec o_limit 0); lia. }
  rewrite Es, Eo, El. clear Es Eo El.
  set (stride := Z.max 1 o_stride). set (off := Z.max 0 o_offset).
  set (l1 := if 1 <? stride then slice_step locs stride else locs).
  assert (H1 : ∀ i : nat, l1 !! i = locs !! (i * Z.to_nat stride)%nat).
  { intros i. unfold l1. destruct (Z.ltb_spec 1 stride) as [Hs|Hs].
    - apply slice_step_lookup. lia.
    - replace (Z.to_nat stride) with 1%nat by lia. rewrite Nat.mul_1_r. reflexivity. }
  set (l2 := if negb (off =? 0) || negb (o_limit =? 0)
             then if 0 <? o_limit then take (Z.to_nat o_limit) (drop (Z.to_nat off) l1)
                  else drop (Z.to_nat off) l1
             else l1).
  assert (H2 : ∀ i : nat,
            l2 !! i = if decide (0 < o_limit ∧ o_limit ≤ Z.of_nat i) then None
                      else l1 !! (Z.to_nat off + i)%nat).
  { intros i. unfold l2.
    destruct (Z.eqb_spec off 0) as [Eo|Eo]; destruct (Z.eqb_spec o_limit 0) as [El|El];
      simpl.
    - destruct (decide _) as [[? ?]|_]; [lia|]. rewrite Eo. reflexivity.
    - destruct (Z.ltb_spec 0 o_limit) as [Hl|Hl].
      + destruct (decide _) as [[_ Hi]|Hn].
        * apply lookup_take_ge. lia.
        * rewrite lookup_take_lt by lia. apply lookup_drop.
      + destruct (decide _) as [[? ?]|_]; [lia|]. apply lookup_drop.
    - replace (0 <? o_limit) with false by lia.
      destruct (decide _) as [[? ?]|_]; [lia|]. apply lookup_drop.
    - destruct (Z.ltb_spec 0 o_limit) as [Hl|Hl].
      + destruct (decide _) as [[_ Hi]|Hn].
        * apply lookup_take_ge. lia.
        * rewrite lookup_take_lt by lia. apply lookup_drop.
      + destruct (decide _) as [[? ?]|_]; [lia|]. apply lookup_drop. }
  assert (Hidx : Z.to_nat ((off + Z.of_nat j) * stride)
                 = ((Z.to_nat off + j) * Z.to_nat stride)%nat) by (unfold off, stride; nia).
  rewrite Hidx, <- H1.
  destruct (Z.ltb_spec 0 o_max) as [Hm|Hm].
  - destruct (decide (Z.to_nat o_max ≤ j)%nat) as [Hj|Hj].
    + rewrite lookup_take_ge by lia.
      destruct (decide _) as [_|Hn]; [reflexivity|exfalso; apply Hn; right; lia].
    + rewrite lookup_take_lt by lia. rewrite H2.
      destruct (decide (0 < o_limit ∧ o_limit ≤ Z.of_nat j)) as [Hl|Hl].
      * destruct (decide _) as [_|Hn]; [reflexivity|exfalso; apply Hn; left; exact Hl].
      * destruct (decide _) as [[?|?]|_]; [contradiction|lia|reflexivity].
  - rewrite H2.
    destruct (decide (0 < o_limit ∧ o_limit ≤ Z.of_nat j)) as [Hl|Hl].
    + destruct (decide _) as [_|Hn]; [reflexivity|exfalso; apply Hn; left; exact Hl].
    + destruct (decide _) as [[?|?]|_]; [contradiction|lia|reflexivity].
Qed.

End selection.
